(** * Handwritten-form review notebook: projection, merge, persistence

    A shallow embedding of the code cells of
    [textract-hand-written-a2i-forms.ipynb].  The notebook is a script:
    its cells run top to bottom over one set of global variables, and an
    exception in a cell stops the run.  Service calls (document analysis,
    human-loop service, object storage, datastore) are recorded as events
    and answered by an explicit environment. *)

From stdpp Require Import gmap strings list fin_maps pretty sorting.
From Stdlib Require Import ZArith Lia Ascii.

Open Scope string_scope.
Open Scope list_scope.
Open Scope nat_scope.

(** ** Python values *)

Module Py.

(** Exceptions the cells can raise. [TimeoutError] is never raised by the
    notebook; it is listed so that statements can say so. [OutsideModel]
    is no exception: it marks an input this development does not follow
    further. *)
Inductive exn :=
  | NameError (name : string)
  | KeyError (key : string)
  | AttributeError (attr : string)
  | ValueError (msg : string)
  | ResourceInUseException (name : string)
  | ResourceNotFoundException (name : string)
  | ParserError (msg : string)
  | EmptyDataError (msg : string)
  | TimeoutError
  | OutsideModel (what : string).

Inductive result (A : Type) :=
  | Ok (a : A)
  | Raise (e : exn).
Arguments Ok {A} a.
Arguments Raise {A} e.

Definition bind {A B} (m : result A) (k : A → result B) : result B :=
  match m with
  | Ok a => k a
  | Raise e => Raise e
  end.

(** The objects that flow through the notebook's tables and answers.
    [VOther r] is any other object (a float, a dict of radio buttons, ...)
    carried with the text [str] prints for it. *)
Inductive pyobj :=
  | VNone
  | VNaN
  | VStr (s : string)
  | VInt (n : Z)
  | VBool (b : bool)
  | VOther (repr : string).

#[export] Instance pyobj_eq_dec : EqDecision pyobj.
Proof. solve_decision. Defined.

(** [str(v)] *)
Definition str (v : pyobj) : string :=
  match v with
  | VNone => "None"
  | VNaN => "nan"
  | VStr s => s
  | VInt n => pretty n
  | VBool true => "True"
  | VBool false => "False"
  | VOther r => r
  end.

(** [str(o)] of an object that may be [None] and otherwise prints its text. *)
Definition str_opt (o : option string) : string :=
  match o with
  | Some s => s
  | None => "None"
  end.

(** [d.get(k)]: the value, or [None] when the key is absent. *)
Definition get (d : gmap string pyobj) (k : string) : pyobj :=
  default VNone (d !! k).

(** Truth value of a string: non-empty. *)
Definition truthy (s : string) : bool :=
  match s with
  | EmptyString => false
  | String _ _ => true
  end.

(** A Python string is taken as a string of code points below 256.
    [c.isspace()] on these code points: tab, line feed, vertical
    tab, form feed, carriage return, the four separators 28..31, space,
    next-line (133) and no-break space (160). *)
Definition isspace (c : ascii) : bool :=
  let n := nat_of_ascii c in
  ((9 <=? n) && (n <=? 13)) || ((28 <=? n) && (n <=? 32))
  || (n =? 133) || (n =? 160).

(** [s.rstrip()]: drop the longest all-whitespace suffix. *)
Fixpoint rstrip (s : string) : string :=
  match s with
  | EmptyString => EmptyString
  | String c r =>
      match rstrip r with
      | EmptyString => if isspace c then EmptyString else String c EmptyString
      | r' => String c r'
      end
  end.

Fixpoint all_space (s : string) : bool :=
  match s with
  | EmptyString => true
  | String c r => isspace c && all_space r
  end.

(** Last character of a string, if any. *)
Fixpoint last_char (s : string) : option ascii :=
  match s with
  | EmptyString => None
  | String c EmptyString => Some c
  | String _ r => last_char r
  end.

(** [range(0, n)] as integer labels. *)
Definition range (n : nat) : list Z := seqZ 0 (Z.of_nat n).

End Py.

Import Py.

(** ** The parsed analysis response (the [trp] document objects) *)

Module Trp.

Record Cell := { text : string }.
Record Row := { cells : list Cell }.
Record Table := { rows : list Row }.

(** [field.key] and [field.value] are objects printing their text, or
    [None] when the block has no such relationship. *)
Record Field := { key : option string; value : option string }.
Record Form := { fields : list Field }.
Record Page := { tables : list Table; form : Form }.
Record Document := { pages : list Page }.

(** Tables in the order the traversal meets them. *)
Definition all_tables (doc : Document) : list Table :=
  concat (map tables (pages doc)).


End Trp.

Import Trp.

(** ** Projection cells *)

Module Projection.

(** The two loop variables of the traversal cell that later cells read. *)
Record Globals := { page : option Page; table : option Table }.

Definition unbound : Globals := {| page := None; table := None |}.

(** [for table in page.tables: ...] (the body only prints). *)
Definition iterate_tables (g : Globals) (ts : list Table) : Globals :=
  fold_left (λ g t, {| page := page g; table := Some t |}) ts g.

(** [for page in doc.pages: ... for table in page.tables: ...] *)
Definition iterate_document (doc : Document) : Globals :=
  fold_left
    (λ g p, iterate_tables {| page := Some p; table := table g |} (tables p))
    (pages doc) unbound.

(** [str(field.key)+" "+str(field.value)] *)
Definition originalText (f : Field) : string :=
  str_opt (key f) +:+ " " +:+ str_opt (value f).

(** The form cell: one [writerow] of a one-field row per field of [page]. *)
Definition form_rows (g : Globals) : result (list (list string)) :=
  match page g with
  | None => Raise (NameError "page")
  | Some p =>
      Ok (fold_left (λ written f, written ++ [[originalText f]])
            (fields (form p)) [])
  end.

(** The inner loop of the table cell: [csvrow] after visiting the cells. *)
Definition csvrow (row : Row) : list string :=
  fold_left
    (λ acc cell, if truthy (text cell) then acc ++ [rstrip (text cell)] else acc)
    (cells row) [].

(** The table cell: one [writerow(csvrow)] per row of [table]. *)
Definition tab_rows (g : Globals) : result (list (list string)) :=
  match table g with
  | None => Raise (NameError "table")
  | Some t =>
      Ok (fold_left (λ written row, written ++ [csvrow row]) (rows t) [])
  end.

End Projection.

Import Projection.

(** ** Data frames

    A frame is its ordered column names and its rows, each row carrying
    its index label.  The frames of the notebook are loaded with labels
    [0 .. n-1]; nothing here assumes it. *)

Module Pandas.

Record DataFrame := {
  columns : list string;
  body : list (Z * gmap string pyobj)
}.

(** [len(df)] *)
Definition len (df : DataFrame) : nat := length (body df).

(** [df.index] *)
Definition index (df : DataFrame) : list Z := map fst (body df).

(** A row holding NaN in every column. *)
Definition nan_row (cols : list string) : gmap string pyobj :=
  list_to_map (map (λ c, (c, VNaN)) cols).

(** [df.at[j, c] = v]: sets the cell of the row labelled [j]; a column
    that does not exist yet is added, NaN elsewhere; a label that does
    not exist yet gets a new row at the end. *)
Definition at_set (j : Z) (c : string) (v : pyobj) (df : DataFrame)
  : DataFrame :=
  let fill (r : gmap string pyobj) :=
    if decide (c ∈ columns df) then r else <[c := VNaN]> r in
  let cols :=
    if decide (c ∈ columns df) then columns df else columns df ++ [c] in
  if decide (j ∈ index df) then
    {| columns := cols;
       body := map (λ lr, (lr.1, if decide (lr.1 = j)
                                 then <[c := v]> (fill lr.2)
                                 else fill lr.2)) (body df) |}
  else
    {| columns := cols;
       body := map (λ lr, (lr.1, fill lr.2)) (body df)
               ++ [(j, <[c := v]> (nan_row cols))] |}.

Definition null_to_None (v : pyobj) : pyobj :=
  match v with
  | VNaN => VNone
  | _ => v
  end.

(** [df.where(df.notnull(), None)] *)
Definition where_notnull_None (df : DataFrame) : DataFrame :=
  {| columns := columns df;
     body := map (λ lr, (lr.1, null_to_None <$> lr.2)) (body df) |}.

(** The row labelled [l], or a row of NaN when the frame has none. *)
Definition row_at (df : DataFrame) (l : Z) : gmap string pyobj :=
  match list_find (λ lr, lr.1 = l) (body df) with
  | Some (_, (_, r)) => r
  | None => nan_row (columns df)
  end.

(** [left.join(right, how='outer')] for frames with unique labels: the
    sorted union of the labels, the columns of both; overlapping column
    names are refused. *)
Definition join_outer (left right : DataFrame) : result DataFrame :=
  if decide (Exists (λ c, c ∈ columns right) (columns left)) then
    Raise (ValueError "columns overlap but no suffix specified")
  else
    Ok {| columns := columns left ++ columns right;
          body := map (λ l, (l, row_at left l ∪ row_at right l))
                    (merge_sort Z.le (remove_dups (index left ++ index right)))
       |}.

(** [row[c]] on a row handed out by [iterrows], and [df[c]]. *)
Definition row_getitem (cols : list string) (r : gmap string pyobj)
    (c : string) : result pyobj :=
  if decide (c ∈ cols) then Ok (default VNaN (r !! c)) else Raise (KeyError c).

(** [df[c].to_list()] *)
Definition column_to_list (df : DataFrame) (c : string)
  : result (list pyobj) :=
  if decide (c ∈ columns df)
  then Ok (map (λ lr, default VNaN (lr.2 !! c)) (body df))
  else Raise (KeyError c).

End Pandas.

Import Pandas.

(** ** Merging the reviewer's answer *)

Module Merge.

(** What the global [x] is bound to: the counter of the activation loop,
    or an answer dictionary. *)
Inductive xval :=
  | XInt (n : Z)
  | XDict (d : gmap string pyobj).

Record HumanAnswer := { answerContent : gmap string pyobj }.
Record JsonOutput := { humanAnswers : list HumanAnswer }.

(** [for i in json_output['humanAnswers']: x = i['answerContent']] *)
Definition bind_answer (x : option xval) (out : JsonOutput) : option xval :=
  fold_left (λ _ i, Some (XDict (answerContent i))) (humanAnswers out) x.

(** [x.get(k)] *)
Definition x_get (x : option xval) (k : string) : result pyobj :=
  match x with
  | None => Raise (NameError "x")
  | Some (XInt _) => Raise (AttributeError "get")
  | Some (XDict d) => Ok (get d k)
  end.

(** [name+str(j+1)] *)
Definition synth (name : string) (j : Z) : string :=
  name +:+ pretty (j + 1)%Z.

(** One assignment [df.at[j, col] = str(x.get(name+str(j+1)))]. *)
Definition assign (x : option xval) (j : Z) (col name : string)
    (df : DataFrame) : result DataFrame :=
  bind (x_get x (synth name j)) (λ v, Ok (at_set j col (VStr (str v)) df)).

(** The assignments of one loop body, in order: (column, answer field). *)
Definition form_fields : list (string * string) :=
  [("TrueHeader", "TrueHdr"); ("Comments", "Comments")].

Definition tab_fields : list (string * string) :=
  [("TrueStartDate", "TrueStartDate"); ("TrueEndDate", "TrueEndDate");
   ("TrueEmpName", "TrueEmpName"); ("TruePosHeld", "TruePosHeld");
   ("TrueResLeave", "TrueResLeave"); ("ChangeComments", "Change Reason")].

Definition loop_body (fs : list (string * string)) (x : option xval)
    (df : result DataFrame) (j : Z) : result DataFrame :=
  fold_left (λ acc cf, bind acc (assign x j cf.1 cf.2)) fs df.

(** [for j in range(0, len(df)): ...] followed by
    [df = df.where(df.notnull(), None)]. *)
Definition merge (fs : list (string * string)) (x : option xval)
    (df : DataFrame) : result DataFrame :=
  bind (fold_left (loop_body fs x) (range (len df)) (Ok df))
       (λ df', Ok (where_notnull_None df')).

Definition merge_form := merge form_fields.
Definition merge_tab := merge tab_fields.

End Merge.

Import Merge.

(** ** The datastore *)

Module Dynamo.

Inductive attr :=
  | AttrS (s : string)
  | AttrN (n : Z)
  | AttrNull.

(** The datastore maps a table name to the table, and a table maps the
    number under its key attribute to the item.
    [dynamodb.create_table(TableName=name, ...)] refuses a name in use. *)
Definition create_table (name : string) (ds : gmap string (gmap Z (gmap string attr)))
  : result (gmap string (gmap Z (gmap string attr))) :=
  match ds !! name with
  | Some _ => Raise (ResourceInUseException name)
  | None => Ok (<[name := ∅]> ds)
  end.

(** [table.put_item(Item=item)] with key attribute [line_nr]: the item
    replaces the item of that key, if any. *)
Definition put_item (name : string) (k : Z) (item : gmap string attr)
    (ds : gmap string (gmap Z (gmap string attr)))
  : result (gmap string (gmap Z (gmap string attr))) :=
  match ds !! name with
  | Some T => Ok (<[name := <[k := item]> T]> ds)
  | None => Raise (ResourceNotFoundException name)
  end.

(** ["emp_hist-"+str(uuid.uuid4())] *)
Definition tablename (uuid : string) : string := "emp_hist-" +:+ uuid.

(** The item attributes of the upload cell, in order:
    (attribute, frame column). *)
Definition item_fields : list (string * string) :=
  [("orig_hdr", "FormHeader"); ("true_hdr", "TrueHeader");
   ("comments", "Comments"); ("start_date", "Start Date");
   ("end_date", "End Date"); ("emp_name", "Employer Name");
   ("position_held", "Position Held");
   ("reason_for_leaving", "Reason for leaving");
   ("true_start_date", "TrueStartDate"); ("true_end_date", "TrueEndDate");
   ("true_emp_name", "TrueEmpName"); ("true_position_held", "TruePosHeld");
   ("true_reason_for_leaving", "TrueResLeave");
   ("change_comments", "ChangeComments")].

(** The [Item] dictionary built for the row labelled [idx]. *)
Definition item_of (cols : list string) (idx : Z) (row : gmap string pyobj)
  : result (gmap string attr) :=
  fold_left
    (λ acc ac, bind acc (λ item,
       bind (row_getitem cols row ac.2) (λ v,
         Ok (<[ac.1 := AttrS (str v)]> item))))
    item_fields (Ok {["line_nr" := AttrN idx]}).

End Dynamo.

Import Dynamo.

(** ** The cells that talk to services *)

Module Notebook.

Inductive event :=
  | DescribeFlowDefinition
  | Sleep (seconds : nat)
  | StartHumanLoop (name : string)
      (header : list (gmap string pyobj)) (pairs : list (gmap string pyobj))
  | DescribeHumanLoop (name : string)
  | DescribeWorkteam
  | GetObject
  | CreateTable (name : string)
  | PutItem (name : string) (line_nr : Z).

#[export] Instance event_eq_dec : EqDecision event.
Proof. solve_decision. Defined.

(** What the services answer during one run: the status returned by the
    k-th [describe_flow_definition] and the k-th [describe_human_loop]
    call, the answer document stored at the output location, and the two
    identifiers drawn by [uuid.uuid4()]. *)
Record Env := {
  flow_status : nat → string;
  loop_status : nat → string;
  loop_output : JsonOutput;
  loop_uuid : string;
  table_uuid : string
}.

(** The calls made so far and the datastore. *)
Record World := {
  trace : list event;
  store : gmap string (gmap Z (gmap string attr))
}.

(** A cell: it may raise, and leaves the world as it was at that point. *)
Definition M (A : Type) : Type := World → result A * World.

#[export] Instance M_ret : MRet M := λ A a w, (Ok a, w).
#[export] Instance M_bind : MBind M := λ A B k m w,
  match m w with
  | (Ok a, w') => k a w'
  | (Raise e, w') => (Raise e, w')
  end.

Definition lift {A} (r : result A) : M A := λ w, (r, w).

Definition emit (e : event) : M unit :=
  λ w, (Ok (), {| trace := trace w ++ [e]; store := store w |}).

(** A datastore call: it may raise, and then changes nothing. *)
Definition on_store {A}
    (call : gmap string (gmap Z (gmap string attr))
            → result (A * gmap string (gmap Z (gmap string attr)))) : M A :=
  λ w, match call (store w) with
       | Ok (a, ds) => (Ok a, {| trace := trace w; store := ds |})
       | Raise e => (Raise e, w)
       end.

(** [for b in l: a = body(a, b)] *)
Fixpoint for_each {A B} (body : A → B → M A) (a : A) (l : list B) : M A :=
  match l with
  | [] => mret a
  | b :: l' => a' ← body a b; for_each body a' l'
  end.

(** [for x in range(60): ... if status == 'Active': break; time.sleep(2)],
    with [k] the number of status calls made before. *)
Fixpoint flow_loop (env : Env) (xs : list Z) (k : nat) (x : option xval)
  : M (option xval) :=
  match xs with
  | [] => mret x
  | n :: rest =>
      _ ← emit DescribeFlowDefinition;
      if String.eqb (flow_status env k) "Active"
      then mret (Some (XInt n))
      else _ ← emit (Sleep 2); flow_loop env rest (S k) (Some (XInt n))
  end.

Definition flow_wait (env : Env) : M (option xval) :=
  flow_loop env (range 60) 0 None.

(** The payload rows: (payload key, frame column). *)
Definition pair_fields : list (string * string) :=
  [("startdate", "Start Date"); ("enddate", "End Date");
   ("empname", "Employer Name"); ("posheld", "Position Held");
   ("resleave", "Reason for leaving")].

(** The columns are read first, in order; then one dictionary per
    position [x] in [range(n)], with ["{}".format(x)] under [rowkey]. *)
Definition payload (rowkey : string) (fs : list (string * string))
    (df : DataFrame) : result (list (gmap string pyobj)) :=
  bind
    (fold_left
       (λ acc kc, bind acc (λ cols,
          bind (column_to_list df kc.2) (λ vs, Ok (cols ++ [(kc.1, vs)]))))
       fs (Ok []))
    (λ cols,
       Ok (map (λ n : nat,
                  fold_left (λ d kv, <[kv.1 := default VNaN (kv.2 !! n)]> d)
                    cols {[rowkey := VStr (pretty n)]})
             (seq 0 (len df)))).

Definition item_list (df_tab : DataFrame) := payload "row" pair_fields df_tab.
Definition hdr_list (df_form : DataFrame) :=
  payload "hdrrow" [("orighdr", "FormHeader")] df_form.

(** The status cell: one [describe_human_loop]; the list
    [completed_human_loops] is rebuilt from empty each time the cell runs. *)
Definition status_cell (env : Env) (k : nat) : M (list nat) :=
  _ ← emit (DescribeHumanLoop (loop_uuid env));
  mret (if String.eqb (loop_status env k) "Completed" then [k] else []).

(** [for resp in completed_human_loops: ... json_output = json.loads(...)] *)
Definition fetch_cell (env : Env) (completed : list nat)
  : M (option JsonOutput) :=
  for_each (λ _ _, _ ← emit GetObject; mret (Some (loop_output env)))
         None completed.

(** A merge cell: [json_output] must be bound; [x] is rebound per answer. *)
Definition merge_cell (fs : list (string * string)) (x : option xval)
    (json_output : option JsonOutput) (df : DataFrame)
  : result (option xval * DataFrame) :=
  match json_output with
  | None => Raise (NameError "json_output")
  | Some out =>
      let x' := bind_answer x out in
      bind (merge fs x' df) (λ df', Ok (x', df'))
  end.

(** The join cell. *)
Definition join_cell (df_form df_tab : DataFrame) : result DataFrame :=
  bind (join_outer df_form df_tab) (λ d, Ok (where_notnull_None d)).

(** The table-creation cell. *)
Definition create_cell (uuid : string) : M string :=
  let name := tablename uuid in
  _ ← emit (CreateTable name);
  on_store (λ ds, bind (create_table name ds) (λ ds', Ok (name, ds'))).

(** The body of the upload loop: [table.put_item(Item={...})] for one row. *)
Definition upload_row (name : string) (cols : list string) (_ : unit)
    (lr : Z * gmap string pyobj) : M unit :=
  item ← lift (item_of cols lr.1 lr.2);
  _ ← emit (PutItem name lr.1);
  on_store (λ ds, bind (put_item name lr.1 item ds) (λ ds', Ok ((), ds'))).

(** The upload cell: [for idx, row in df_doc.iterrows(): table.put_item(...)]. *)
Definition upload_cell (name : string) (df_doc : DataFrame) : M unit :=
  for_each (upload_row name (columns df_doc)) () (body df_doc).

(** The persistence cells: table creation, then upload. *)
Definition persist (uuid : string) (df_doc : DataFrame) : M unit :=
  name ← create_cell uuid; upload_cell name df_doc.

(** Flow activation wait, payload and submission. *)
Definition dispatch (env : Env) (df_form df_tab : DataFrame)
  : M (option xval) :=
  x ← flow_wait env;
  items ← lift (item_list df_tab);
  hdrs ← lift (hdr_list df_form);
  _ ← emit (StartHumanLoop (loop_uuid env) hdrs items);
  mret x.

(** The two status cells, the cell between them that prints the address
    of the worker portal, and the output cell. *)
Definition review (env : Env) : M (option JsonOutput) :=
  _ ← status_cell env 0;
  _ ← emit DescribeWorkteam;
  completed ← status_cell env 1;
  fetch_cell env completed.

(** The run from the loaded frames to the uploaded items. *)
Definition run (env : Env) (df_form df_tab : DataFrame) : M unit :=
  x ← dispatch env df_form df_tab;
  json_output ← review env;
  xf ← lift (merge_cell form_fields x json_output df_form);
  xt ← lift (merge_cell tab_fields xf.1 json_output df_tab);
  df_doc ← lift (join_cell xf.2 xt.2);
  persist (table_uuid env) df_doc.

Definition fresh : World := {| trace := []; store := ∅ |}.

Definition is_describe_loop (e : event) : bool :=
  match e with
  | DescribeHumanLoop _ => true
  | _ => false
  end.

Definition is_sleep (e : event) : bool :=
  match e with
  | Sleep _ => true
  | _ => false
  end.

Definition count (p : event → bool) (tr : list event) : nat :=
  length (filter (λ e, p e = true) tr).

Definition is_write (e : event) : bool :=
  match e with
  | CreateTable _ | PutItem _ _ => true
  | _ => false
  end.

End Notebook.

Import Notebook.

(** ** Delimited text: the writer of the [csv] module *)

Module Csv.

Definition DQUOTE : ascii := ascii_of_nat 34.
Definition COMMA : ascii := ascii_of_nat 44.
Definition CR : ascii := ascii_of_nat 13.
Definition LF : ascii := ascii_of_nat 10.
Definition SPACE : ascii := ascii_of_nat 32.
Definition TAB : ascii := ascii_of_nat 9.

(** How writer and tokenizer look at a character. *)
Inductive class := CComma | CQuote | CCr | CLf | CBlank | COther.

Definition classify (c : ascii) : class :=
  if Ascii.eqb c COMMA then CComma
  else if Ascii.eqb c DQUOTE then CQuote
  else if Ascii.eqb c CR then CCr
  else if Ascii.eqb c LF then CLf
  else if Ascii.eqb c SPACE || Ascii.eqb c TAB then CBlank
  else COther.

(** A character that forces quoting under QUOTE_MINIMAL: the delimiter,
    the quote character, or a character of the line terminator. *)
Definition special (c : ascii) : bool :=
  match classify c with
  | CComma | CQuote | CCr | CLf => true
  | CBlank | COther => false
  end.

Fixpoint needs_quote (s : string) : bool :=
  match s with
  | EmptyString => false
  | String c r => special c || needs_quote r
  end.

(** Every quote character is doubled. *)
Fixpoint double_quotes (s : string) : string :=
  match s with
  | EmptyString => EmptyString
  | String c r =>
      match classify c with
      | CQuote => String DQUOTE (String DQUOTE (double_quotes r))
      | _ => String c (double_quotes r)
      end
  end.

Definition write_field (s : string) : string :=
  if needs_quote s
  then String DQUOTE (double_quotes s +:+ String DQUOTE EmptyString)
  else s.

Fixpoint join_fields (fs : list string) : string :=
  match fs with
  | [] => EmptyString
  | [f] => write_field f
  | f :: rest => write_field f +:+ String COMMA (join_fields rest)
  end.

(** [writer.writerow(fs)]: the fields, comma-separated, then CR LF; a row
    of one empty field is written as two quote characters. *)
Definition writerow (fs : list string) : string :=
  match fs with
  | [EmptyString] => String DQUOTE (String DQUOTE (String CR (String LF EmptyString)))
  | _ => join_fields fs +:+ String CR (String LF EmptyString)
  end.

(** The file after the rows were written in order. *)
Definition write_csv (rows : list (list string)) : string :=
  fold_left (λ file row, file +:+ writerow row) rows EmptyString.

End Csv.

Import Csv.

(** ** Delimited text: the tokenizer of [pandas.read_csv]

    The C tokenizer with the settings the notebook uses: comma, double
    quote with doubling, no escape or comment character, blank lines
    skipped.  Lines end in LF or CR LF; a lone CR as line end is outside
    this model. *)

Module Tokenizer.

Inductive tstate :=
  | START_RECORD
  | WHITESPACE_LINE
  | START_FIELD
  | IN_FIELD
  | IN_QUOTED_FIELD
  | QUOTE_IN_QUOTED_FIELD
  | EAT_CRNL
  | EAT_CRNL_NOP.

(** [pending] holds the blanks read at the start of a line, which the
    tokenizer re-reads as field text when the line turns out not to be
    blank; [word] is the field being read, [row_fields] the fields of the
    line being read, [lines] the lines read. *)
Record parser := {
  state : tstate;
  pending : string;
  word : string;
  row_fields : list string;
  lines : list (list string)
}.

Definition init : parser :=
  {| state := START_RECORD; pending := EmptyString; word := EmptyString; row_fields := []; lines := [] |}.

Definition set_state (s : tstate) (p : parser) : parser :=
  {| state := s; pending := pending p; word := word p;
     row_fields := row_fields p; lines := lines p |}.

Definition push_char (c : ascii) (p : parser) : parser :=
  {| state := state p; pending := pending p;
     word := word p +:+ String c EmptyString;
     row_fields := row_fields p; lines := lines p |}.

Definition end_field (p : parser) : parser :=
  {| state := state p; pending := pending p; word := EmptyString;
     row_fields := row_fields p ++ [word p]; lines := lines p |}.

(** The line just read joins the lines.  After the header line and the
    line after it ([header_end] is -1 without header line), a line with
    more fields than the line before is an error; from the line after
    the header on, a line with fewer fields is filled with empty fields. *)
Definition end_line_fields (header_end : Z) (ls : list (list string))
    (fs : list string) : result (list (list string)) :=
  let n := Z.of_nat (length ls) in
  match last ls with
  | None => Ok (ls ++ [fs])
  | Some prev =>
      if decide ((header_end + 1 < n)%Z ∧ length prev < length fs) then
        Raise (ParserError "Error tokenizing data. C error: too many fields")
      else if decide ((header_end + 1 ≤ n)%Z ∧ length fs < length prev) then
        Ok (ls ++ [fs ++ replicate (length prev - length fs) EmptyString])
      else Ok (ls ++ [fs])
  end.

Definition end_line (header_end : Z) (p : parser) : result parser :=
  bind (end_line_fields header_end (lines p) (row_fields p))
       (λ ls, Ok {| state := START_RECORD; pending := EmptyString; word := EmptyString;
                    row_fields := []; lines := ls |}).

Definition start_field_step (header_end : Z) (p : parser) (c : ascii)
  : result parser :=
  match classify c with
  | CLf => end_line header_end (end_field p)
  | CCr => Ok (set_state EAT_CRNL (end_field p))
  | CQuote => Ok (set_state IN_QUOTED_FIELD p)
  | CComma => Ok (set_state START_FIELD (end_field p))
  | CBlank | COther => Ok (set_state IN_FIELD (push_char c p))
  end.

Definition in_field_step (header_end : Z) (p : parser) (c : ascii)
  : result parser :=
  match classify c with
  | CLf => end_line header_end (end_field p)
  | CCr => Ok (set_state EAT_CRNL (end_field p))
  | CComma => Ok (set_state START_FIELD (end_field p))
  | CQuote | CBlank | COther => Ok (push_char c p)
  end.

Definition step (header_end : Z) (p : parser) (c : ascii) : result parser :=
  match state p with
  | START_RECORD =>
      match classify c with
      | CLf => Ok p
      | CCr => Ok (set_state EAT_CRNL_NOP p)
      | CBlank =>
          Ok {| state := WHITESPACE_LINE; pending := String c EmptyString;
                word := word p; row_fields := row_fields p; lines := lines p |}
      | _ => start_field_step header_end p c
      end
  | WHITESPACE_LINE =>
      match classify c with
      | CLf =>
          Ok {| state := START_RECORD; pending := EmptyString; word := word p;
                row_fields := row_fields p; lines := lines p |}
      | CCr =>
          Ok {| state := EAT_CRNL_NOP; pending := EmptyString; word := word p;
                row_fields := row_fields p; lines := lines p |}
      | CBlank =>
          Ok {| state := WHITESPACE_LINE;
                pending := pending p +:+ String c EmptyString;
                word := word p; row_fields := row_fields p; lines := lines p |}
      | _ =>
          in_field_step header_end
            {| state := IN_FIELD; pending := EmptyString; word := pending p;
               row_fields := row_fields p; lines := lines p |} c
      end
  | START_FIELD => start_field_step header_end p c
  | IN_FIELD => in_field_step header_end p c
  | IN_QUOTED_FIELD =>
      match classify c with
      | CQuote => Ok (set_state QUOTE_IN_QUOTED_FIELD p)
      | _ => Ok (push_char c p)
      end
  | QUOTE_IN_QUOTED_FIELD =>
      match classify c with
      | CQuote => Ok (set_state IN_QUOTED_FIELD (push_char c p))
      | CComma => Ok (set_state START_FIELD (end_field p))
      | CLf => end_line header_end (end_field p)
      | CCr => Ok (set_state EAT_CRNL (end_field p))
      | CBlank | COther => Ok (set_state IN_FIELD (push_char c p))
      end
  | EAT_CRNL =>
      match classify c with
      | CLf => end_line header_end p
      | _ => Raise (OutsideModel "line ended by a lone CR")
      end
  | EAT_CRNL_NOP =>
      match classify c with
      | CLf => Ok (set_state START_RECORD p)
      | _ => Raise (OutsideModel "line ended by a lone CR")
      end
  end.

Fixpoint feed (header_end : Z) (p : parser) (s : string) : result parser :=
  match s with
  | EmptyString => Ok p
  | String c r => bind (step header_end p c) (λ p', feed header_end p' r)
  end.

(** End of input. *)
Definition finish (header_end : Z) (p : parser)
  : result (list (list string)) :=
  match state p with
  | START_RECORD | WHITESPACE_LINE | EAT_CRNL_NOP => Ok (lines p)
  | IN_QUOTED_FIELD => Raise (ParserError "EOF inside string")
  | IN_FIELD | START_FIELD | QUOTE_IN_QUOTED_FIELD =>
      bind (end_line header_end (end_field p)) (λ p', Ok (lines p'))
  | EAT_CRNL => bind (end_line header_end p) (λ p', Ok (lines p'))
  end.

Definition tokenize (header_end : Z) (s : string)
  : result (list (list string)) :=
  bind (feed header_end init s) (finish header_end).

End Tokenizer.

Import Tokenizer.

(** ** Loading the files into frames *)

Module Loading.

(** What [read_csv] does beyond tokenizing is taken as given: the column
    names made from the header line (empty and repeated names are
    changed) and the conversion of a column of tokens to objects
    (missing-value spellings, numbers, booleans, text). *)
Record Loader := {
  col_names : list string → list string;
  convert : list string → list pyobj
}.

(** A loader that changes no name and keeps every token as text. *)
Definition text_loader : Loader :=
  {| col_names := λ h, h; convert := map VStr |}.


(** Column [k] of the tokenized lines. *)
Definition tokens_of (data : list (list string)) (k : nat) : list string :=
  map (λ line, default EmptyString (line !! k)) data.

(** The frame with the given column names over the data lines, rows
    labelled [0 .. n-1]. *)
Definition frame_of (L : Loader) (names : list string)
    (data : list (list string)) : DataFrame :=
  let cols := map (λ k, convert L (tokens_of data k)) (seq 0 (length names)) in
  {| columns := names;
     body := imap (λ i _, (Z.of_nat i,
                           list_to_map
                             (zip names (map (λ col, default VNaN (col !! i)) cols))))
                  data |}.

(** [pd.read_csv(file, header=None, ...)] and the renaming of the first
    column to FormHeader; further columns are named by their number. *)
Definition read_csv_form (L : Loader) (file : string) : result DataFrame :=
  bind (tokenize (-1) file) (λ ls,
    match ls with
    | [] => Raise (EmptyDataError "No columns to parse from file")
    | first :: _ =>
        Ok (frame_of L ("FormHeader" :: map pretty (seq 1 (length first - 1))) ls)
    end).

(** [pd.read_csv(file, header=0, ...)]: the first line names the columns.
    A first data line longer than the header line makes the leading
    fields row labels, which is outside this model. *)
Definition read_csv_tab (L : Loader) (file : string) : result DataFrame :=
  bind (tokenize 0 file) (λ ls,
    match ls with
    | [] => Raise (EmptyDataError "No columns to parse from file")
    | header :: data =>
        match data with
        | first :: _ =>
            if decide (length header < length first)
            then Raise (OutsideModel "leading fields become row labels")
            else Ok (frame_of L (col_names L header) data)
        | [] => Ok (frame_of L (col_names L header) data)
        end
    end).

(** From the parsed response to the two frames. *)
Definition load_form (L : Loader) (doc : Document) : result DataFrame :=
  bind (form_rows (iterate_document doc)) (λ rows,
    read_csv_form L (write_csv rows)).

Definition load_tab (L : Loader) (doc : Document) : result DataFrame :=
  bind (tab_rows (iterate_document doc)) (λ rows,
    read_csv_tab L (write_csv rows)).

End Loading.

Import Loading.

(** ** Vocabulary of the statements *)

Module Spec.

(** The frame carries the labels [0 .. n-1] in order, as a loaded frame does. *)
Definition range_indexed (df : DataFrame) : Prop :=
  index df = range (len df).

(** The object stored for answer field [name] at the row labelled [j]. *)
Definition stored (d : gmap string pyobj) (name : string) (j : Z) : pyobj :=
  VStr (str (get d (synth name j))).

(** The assignments of one loop body when [x] is the dictionary [d]. *)
Definition assign_row (d : gmap string pyobj) (fs : list (string * string))
    (j : Z) (df : DataFrame) : DataFrame :=
  fold_left (λ df cf, at_set j cf.1 (stored d cf.2 j) df) fs df.

Definition assign_rows (d : gmap string pyobj) (fs : list (string * string))
    (js : list Z) (df : DataFrame) : DataFrame :=
  fold_left (λ df j, assign_row d fs j df) js df.

(** The cell of column [c] at position [i], labelled [l], holds [v], and
    the column is among the columns of the frame. *)
Definition holds (df : DataFrame) (i : nat) (l : Z) (c : string) (v : pyobj)
  : Prop :=
  c ∈ columns df ∧ ∃ r, body df !! i = Some (l, r) ∧ r !! c = Some v.

(** Cell [c] of the row at position [i]. *)
Definition cell (df : DataFrame) (i : nat) (c : string) : option pyobj :=
  body df !! i ≫= λ lr, lr.2 !! c.

(** The item written for a row when the frame has every column read. *)
Definition item_spec (idx : Z) (row : gmap string pyobj) : gmap string attr :=
  fold_left
    (λ item ac, <[ac.1 := AttrS (str (default VNaN (row !! ac.2)))]> item)
    item_fields {["line_nr" := AttrN idx]}.

(** The table after the upload loop went over the rows of the frame. *)
Definition table_of (df : DataFrame) : gmap Z (gmap string attr) :=
  fold_left (λ T lr, <[lr.1 := item_spec lr.1 lr.2]> T) (body df) ∅.

(** The frame has every column the upload cell reads. *)
Definition has_item_columns (df : DataFrame) : Prop :=
  ∀ ac, ac ∈ item_fields → ac.2 ∈ columns df.

(** The first attempt, among [n] attempts numbered from [k], at which the
    flow status reads Active. *)
Fixpoint first_active (status : nat → string) (k n : nat) : option nat :=
  match n with
  | 0 => None
  | S n' => if String.eqb (status k) "Active" then Some k
            else first_active status (S k) n'
  end.

(** [a] unsuccessful attempts: a status call followed by a 2-second sleep. *)
Definition polls (a : nat) : list event :=
  concat (replicate a [DescribeFlowDefinition; Sleep 2]).

Definition is_describe_flow (e : event) : bool :=
  match e with
  | DescribeFlowDefinition => true
  | _ => false
  end.

(** The text holds spaces and tabs only. *)
Fixpoint all_blank (s : string) : bool :=
  match s with
  | EmptyString => true
  | String c r =>
      match classify c with
      | CBlank => all_blank r
      | _ => false
      end
  end.

(** A row the writer turns into a line the tokenizer skips: no field at
    all, or one field of spaces and tabs. *)
Definition blank_row (row : list string) : bool :=
  match row with
  | [] => true
  | [f] => truthy f && all_blank f
  | _ => false
  end.

(** The lines the tokenizer keeps after it met the given rows in order. *)
Definition check_lines (header_end : Z) (ls : list (list string))
    (rows : list (list string)) : result (list (list string)) :=
  fold_left (λ acc fs, bind acc (λ ls, end_line_fields header_end ls fs))
            rows (Ok ls).

(** The tokenizer at the start of a line, inside a line, and inside a
    line that is blank so far. *)
Definition at_line (ls : list (list string)) : parser :=
  {| state := START_RECORD; pending := EmptyString; word := EmptyString;
     row_fields := []; lines := ls |}.

Definition mid (st : tstate) (fs : list string) (w : string)
    (ls : list (list string)) : parser :=
  {| state := st; pending := EmptyString; word := w; row_fields := fs; lines := ls |}.

Definition blank_so_far (pend : string) (ls : list (list string)) : parser :=
  {| state := WHITESPACE_LINE; pending := pend; word := EmptyString;
     row_fields := []; lines := ls |}.

(** A field was read to its end in state [st]. *)
Definition field_read (st : tstate) (f : string) : Prop :=
  st = IN_FIELD ∨ st = QUOTE_IN_QUOTED_FIELD ∨ (st = START_FIELD ∧ f = EmptyString).

Definition CRLF (rest : string) : string := String CR (String LF rest).

(** What the writer puts after the first field of a line. *)
Definition tail_text (more : list string) (rest : string) : string :=
  match more with
  | [] => CRLF rest
  | g :: _ => String COMMA (join_fields more +:+ CRLF rest)
  end.

(** The rows written one after the other. *)
Fixpoint cat_rows (rows : list (list string)) : string :=
  match rows with
  | [] => EmptyString
  | r :: rs => writerow r +:+ cat_rows rs
  end.

Definition nonblank (rows : list (list string)) : list (list string) :=
  filter (λ r, blank_row r = false) rows.

(** All rows have [k] fields. *)
Definition rectangular (k : nat) (rows : list (list string)) : Prop :=
  Forall (λ r, length r = k) rows.

End Spec.

Import Spec.

(** ** Example inputs *)

Module Examples.

Definition name_john : Field := {| key := Some "Name"; value := Some "John" |}.

Definition cells_of (ts : list string) : Row :=
  {| cells := map (λ t, {| text := t |}) ts |}.

(** Two pages with a table each; the second table has an empty cell and
    a row of one empty cell. *)
Definition two_tables_doc : Document :=
  {| pages :=
       [ {| tables := [ {| rows := [cells_of ["first"]] |} ];
            form := {| fields := [] |} |};
         {| tables := [ {| rows := [cells_of ["Start Date "; EmptyString; "Role"];
                                    cells_of [EmptyString]] |} ];
            form := {| fields := [] |} |} ] |}.

Definition one_page : Page :=
  {| tables := []; form := {| fields := [name_john] |} |}.

Definition one_page_doc : Document := {| pages := [one_page] |}.



Definition scenario_tab : DataFrame :=
  {| columns := ["Employer Name"; "Position Held"];
     body := [(0%Z, {["Employer Name" := VStr "Acme";
                      "Position Held" := VStr "Clerk"]});
              (1%Z, {["Employer Name" := VStr "Manager";
                      "Position Held" := VNaN]})] |}.

Definition scenario_answer : gmap string pyobj :=
  {["TrueEmpName1" := VStr "Acme Corp"; "TrueEmpName2" := VStr "Global Inc"]}.

(** A form with one field pair and a table with the five columns the
    notebook reads and one data row. *)
Definition review_form : DataFrame :=
  {| columns := ["FormHeader"];
     body := [(0%Z, {["FormHeader" := VStr "Name John"]})] |}.

Definition review_tab : DataFrame :=
  {| columns := ["Start Date"; "End Date"; "Employer Name"; "Position Held";
                 "Reason for leaving"];
     body := [(0%Z, {["Start Date" := VStr "1/15/2009";
                      "End Date" := VStr "6/30/2011";
                      "Employer Name" := VStr "Any Company";
                      "Position Held" := VStr "Assistant baker";
                      "Reason for leaving" := VStr "relocated"]})] |}.

(** The frames after both merge cells ran on an empty answer. *)
Definition merged_form : DataFrame :=
  {| columns := ["FormHeader"; "TrueHeader"; "Comments"];
     body := [(0%Z, {["FormHeader" := VStr "Name John";
                      "TrueHeader" := VStr "None";
                      "Comments" := VStr "None"]})] |}.

Definition merged_tab : DataFrame :=
  {| columns := ["Start Date"; "End Date"; "Employer Name"; "Position Held";
                 "Reason for leaving"; "TrueStartDate"; "TrueEndDate";
                 "TrueEmpName"; "TruePosHeld"; "TrueResLeave"; "ChangeComments"];
     body := [(0%Z, {["Start Date" := VStr "1/15/2009";
                      "End Date" := VStr "6/30/2011";
                      "Employer Name" := VStr "Any Company";
                      "Position Held" := VStr "Assistant baker";
                      "Reason for leaving" := VStr "relocated";
                      "TrueStartDate" := VStr "None";
                      "TrueEndDate" := VStr "None";
                      "TrueEmpName" := VStr "None";
                      "TruePosHeld" := VStr "None";
                      "TrueResLeave" := VStr "None";
                      "ChangeComments" := VStr "None"]})] |}.

(** The joined frame of the two. *)
Definition joined_doc : DataFrame :=
  {| columns := columns merged_form ++ columns merged_tab;
     body := [(0%Z, list_to_map
                      [("FormHeader", VStr "Name John");
                       ("TrueHeader", VStr "None");
                       ("Comments", VStr "None");
                       ("Start Date", VStr "1/15/2009");
                       ("End Date", VStr "6/30/2011");
                       ("Employer Name", VStr "Any Company");
                       ("Position Held", VStr "Assistant baker");
                       ("Reason for leaving", VStr "relocated");
                       ("TrueStartDate", VStr "None");
                       ("TrueEndDate", VStr "None");
                       ("TrueEmpName", VStr "None");
                       ("TruePosHeld", VStr "None");
                       ("TrueResLeave", VStr "None");
                       ("ChangeComments", VStr "None")])] |}.

(** The flow is active at once; the review is still in progress at
    every status call. *)
Definition env_in_progress : Env :=
  {| flow_status := λ _, "Active";
     loop_status := λ _, "InProgress";
     loop_output := {| humanAnswers := [] |};
     loop_uuid := "6f1c";
     table_uuid := "9a2e" |}.


End Examples.

Import Examples.

(** ** The worker-portal cell *)

Module Portal.

Definition SLASH : ascii := ascii_of_nat 47.

(** [s.rfind(c)] for a one-character [c]: the highest position at which
    [c] stands, or -1 when it stands nowhere. *)
Fixpoint rfind_from (c : ascii) (s : string) (i found : Z) : Z :=
  match s with
  | EmptyString => found
  | String a r => rfind_from c r (i + 1) (if Ascii.eqb a c then i else found)
  end.

Definition rfind (c : ascii) (s : string) : Z := rfind_from c s 0 (-1).

Fixpoint drop_chars (n : nat) (s : string) : string :=
  match n, s with
  | O, _ => s
  | S _, EmptyString => EmptyString
  | S n', String _ r => drop_chars n' r
  end.

(** [s[k:]]: a negative [k] counts from the end. *)
Definition slice_from (k : Z) (s : string) : string :=
  let n := Z.of_nat (String.length s) in
  drop_chars (Z.to_nat (if (k <? 0)%Z then Z.max 0 (n + k) else k)) s.

(** [WORKTEAM_ARN[WORKTEAM_ARN.rfind('/') + 1:]] *)
Definition workteamName (arn : string) : string :=
  slice_from (rfind SLASH arn + 1) arn.

(** The character stands somewhere in the text. *)
Fixpoint has_char (c : ascii) (s : string) : bool :=
  match s with
  | EmptyString => false
  | String a r => Ascii.eqb a c || has_char c r
  end.

End Portal.

Import Portal.

(** ** The key of the answer document *)

Module Fetch.

(** The characters with a meaning of their own in a regular expression. *)
Definition regex_special (c : ascii) : bool :=
  bool_decide (c ∈ [ascii_of_nat 46; ascii_of_nat 94; ascii_of_nat 36;
                    ascii_of_nat 42; ascii_of_nat 43; ascii_of_nat 63;
                    ascii_of_nat 123; ascii_of_nat 125; ascii_of_nat 91;
                    ascii_of_nat 93; ascii_of_nat 92; ascii_of_nat 124;
                    ascii_of_nat 40; ascii_of_nat 41]).

Fixpoint literal_pattern (pat : string) : bool :=
  match pat with
  | EmptyString => true
  | String c r => negb (regex_special c) && literal_pattern r
  end.

(** Splitting at the occurrences of a text, leftmost first and without
    overlap: [skip] counts the characters of an occurrence still to be
    passed over, [cur] is the piece being read. *)
Fixpoint split_lit (pat : string) (skip : nat) (cur : string) (s : string)
  : list string :=
  match s with
  | EmptyString => [cur]
  | String c r =>
      match skip with
      | S k => split_lit pat k cur r
      | O =>
          if String.prefix pat s
          then cur :: split_lit pat (String.length pat - 1) EmptyString r
          else split_lit pat 0 (cur +:+ String c EmptyString) r
      end
  end.

Inductive key_outcome :=
  | Key (k : string)
  | IndexError
  | PatternOutsideModel.

(** [re.split(pat, s)] for a non-empty pattern in which every character
    stands for itself; other patterns are outside this model. *)
Definition re_split (pat s : string) : option (list string) :=
  if literal_pattern pat && truthy pat
  then Some (split_lit pat 0 EmptyString s)
  else None.

(** [re.split('s3://' + bucket + '/', uri)[1]] *)
Definition output_bucket_key (bucket uri : string) : key_outcome :=
  match re_split ("s3://" +:+ bucket +:+ "/") uri with
  | None => PatternOutsideModel
  | Some parts =>
      match parts !! 1 with
      | Some k => Key k
      | None => IndexError
      end
  end.

(** The text occurs somewhere in [s]. *)
Fixpoint occurs (pat s : string) : bool :=
  String.prefix pat s
  || match s with
     | EmptyString => false
     | String _ r => occurs pat r
     end.

End Fetch.

Import Fetch.

(** ** The cell that reads an item back *)

Module Readback.

(** [table.get_item(Key={'line_nr': k})]: the response carries the item
    under [Item] when the table has one of that key. *)
Definition get_item (name : string) (k : Z)
    (ds : gmap string (gmap Z (gmap string attr)))
  : result (option (gmap string attr)) :=
  match ds !! name with
  | Some T => Ok (T !! k)
  | None => Raise (ResourceNotFoundException name)
  end.

(** [response = table.get_item(Key={'line_nr': 2}); item = response['Item']] *)
Definition check_cell (name : string)
    (ds : gmap string (gmap Z (gmap string attr)))
  : result (gmap string attr) :=
  bind (get_item name 2 ds) (λ response,
    match response with
    | Some item => Ok item
    | None => Raise (KeyError "Item")
    end).

End Readback.

Import Readback.

(** ** Vocabulary of the further statements *)

Module Shape.


(** A line filled with empty tokens up to [k] fields. *)
Definition pad (k : nat) (fs : list string) : list string :=
  fs ++ replicate (k - length fs) EmptyString.

(** The first column read by [fs] that the frame does not have. *)
Definition missing_column (cols : list string) (fs : list (string * string))
  : option string :=
  (λ found : nat * (string * string), found.2.2)
    <$> list_find (λ ac : string * string, ac.2 ∉ cols) fs.

(** The texts that do not consist of spaces and tabs only. *)
Definition visible (texts : list string) : list string :=
  filter (λ t, all_blank t = false) texts.


Definition is_flow_event (e : event) : bool :=
  match e with
  | DescribeFlowDefinition | Sleep _ => true
  | _ => false
  end.



(** The columns after assignments to the columns [cs] in order: a column
    that is not there yet is added at the right. *)
Definition add_columns (cols cs : list string) : list string :=
  fold_left (λ cols c, if decide (c ∈ cols) then cols else cols ++ [c]) cs cols.

(** The attribute names of an item. *)
Definition item_attributes : gset string :=
  list_to_set ("line_nr" :: item_fields.*1).

(** The dictionary of the payload for position [n]. *)
Definition payload_entry (rowkey : string) (fs : list (string * string))
    (df : DataFrame) (n : nat) : gmap string pyobj :=
  fold_left (λ d kc, <[kc.1 := default VNaN (cell df n kc.2)]> d)
            fs {[rowkey := VStr (pretty n)]}.

End Shape.

Import Shape.

(** ** Further example inputs *)

Module Cases.

Definition no_page_doc : Document := {| pages := [] |}.

(** A row with a cell of two spaces between two cells with text. *)
Definition spaced_row : Row := cells_of ["2019 "; "  "; "Clerk"].

(** Two field pairs, the second with neither key text nor value text. *)
Definition blank_field_doc : Document :=
  {| pages :=
       [ {| tables := [];
            form := {| fields := [ name_john;
                                   {| key := Some EmptyString;
                                      value := Some EmptyString |} ] |} |} ] |}.

(** The review is completed, and the answer document lists no answer. *)
Definition env_no_answer : Env :=
  {| flow_status := λ _, "Active";
     loop_status := λ _, "Completed";
     loop_output := {| humanAnswers := [] |};
     loop_uuid := "6f1c";
     table_uuid := "9a2e" |}.

(** The review is completed with one answer without entries. *)
Definition env_one_answer : Env :=
  {| flow_status := λ _, "Active";
     loop_status := λ _, "Completed";
     loop_output := {| humanAnswers := [ {| answerContent := ∅ |} ] |};
     loop_uuid := "6f1c";
     table_uuid := "9a2e" |}.

(** The line-item frame of a table that has its header row only. *)
Definition header_only_tab : DataFrame :=
  {| columns := columns review_tab; body := [] |}.


(** A table whose one row has one empty cell. *)
Definition blank_table_doc : Document :=
  {| pages := [ {| tables := [ {| rows := [cells_of [EmptyString]] |} ];
                   form := {| fields := [] |} |} ] |}.

(** A table on the first page, a field pair on the second. *)
Definition table_then_form_doc : Document :=
  {| pages :=
       [ {| tables := [ {| rows := [cells_of ["Start Date"]; cells_of ["2019"]] |} ];
            form := {| fields := [] |} |};
         one_page ] |}.

Definition team_arn : string :=
  "arn:aws:sagemaker:us-east-1:111122223333:workteam/private-crowd/reviewers".

Definition session_bucket : string := "sagemaker-us-east-1-111122223333".

Definition answer_key : string :=
  "textract-a2i-handwritten/a2i-results/fd-hw-docs/2020/06/01/output.json".


End Cases.

Import Cases.

(** Closed decidable facts, by evaluation. *)
Ltac by_decision := apply (bool_decide_unpack _); vm_compute; exact I.

(** * Properties *)

(** ** Projection *)

Section ProjectionFacts.

Lemma fold_left_snoc {A B} (f : A → B) (l : list A) (acc : list B) :
  fold_left (λ written a, written ++ [f a]) l acc = acc ++ map f l.
Proof.
  revert acc. induction l as [|a l IH]; intros acc; simpl.
  - by rewrite app_nil_r.
  - rewrite IH, <- app_assoc. done.
Qed.

Lemma csvrow_acc (cs : list Cell) (acc : list string) :
  fold_left
    (λ acc cell, if truthy (text cell) then acc ++ [rstrip (text cell)] else acc)
    cs acc
  = acc ++ map rstrip (filter (λ s, truthy s = true) (map text cs)).
Proof.
  revert acc. induction cs as [|c cs IH]; intros acc; simpl.
  - by rewrite app_nil_r.
  - rewrite IH. rewrite filter_cons.
    destruct (truthy (text c)) eqn:E.
    + rewrite decide_True by done. simpl. by rewrite <- app_assoc.
    + rewrite decide_False by done. done.
Qed.

Lemma csvrow_filter_map (row : Row) :
  csvrow row = map rstrip (filter (λ s, truthy s = true) (map text (cells row))).
Proof. unfold csvrow. by rewrite csvrow_acc. Qed.

Lemma truthy_nonempty (s : string) : truthy s = true ↔ s ≠ EmptyString.
Proof. destruct s; simpl; split; intros; congruence. Qed.

Lemma rstrip_split (s : string) :
  ∃ ws, s = rstrip s +:+ ws ∧ all_space ws = true.
Proof.
  induction s as [|c r [ws [Hr Hws]]]; simpl.
  - by exists EmptyString.
  - destruct (rstrip r) as [|c' r'] eqn:E.
    + change (r = ws) in Hr. subst r. destruct (isspace c) eqn:Ec.
      * exists (String c ws). simpl. by rewrite Ec, Hws.
      * by exists ws.
    + exists ws. split; [|done].
      change (String c r = String c (String c' r' +:+ ws)). by f_equal.
Qed.

Lemma rstrip_no_trailing_space (s : string) (c : ascii) :
  last_char (rstrip s) = Some c → isspace c = false.
Proof.
  induction s as [|a r IH]; simpl; [done|].
  destruct (rstrip r) as [|c' r'] eqn:E.
  - destruct (isspace a) eqn:Ea; simpl; [discriminate|]. by intros [= <-].
  - intros H. apply IH. exact H.
Qed.

Lemma iterate_tables_spec (g : Globals) (ts : list Table) :
  page (iterate_tables g ts) = page g
  ∧ table (iterate_tables g ts) = match last ts with
                                  | Some t => Some t
                                  | None => table g
                                  end.
Proof.
  revert g. induction ts as [|t ts IH]; intros g; [done|].
  unfold iterate_tables in *. simpl fold_left.
  destruct (IH {| page := page g; table := Some t |}) as [Hp Ht].
  split; [by rewrite Hp|]. rewrite Ht, last_cons. simpl.
  by destruct (last ts).
Qed.

Lemma iterate_pages_spec (ps : list Page) (g : Globals) :
  let g' := fold_left
    (λ g p, iterate_tables {| page := Some p; table := table g |} (tables p))
    ps g in
  page g' = match last ps with Some p => Some p | None => page g end
  ∧ table g' = match last (concat (map tables ps)) with
               | Some t => Some t
               | None => table g
               end.
Proof.
  revert g. induction ps as [|p ps IH]; intros g; [done|].
  simpl. destruct (IH (iterate_tables {| page := Some p; table := table g |} (tables p)))
    as [Hp Ht].
  destruct (iterate_tables_spec {| page := Some p; table := table g |} (tables p))
    as [Hp1 Ht1].
  split.
  - rewrite Hp, Hp1, last_cons. simpl. by destruct (last ps).
  - rewrite Ht, Ht1. simpl. rewrite last_app.
    by destruct (last (concat (map tables ps))).
Qed.

Lemma iterate_document_table (doc : Document) :
  table (iterate_document doc) = last (all_tables doc).
Proof.
  unfold iterate_document, all_tables.
  destruct (iterate_pages_spec (pages doc) unbound) as [_ Ht].
  rewrite Ht. simpl. by destruct (last _).
Qed.

Lemma iterate_document_page (doc : Document) :
  page (iterate_document doc) = last (pages doc).
Proof.
  unfold iterate_document.
  destruct (iterate_pages_spec (pages doc) unbound) as [Hp _].
  rewrite Hp. simpl. by destruct (last _).
Qed.

End ProjectionFacts.

(** ** Frames and the merge loop *)

Section FrameFacts.

Implicit Types (df : DataFrame) (d : gmap string pyobj).

Lemma at_set_index df j c v :
  j ∈ index df → index (at_set j c v df) = index df.
Proof.
  intros Hj. unfold at_set. rewrite decide_True by done.
  unfold index. simpl. rewrite map_map. done.
Qed.

Lemma at_set_len df j c v :
  j ∈ index df → len (at_set j c v df) = len df.
Proof.
  intros Hj. unfold at_set. rewrite decide_True by done.
  unfold len. simpl. by rewrite length_map.
Qed.

Lemma at_set_column_new df j c v : c ∈ columns (at_set j c v df).
Proof.
  unfold at_set. destruct (decide (j ∈ index df)); simpl;
    destruct (decide (c ∈ columns df)); try done;
    apply elem_of_app; right; apply list_elem_of_singleton; done.
Qed.

Lemma at_set_column_mono df j c v c0 :
  c0 ∈ columns df → c0 ∈ columns (at_set j c v df).
Proof.
  intros H. unfold at_set. destruct (decide (j ∈ index df)); simpl;
    destruct (decide (c ∈ columns df)); try done;
    apply elem_of_app; by left.
Qed.

(** The row at a position keeps its label; its cells change as follows. *)
Lemma at_set_row df j c v i l r :
  j ∈ index df → body df !! i = Some (l, r) →
  ∃ r', body (at_set j c v df) !! i = Some (l, r')
    ∧ (∀ c0, c0 ≠ c → r' !! c0 = r !! c0)
    ∧ (l = j → r' !! c = Some v)
    ∧ (l ≠ j → c ∈ columns df → r' !! c = r !! c).
Proof.
  intros Hj Hi. unfold at_set. rewrite decide_True by done. simpl.
  rewrite list_lookup_fmap, Hi. simpl. eexists. split; [done|].
  split; [|split].
  - intros c0 Hc0. destruct (decide (l = j)), (decide (c ∈ columns df));
      by rewrite ?lookup_insert_ne.
  - intros ->. rewrite decide_True by done. by rewrite lookup_insert_eq.
  - intros Hl Hc. by rewrite decide_False, decide_True.
Qed.

Lemma assign_row_index d fs j df :
  j ∈ index df → index (assign_row d fs j df) = index df.
Proof.
  revert df. induction fs as [|cf fs IH]; intros df Hj; [done|].
  unfold assign_row in *. simpl. rewrite IH; rewrite at_set_index; done.
Qed.

Lemma assign_rows_index d fs js df :
  (∀ j, j ∈ js → j ∈ index df) → index (assign_rows d fs js df) = index df.
Proof.
  revert df. induction js as [|j js IH]; intros df Hjs; [done|].
  unfold assign_rows in *. simpl.
  assert (Hj : j ∈ index df) by (apply Hjs, elem_of_cons; by left).
  rewrite IH; rewrite assign_row_index; try done.
  intros j' Hj'. apply Hjs, elem_of_cons. by right.
Qed.

(** A cell that holds a value in an existing column keeps it through
    the assignments of another label or of other columns. *)
Lemma at_set_holds df j c' v' i l c v :
  j ∈ index df → holds df i l c v → (l ≠ j ∨ c' ≠ c) →
  holds (at_set j c' v' df) i l c v.
Proof.
  intros Hj [Hc [r [Hi Hr]]] Hne.
  destruct (at_set_row df j c' v' i l r Hj Hi) as [r' [Hi' [Ho [_ Hk]]]].
  split; [by apply at_set_column_mono|]. exists r'. split; [done|].
  destruct (decide (c' = c)) as [->|Hcc].
  - destruct Hne as [Hl|]; [|done]. by rewrite Hk.
  - by rewrite Ho.
Qed.

Lemma assign_row_holds d fs j df i l c v :
  j ∈ index df → holds df i l c v → (l ≠ j ∨ c ∉ fs.*1) →
  holds (assign_row d fs j df) i l c v.
Proof.
  revert df. induction fs as [|cf fs IH]; intros df Hj H Hne; [done|].
  unfold assign_row in *. simpl. apply IH.
  - by rewrite at_set_index.
  - apply at_set_holds; [done..|]. destruct Hne as [?|Hn]; [by left|].
    right. intros Heq. apply Hn. rewrite <- Heq, fmap_cons.
    apply elem_of_cons. by left.
  - destruct Hne as [?|Hn]; [by left|]. right. intros Hc. apply Hn.
    rewrite fmap_cons. apply elem_of_cons. by right.
Qed.

Lemma assign_rows_holds d fs js df i l c v :
  (∀ j, j ∈ js → j ∈ index df) → holds df i l c v → l ∉ js →
  holds (assign_rows d fs js df) i l c v.
Proof.
  revert df. induction js as [|j js IH]; intros df Hjs H Hl; [done|].
  unfold assign_rows in *. simpl.
  assert (Hj : j ∈ index df) by (apply Hjs, elem_of_cons; by left).
  apply IH.
  - intros j' Hj'. rewrite assign_row_index by done. apply Hjs, elem_of_cons. by right.
  - apply assign_row_holds; [done..|]. left. intros ->. apply Hl.
    apply elem_of_cons. by left.
  - intros Hjs'. apply Hl, elem_of_cons. by right.
Qed.

(** The loop body for the row's own label sets every listed column. *)
Lemma assign_row_sets d fs l df i r col name :
  l ∈ index df → body df !! i = Some (l, r) → NoDup fs.*1 →
  (col, name) ∈ fs →
  holds (assign_row d fs l df) i l col (stored d name l).
Proof.
  revert df r. induction fs as [|cf fs IH]; intros df r Hl Hi Hnd Hin.
  { by apply elem_of_nil in Hin. }
  apply NoDup_cons in Hnd as [Hcf Hnd].
  destruct (at_set_row df l cf.1 (stored d cf.2 l) i l r Hl Hi)
    as [r' [Hi' [_ [Hset _]]]].
  change (assign_row d (cf :: fs) l df)
    with (assign_row d fs l (at_set l cf.1 (stored d cf.2 l) df)).
  apply elem_of_cons in Hin as [<-|Hin].
  - apply assign_row_holds; [by rewrite at_set_index| |by right].
    split; [apply at_set_column_new|]. exists r'. split; [done|]. by apply Hset.
  - eapply IH; [by rewrite at_set_index|exact Hi'|done|done].
Qed.

Lemma assign_row_body d fs j df i l r :
  j ∈ index df → body df !! i = Some (l, r) →
  ∃ r', body (assign_row d fs j df) !! i = Some (l, r').
Proof.
  revert df r. induction fs as [|cf fs IH]; intros df r Hj Hi.
  { by exists r. }
  destruct (at_set_row df j cf.1 (stored d cf.2 j) i l r Hj Hi)
    as [r1 [Hi1 _]].
  change (assign_row d (cf :: fs) j df)
    with (assign_row d fs j (at_set j cf.1 (stored d cf.2 j) df)).
  eapply IH; [by rewrite at_set_index|exact Hi1].
Qed.

(** Columns outside the listed ones are never touched. *)
Lemma assign_row_other d fs j df i l r c :
  j ∈ index df → body df !! i = Some (l, r) → c ∉ fs.*1 →
  ∃ r', body (assign_row d fs j df) !! i = Some (l, r') ∧ r' !! c = r !! c.
Proof.
  revert df r. induction fs as [|cf fs IH]; intros df r Hj Hi Hc.
  { by exists r. }
  destruct (at_set_row df j cf.1 (stored d cf.2 j) i l r Hj Hi)
    as [r1 [Hi1 [Ho _]]].
  change (assign_row d (cf :: fs) j df)
    with (assign_row d fs j (at_set j cf.1 (stored d cf.2 j) df)).
  destruct (IH (at_set j cf.1 (stored d cf.2 j) df) r1) as [r' [Hi' Hr']].
  - by rewrite at_set_index.
  - done.
  - intros Hc'. apply Hc. rewrite fmap_cons. apply elem_of_cons. by right.
  - exists r'. split; [done|]. rewrite Hr'. apply Ho. intros ->. apply Hc.
    rewrite fmap_cons. apply elem_of_cons. by left.
Qed.

Lemma assign_rows_other d fs js df i l r c :
  (∀ j, j ∈ js → j ∈ index df) → body df !! i = Some (l, r) → c ∉ fs.*1 →
  ∃ r', body (assign_rows d fs js df) !! i = Some (l, r') ∧ r' !! c = r !! c.
Proof.
  revert df r. induction js as [|j js IH]; intros df r Hjs Hi Hc.
  { by exists r. }
  assert (Hj : j ∈ index df) by (apply Hjs, elem_of_cons; by left).
  destruct (assign_row_other d fs j df i l r c Hj Hi Hc) as [r1 [Hi1 Hr1]].
  change (assign_rows d fs (j :: js) df)
    with (assign_rows d fs js (assign_row d fs j df)).
  destruct (IH (assign_row d fs j df) r1) as [r' [Hi' Hr']]; [|done|done|].
  - intros j' Hj'. rewrite assign_row_index by done. apply Hjs, elem_of_cons. by right.
  - exists r'. split; [done|]. by rewrite Hr'.
Qed.

Lemma assign_rows_body d fs js df i l r :
  (∀ j, j ∈ js → j ∈ index df) → body df !! i = Some (l, r) →
  ∃ r', body (assign_rows d fs js df) !! i = Some (l, r').
Proof.
  revert df r. induction js as [|j js IH]; intros df r Hjs Hi.
  { by exists r. }
  assert (Hj : j ∈ index df) by (apply Hjs, elem_of_cons; by left).
  destruct (assign_row_body d fs j df i l r Hj Hi) as [r1 Hi1].
  change (assign_rows d fs (j :: js) df)
    with (assign_rows d fs js (assign_row d fs j df)).
  eapply IH; [|exact Hi1].
  intros j' Hj'. rewrite assign_row_index by done.
  apply Hjs, elem_of_cons. by right.
Qed.

Lemma assign_rows_sets d fs js df i l r col name :
  (∀ j, j ∈ js → j ∈ index df) → NoDup js → l ∈ js →
  body df !! i = Some (l, r) → NoDup fs.*1 → (col, name) ∈ fs →
  holds (assign_rows d fs js df) i l col (stored d name l).
Proof.
  revert df r. induction js as [|j js IH]; intros df r Hjs Hnd Hl Hi Hfs Hin.
  { by apply elem_of_nil in Hl. }
  apply NoDup_cons in Hnd as [Hj Hnd].
  assert (Hjin : j ∈ index df) by (apply Hjs, elem_of_cons; by left).
  assert (Hjs' : ∀ j', j' ∈ js → j' ∈ index (assign_row d fs j df)).
  { intros j' Hj'. rewrite assign_row_index by done. apply Hjs, elem_of_cons. by right. }
  change (assign_rows d fs (j :: js) df)
    with (assign_rows d fs js (assign_row d fs j df)).
  apply elem_of_cons in Hl as [->|Hl].
  - apply assign_rows_holds; [done| |done].
    by eapply assign_row_sets.
  - destruct (assign_row_body d fs j df i l r Hjin Hi) as [r1 Hi1].
    by eapply IH.
Qed.

End FrameFacts.

Section MergeFacts.

Implicit Types (df : DataFrame) (d : gmap string pyobj).

Lemma loop_body_dict d fs j df :
  loop_body fs (Some (XDict d)) (Ok df) j = Ok (assign_row d fs j df).
Proof.
  unfold loop_body, assign_row. revert df.
  induction fs as [|cf fs IH]; intros df; [done|]. simpl. apply IH.
Qed.

Lemma merge_loop_dict d fs js df :
  fold_left (loop_body fs (Some (XDict d))) js (Ok df)
  = Ok (assign_rows d fs js df).
Proof.
  unfold assign_rows. revert df.
  induction js as [|j js IH]; intros df; [done|].
  simpl. rewrite loop_body_dict. apply IH.
Qed.

Lemma merge_dict d fs df :
  merge fs (Some (XDict d)) df
  = Ok (where_notnull_None (assign_rows d fs (range (len df)) df)).
Proof. unfold merge. by rewrite merge_loop_dict. Qed.

Lemma range_indexed_label df i l r :
  range_indexed df → body df !! i = Some (l, r) → l = Z.of_nat i.
Proof.
  intros Hr Hi.
  assert (H : index df !! i = Some l).
  { unfold index. by rewrite list_lookup_fmap, Hi. }
  rewrite Hr in H. apply lookup_seqZ in H as [-> _]. lia.
Qed.

Lemma range_indexed_elem df i l r :
  range_indexed df → body df !! i = Some (l, r) → l ∈ range (len df).
Proof.
  intros Hr Hi. rewrite <- Hr. unfold index.
  apply list_elem_of_fmap. exists (l, r). split; [done|].
  by eapply list_elem_of_lookup_2.
Qed.

Lemma where_notnull_None_row df i l r :
  body df !! i = Some (l, r) →
  body (where_notnull_None df) !! i = Some (l, null_to_None <$> r).
Proof. intros H. unfold where_notnull_None. simpl. by rewrite list_lookup_fmap, H. Qed.

Lemma where_notnull_None_index df : index (where_notnull_None df) = index df.
Proof. unfold index, where_notnull_None. simpl. by rewrite map_map. Qed.

(** What a merge cell leaves in the frame when [x] is a dictionary. *)
Lemma merge_dict_spec d fs df :
  range_indexed df → NoDup fs.*1 →
  ∃ df', merge fs (Some (XDict d)) df = Ok df'
    ∧ index df' = index df
    ∧ ∀ i l r, body df !! i = Some (l, r) →
        l = Z.of_nat i
        ∧ ∃ r', body df' !! i = Some (l, r')
          ∧ (∀ col name, (col, name) ∈ fs →
               r' !! col = Some (stored d name l))
          ∧ (∀ c, c ∉ fs.*1 → r' !! c = null_to_None <$> r !! c).
Proof.
  intros Hr Hnd. eexists. split; [apply merge_dict|].
  assert (Hjs : ∀ j, j ∈ range (len df) → j ∈ index df)
    by (intros j; by rewrite Hr).
  split. { by rewrite where_notnull_None_index, assign_rows_index. }
  intros i l r Hi. split; [by eapply range_indexed_label|].
  assert (Hl : l ∈ range (len df)) by (by eapply range_indexed_elem).
  assert (Hnd' : NoDup (range (len df))) by apply NoDup_seqZ.
  destruct (assign_rows_body d fs _ df i l r Hjs Hi) as [r1 Hi1].
  exists (null_to_None <$> r1).
  split; [by apply where_notnull_None_row|]. split.
  - intros col name Hin.
    destruct (assign_rows_sets d fs _ df i l r col name Hjs Hnd' Hl Hi Hnd Hin)
      as [_ [r2 [Hi2 Hr2]]].
    rewrite Hi1 in Hi2. injection Hi2 as <-.
    by rewrite lookup_fmap, Hr2.
  - intros c Hc.
    destruct (assign_rows_other d fs _ df i l r c Hjs Hi Hc) as [r2 [Hi2 Hr2]].
    rewrite Hi1 in Hi2. injection Hi2 as <-.
    by rewrite lookup_fmap, Hr2.
Qed.

Lemma stored_absent d name j :
  d !! synth name j = None → stored d name j = VStr "None".
Proof. intros H. unfold stored, get. by rewrite H. Qed.

Lemma stored_present d name j v :
  d !! synth name j = Some v → stored d name j = VStr (str v).
Proof. intros H. unfold stored, get. by rewrite H. Qed.

Lemma tab_fields_NoDup : NoDup tab_fields.*1.
Proof. by_decision. Qed.

Lemma form_fields_NoDup : NoDup form_fields.*1.
Proof. by_decision. Qed.

(** What one merge cell leaves at every row. *)
Lemma merge_cells (d : gmap string pyobj) (fs : list (string * string))
    (df : DataFrame) :
  range_indexed df → NoDup fs.*1 →
  ∃ df', merge fs (Some (XDict d)) df = Ok df'
    ∧ len df' = len df ∧ range_indexed df'
    ∧ ∀ i col name, i < len df → (col, name) ∈ fs →
        cell df' i col = Some (stored d name (Z.of_nat i)).
Proof.
  intros Hr Hnd.
  destruct (merge_dict_spec d fs df Hr Hnd) as [df' [Hm [Hidx Hrows]]].
  assert (Hlen : len df' = len df).
  { unfold len. rewrite <- (length_map fst (body df')), <- (length_map fst (body df)).
    by fold (index df'); fold (index df); rewrite Hidx. }
  exists df'. split; [done|]. split; [done|]. split.
  { unfold range_indexed. by rewrite Hidx, Hlen. }
  intros i col name Hi Hin.
  destruct (lookup_lt_is_Some_2 (body df) i Hi) as [[l r] Hlr].
  destruct (Hrows i l r Hlr) as [-> [r' [Hr' [Hset _]]]].
  unfold cell. rewrite Hr'. simpl. by apply Hset.
Qed.

End MergeFacts.

(** ** Join and upload *)

Section PersistFacts.

Implicit Types (df : DataFrame) (w : World).

Lemma sorted_union_range (n m : nat) :
  merge_sort Z.le (remove_dups (range n ++ range m)) = range (n `max` m).
Proof.
  unfold range.
  apply (Sorted_unique Z.le).
  - apply Sorted_merge_sort. intros x y. lia.
  - apply StronglySorted_Sorted.
    generalize (n `max` m) as k. intros k.
    induction k as [|k IH]; [constructor|].
    rewrite seqZ_S. apply StronglySorted_app_2; [|done|repeat constructor].
    intros x1 x2 H1 H2. apply elem_of_seqZ in H1.
    apply list_elem_of_singleton in H2. lia.
  - rewrite merge_sort_Permutation.
    apply NoDup_Permutation; [apply NoDup_remove_dups|apply NoDup_seqZ|].
    intros x. rewrite elem_of_remove_dups, elem_of_app, !elem_of_seqZ. lia.
Qed.

Lemma join_outer_range left right :
  range_indexed left → range_indexed right →
  ¬ Exists (λ c, c ∈ columns right) (columns left) →
  ∃ d, join_outer left right = Ok d
     ∧ columns d = columns left ++ columns right
     ∧ range_indexed d ∧ len d = len left `max` len right.
Proof.
  intros Hl Hr Hno. unfold join_outer. rewrite decide_False by done.
  eexists. split; [done|]. split; [done|].
  rewrite Hl, Hr, sorted_union_range.
  unfold range_indexed, index, len. simpl.
  rewrite map_map, length_map. simpl. rewrite map_id.
  assert (Hlen : ∀ k, length (range k) = k).
  { intros k. unfold range. by rewrite length_seqZ, Nat2Z.id. }
  by rewrite Hlen.
Qed.

Lemma join_cell_range left right :
  range_indexed left → range_indexed right →
  ¬ Exists (λ c, c ∈ columns right) (columns left) →
  ∃ d, join_cell left right = Ok d
     ∧ columns d = columns left ++ columns right
     ∧ range_indexed d ∧ len d = len left `max` len right.
Proof.
  intros Hl Hr Hno.
  destruct (join_outer_range left right Hl Hr Hno) as [d [Hd [Hc [Hi Hn]]]].
  exists (where_notnull_None d). unfold join_cell. rewrite Hd. simpl.
  split; [done|]. split; [done|].
  unfold range_indexed, len in *. simpl.
  rewrite length_map. split; [|done].
  rewrite <- Hi. unfold index. simpl. by rewrite map_map.
Qed.

Lemma row_getitem_in cols (r : gmap string pyobj) c :
  c ∈ cols → row_getitem cols r c = Ok (default VNaN (r !! c)).
Proof. intros H. unfold row_getitem. by rewrite decide_True. Qed.

Lemma item_of_acc cols row (fs : list (string * string))
    (item : gmap string attr) :
  (∀ ac, ac ∈ fs → ac.2 ∈ cols) →
  fold_left
    (λ acc ac, bind acc (λ item,
       bind (row_getitem cols row ac.2) (λ v,
         Ok (<[ac.1 := AttrS (str v)]> item))))
    fs (Ok item)
  = Ok (fold_left
          (λ item ac, <[ac.1 := AttrS (str (default VNaN (row !! ac.2)))]> item)
          fs item).
Proof.
  revert item. induction fs as [|ac fs IH]; intros item Hfs; [done|].
  cbn [fold_left bind].
  rewrite row_getitem_in by (apply Hfs, elem_of_cons; by left).
  cbn [bind]. apply IH. intros ac' H. apply Hfs, elem_of_cons. by right.
Qed.

Lemma item_of_ok cols idx row :
  (∀ ac, ac ∈ item_fields → ac.2 ∈ cols) →
  item_of cols idx row = Ok (item_spec idx row).
Proof. intros H. unfold item_of, item_spec. by apply item_of_acc. Qed.

(** Every attribute of an item is a string, the key apart. *)
Lemma item_spec_strings idx row k a :
  item_spec idx row !! k = Some a →
  (k = "line_nr" ∧ a = AttrN idx) ∨ ∃ s, a = AttrS s.
Proof.
  unfold item_spec. generalize item_fields as fs.
  assert (H0 : ∀ k a, ({["line_nr" := AttrN idx]} : gmap string attr) !! k = Some a →
               (k = "line_nr" ∧ a = AttrN idx) ∨ ∃ s, a = AttrS s).
  { intros k' a' H. apply lookup_singleton_Some in H as [<- <-]. by left. }
  revert H0. generalize ({["line_nr" := AttrN idx]} : gmap string attr) as item.
  intros item H0 fs. revert item H0 k a.
  induction fs as [|ac fs IH]; intros item H0 k a; [apply H0|].
  simpl. apply IH. intros k' a' H.
  destruct (decide (ac.1 = k')) as [<-|Hne].
  - rewrite lookup_insert_eq in H. injection H as <-. right. by eexists.
  - rewrite lookup_insert_ne in H by done. by apply H0.
Qed.

Lemma item_spec_key idx row :
  item_spec idx row !! "line_nr" = Some (AttrN idx).
Proof.
  unfold item_spec, item_fields. simpl.
  rewrite !lookup_insert_ne by done. apply lookup_singleton_eq.
Qed.


Lemma put_item_existing name k item T
    (ds : gmap string (gmap Z (gmap string attr))) :
  ds !! name = Some T →
  put_item name k item ds = Ok (<[name := <[k := item]> T]> ds).
Proof. intros H. unfold put_item. by rewrite H. Qed.

Lemma for_each_cons {A B} (body : A → B → M A) a b l w :
  for_each body a (b :: l) w
  = match body a b w with
    | (Ok a', w') => for_each body a' l w'
    | (Raise e, w') => (Raise e, w')
    end.
Proof. reflexivity. Qed.

Lemma upload_row_ok name cols lr T w :
  (∀ ac, ac ∈ item_fields → ac.2 ∈ cols) →
  store w !! name = Some T →
  upload_row name cols () lr w
  = (Ok (),
     {| trace := trace w ++ [PutItem name lr.1];
        store := <[name := <[lr.1 := item_spec lr.1 lr.2]> T]> (store w) |}).
Proof.
  intros Hcols HT. unfold upload_row, mbind, M_bind, lift, emit, on_store.
  rewrite item_of_ok by done. simpl.
  by rewrite (put_item_existing _ _ _ T).
Qed.

Lemma upload_rows name cols rows T w :
  (∀ ac, ac ∈ item_fields → ac.2 ∈ cols) →
  store w !! name = Some T →
  for_each (upload_row name cols) () rows w
  = (Ok (),
     {| trace := trace w ++ map (λ lr, PutItem name lr.1) rows;
        store := <[name := fold_left (λ T lr, <[lr.1 := item_spec lr.1 lr.2]> T)
                             rows T]> (store w) |}).
Proof.
  intros Hcols. revert T w. induction rows as [|lr rows IH]; intros T w HT.
  - simpl. unfold mret, M_ret. rewrite app_nil_r, insert_id by done.
    by destruct w.
  - rewrite for_each_cons, (upload_row_ok _ _ _ T) by done.
    rewrite (IH (<[lr.1 := item_spec lr.1 lr.2]> T)).
    + simpl. by rewrite insert_insert_eq, <- app_assoc.
    + simpl. apply lookup_insert_eq.
Qed.

(** The persistence cells on a store that has no table of that name. *)
Lemma persist_fresh uuid df w :
  has_item_columns df → store w !! tablename uuid = None →
  persist uuid df w
  = (Ok (),
     {| trace := trace w ++ CreateTable (tablename uuid)
                   :: map (λ lr, PutItem (tablename uuid) lr.1) (body df);
        store := <[tablename uuid := table_of df]> (store w) |}).
Proof.
  intros Hc Hf. unfold persist, create_cell, upload_cell.
  unfold mbind at 1, M_bind at 1. unfold mbind at 1, M_bind at 1.
  unfold emit at 1, on_store at 1. simpl. unfold create_table. rewrite Hf. simpl.
  rewrite (upload_rows _ _ _ ∅) by (done || apply lookup_insert_eq).
  simpl. rewrite insert_insert_eq, <- app_assoc. done.
Qed.

(** The table-creation cell refuses a name that is taken, and nothing
    is written. *)
Lemma persist_taken uuid df w T :
  store w !! tablename uuid = Some T →
  persist uuid df w
  = (Raise (ResourceInUseException (tablename uuid)),
     {| trace := trace w ++ [CreateTable (tablename uuid)]; store := store w |}).
Proof.
  intros Hf. unfold persist, create_cell.
  unfold mbind at 1, M_bind at 1. unfold mbind at 1, M_bind at 1.
  unfold emit at 1, on_store at 1. simpl. unfold create_table. by rewrite Hf.
Qed.

Lemma fold_insert_lookup_other {V} (f : Z * gmap string pyobj → V)
    (rows : list (Z * gmap string pyobj)) (T : gmap Z V) k :
  k ∉ rows.*1 →
  fold_left (λ T lr, <[lr.1 := f lr]> T) rows T !! k = T !! k.
Proof.
  revert T. induction rows as [|lr rows IH]; intros T Hk; [done|].
  simpl. rewrite IH.
  - apply lookup_insert_ne. intros Heq. apply Hk. rewrite fmap_cons.
    apply elem_of_cons. by left.
  - intros H. apply Hk. rewrite fmap_cons. apply elem_of_cons. by right.
Qed.

Lemma fold_insert_lookup {V} (f : Z * gmap string pyobj → V)
    (rows : list (Z * gmap string pyobj)) (T : gmap Z V) lr :
  NoDup rows.*1 → lr ∈ rows →
  fold_left (λ T lr, <[lr.1 := f lr]> T) rows T !! lr.1 = Some (f lr).
Proof.
  revert T. induction rows as [|lr' rows IH]; intros T Hnd Hin.
  { by apply elem_of_nil in Hin. }
  rewrite fmap_cons in Hnd. apply NoDup_cons in Hnd as [Hfirst Hnd].
  simpl. apply elem_of_cons in Hin as [->|Hin].
  - rewrite fold_insert_lookup_other by done. apply lookup_insert_eq.
  - by apply IH.
Qed.

Lemma fold_insert_dom {V} (f : Z * gmap string pyobj → V)
    (rows : list (Z * gmap string pyobj)) (T : gmap Z V) :
  dom (fold_left (λ T lr, <[lr.1 := f lr]> T) rows T)
  = list_to_set rows.*1 ∪ dom T.
Proof.
  revert T. induction rows as [|lr rows IH]; intros T; simpl.
  - by rewrite (left_id_L ∅ (∪)).
  - rewrite IH, dom_insert_L. apply set_eq. intros x.
    rewrite !elem_of_union. tauto.
Qed.

(** The uploaded table of a frame labelled [0 .. n-1]. *)
Lemma table_of_range df :
  range_indexed df →
  size (table_of df) = len df
  ∧ (∀ k, is_Some (table_of df !! k) ↔ (0 ≤ k < Z.of_nat (len df))%Z)
  ∧ ∀ i l r, body df !! i = Some (l, r) →
      l = Z.of_nat i ∧ table_of df !! Z.of_nat i = Some (item_spec l r).
Proof.
  intros Hr. unfold table_of.
  assert (Hnd : NoDup (body df).*1).
  { change ((body df).*1) with (index df). rewrite Hr. apply NoDup_seqZ. }
  assert (Hdom : dom (fold_left (λ T lr, <[lr.1 := item_spec lr.1 lr.2]> T)
                        (body df) (∅ : gmap Z (gmap string attr)))
                 = list_to_set (range (len df))).
  { rewrite (fold_insert_dom (λ lr, item_spec lr.1 lr.2)).
    rewrite dom_empty_L, (right_id_L ∅ (∪)).
    change ((body df).*1) with (index df). by rewrite Hr. }
  split; [|split].
  - rewrite <- size_dom, Hdom, size_list_to_set by apply NoDup_seqZ.
    unfold range. by rewrite length_seqZ, Nat2Z.id.
  - intros k. rewrite <- elem_of_dom, Hdom, elem_of_list_to_set.
    unfold range. rewrite elem_of_seqZ. lia.
  - intros i l r Hi.
    assert (Hl : l = Z.of_nat i) by (by eapply range_indexed_label).
    split; [done|]. rewrite <- Hl.
    apply (fold_insert_lookup (λ lr, item_spec lr.1 lr.2) _ _ (l, r)); [done|].
    by eapply list_elem_of_lookup_2.
Qed.

Lemma tablename_inj u1 u2 : tablename u1 = tablename u2 → u1 = u2.
Proof. unfold tablename. intros H. by simplify_eq/=. Qed.

End PersistFacts.

Section UploadInvariant.

Lemma fold_bind_raise {A B} (f : A → B → result A) (l : list B) e :
  fold_left (λ acc b, bind acc (λ a, f a b)) l (Raise e) = Raise e.
Proof. induction l as [|b l IH]; [done|]. simpl. apply IH. Qed.

Lemma item_of_inv cols idx row item :
  item_of cols idx row = Ok item → item = item_spec idx row.
Proof.
  unfold item_of, item_spec.
  generalize ({["line_nr" := AttrN idx]} : gmap string attr) as item0.
  generalize item_fields as fs.
  induction fs as [|ac fs IH]; intros item0.
  { simpl. by intros [= <-]. }
  cbn [fold_left bind]. destruct (decide (ac.2 ∈ cols)) as [Hin|Hnin].
  - rewrite row_getitem_in by done. cbn [bind]. apply IH.
  - assert (Hk : row_getitem cols row ac.2 = Raise (KeyError ac.2)).
    { unfold row_getitem. by rewrite decide_False. }
    rewrite Hk. cbn [bind].
    rewrite (fold_bind_raise
               (λ item ac, bind (row_getitem cols row ac.2)
                             (λ v, Ok (<[ac.1 := AttrS (str v)]> item)))).
    done.
Qed.

(** Whatever the upload loop does, an item of the table was there
    before or was built by the upload cell. *)
Lemma upload_rows_inv name cols rows w r w' T :
  for_each (upload_row name cols) () rows w = (r, w') →
  store w !! name = Some T →
  ∃ T', store w' !! name = Some T'
    ∧ ∀ k item, T' !! k = Some item →
        T !! k = Some item ∨ ∃ idx row, item = item_spec idx row.
Proof.
  revert w T. induction rows as [|lr rows IH]; intros w T Hrun HT.
  { simpl in Hrun. injection Hrun as <- <-. exists T. split; [done|]. auto. }
  rewrite for_each_cons in Hrun.
  destruct (item_of cols lr.1 lr.2) as [item|e] eqn:Hitem.
  - assert (Hstep : upload_row name cols () lr w
        = (Ok (), {| trace := trace w ++ [PutItem name lr.1];
                     store := <[name := <[lr.1 := item]> T]> (store w) |})).
    { unfold upload_row, mbind, M_bind, lift, emit, on_store.
      rewrite Hitem. simpl. by rewrite (put_item_existing _ _ _ T). }
    rewrite Hstep in Hrun.
    destruct (IH _ (<[lr.1 := item]> T) Hrun) as [T' [HT' Hitems]].
    { simpl. apply lookup_insert_eq. }
    exists T'. split; [done|]. intros k it Hk.
    destruct (Hitems k it Hk) as [Hold|Hnew]; [|by right].
    destruct (decide (lr.1 = k)) as [<-|Hne].
    + rewrite lookup_insert_eq in Hold. injection Hold as <-.
      right. exists lr.1, lr.2. by eapply item_of_inv.
    + rewrite lookup_insert_ne in Hold by done. by left.
  - assert (Hstep : upload_row name cols () lr w = (Raise e, w)).
    { unfold upload_row, mbind, M_bind, lift. by rewrite Hitem. }
    rewrite Hstep in Hrun. injection Hrun as <- <-.
    exists T. split; [done|]. auto.
Qed.

End UploadInvariant.

(** ** The service cells *)

Section RunFacts.

Implicit Types (env : Env) (w : World).

Lemma bind_ok {A B} (m : M A) (k : A → M B) w a w' :
  m w = (Ok a, w') → (m ≫= k) w = k a w'.
Proof. intros H. unfold mbind, M_bind. by rewrite H. Qed.

Lemma bind_raise {A B} (m : M A) (k : A → M B) w e w' :
  m w = (Raise e, w') → (m ≫= k) w = (Raise e, w').
Proof. intros H. unfold mbind, M_bind. by rewrite H. Qed.

Lemma emit_eq e w :
  emit e w = (Ok (), {| trace := trace w ++ [e]; store := store w |}).
Proof. done. Qed.

Lemma first_active_Some status k n j :
  first_active status k n = Some j →
  k ≤ j < k + n ∧ status j = "Active"
  ∧ ∀ i, k ≤ i < j → status i ≠ "Active".
Proof.
  revert k. induction n as [|n IH]; intros k; simpl; [done|].
  destruct (String.eqb (status k) "Active") eqn:E.
  - intros [= <-]. apply String.eqb_eq in E. repeat split; [lia..|done|].
    intros i Hi. lia.
  - intros H. apply IH in H as [Hj [Hs Hi]]. apply String.eqb_neq in E.
    repeat split; [lia..|done|]. intros i Hik.
    destruct (decide (i = k)) as [->|]; [done|]. apply Hi. lia.
Qed.

Lemma first_active_None status k n :
  first_active status k n = None ↔ ∀ i, k ≤ i < k + n → status i ≠ "Active".
Proof.
  revert k. induction n as [|n IH]; intros k; simpl.
  { split; [intros _ i Hi; lia|done]. }
  destruct (String.eqb (status k) "Active") eqn:E.
  - apply String.eqb_eq in E. split; [done|]. intros H.
    exfalso. apply (H k); [lia|done].
  - apply String.eqb_neq in E. rewrite IH. split.
    + intros H i Hi. destruct (decide (i = k)) as [->|]; [done|]. apply H. lia.
    + intros H i Hi. apply H. lia.
Qed.

Lemma polls_S a : polls (S a) = DescribeFlowDefinition :: Sleep 2 :: polls a.
Proof. done. Qed.

(** The activation loop: it returns, and its calls are determined by
    the first Active answer within the attempts. *)
Lemma flow_loop_spec env xs k x w :
  ∃ x' tr,
    flow_loop env xs k x w
      = (Ok x', {| trace := trace w ++ tr; store := store w |})
    ∧ tr = match first_active (flow_status env) k (length xs) with
           | Some j => polls (j - k) ++ [DescribeFlowDefinition]
           | None => polls (length xs)
           end.
Proof.
  revert k x w. induction xs as [|n xs IH]; intros k x w.
  { exists x, []. simpl. rewrite app_nil_r. by destruct w. }
  cbn [flow_loop length first_active].
  rewrite (bind_ok _ _ _ _ _ (emit_eq _ _)).
  destruct (String.eqb (flow_status env k) "Active") eqn:E.
  - exists (Some (XInt n)), [DescribeFlowDefinition].
    by rewrite Nat.sub_diag.
  - rewrite (bind_ok _ _ _ _ _ (emit_eq _ _)). simpl.
    destruct (IH (S k) (Some (XInt n))
                {| trace := (trace w ++ [DescribeFlowDefinition]) ++ [Sleep 2];
                   store := store w |}) as [x' [tr [Hrun Htr]]].
    exists x', (DescribeFlowDefinition :: Sleep 2 :: tr).
    rewrite Hrun. simpl. rewrite <- !app_assoc. split; [done|].
    rewrite Htr. destruct (first_active _ (S k) _) as [j|] eqn:Hj; [|done].
    apply first_active_Some in Hj as [Hj _].
    replace (j - k) with (S (j - S k)) by lia. done.
Qed.

Lemma polls_events a e :
  e ∈ polls a → e = DescribeFlowDefinition ∨ e = Sleep 2.
Proof.
  induction a as [|a IH]; [by intros ?%elem_of_nil|].
  rewrite polls_S. intros [->|[->|H]%elem_of_cons]%elem_of_cons; auto.
Qed.

Lemma polls_count a : count is_describe_flow (polls a) = a.
Proof.
  induction a as [|a IH]; [done|]. rewrite polls_S. unfold count in *.
  rewrite filter_cons_True by done. rewrite filter_cons_False by done.
  simpl. by rewrite IH.
Qed.

Lemma polls_not_loop_events a :
  Forall (λ e, is_describe_loop e = false ∧ is_write e = false) (polls a).
Proof.
  induction a as [|a IH]; [constructor|]. rewrite polls_S.
  repeat constructor; done.
Qed.

Lemma count_app p tr1 tr2 : count p (tr1 ++ tr2) = count p tr1 + count p tr2.
Proof. unfold count. by rewrite filter_app, length_app. Qed.

Lemma dispatch_spec env df_form df_tab w hdrs items :
  hdr_list df_form = Ok hdrs → item_list df_tab = Ok items →
  ∃ x tr,
    flow_wait env w = (Ok x, {| trace := trace w ++ tr; store := store w |})
    ∧ tr = match first_active (flow_status env) 0 60 with
           | Some j => polls j ++ [DescribeFlowDefinition]
           | None => polls 60
           end
    ∧ dispatch env df_form df_tab w
      = (Ok x, {| trace := trace w ++ tr
                             ++ [StartHumanLoop (loop_uuid env) hdrs items];
                  store := store w |}).
Proof.
  intros Hh Hi.
  destruct (flow_loop_spec env (range 60) 0 None w) as [x [tr [Hrun Htr]]].
  exists x, tr. split; [done|]. split.
  { rewrite Htr. change (length (range 60)) with 60.
    destruct (first_active _ 0 60); [|done]. by rewrite Nat.sub_0_r. }
  unfold dispatch. rewrite (bind_ok _ _ _ _ _ Hrun).
  rewrite Hi, Hh. simpl. unfold mbind, M_bind, lift, emit, mret, M_ret. simpl.
  by rewrite <- app_assoc.
Qed.

Lemma activation_wait_calls env w :
  ∃ x tr,
    flow_wait env w = (Ok x, {| trace := trace w ++ tr; store := store w |})
    ∧ (∀ e, e ∈ tr → e = DescribeFlowDefinition ∨ e = Sleep 2)
    ∧ ∀ df_form df_tab hdrs items,
        hdr_list df_form = Ok hdrs → item_list df_tab = Ok items →
        dispatch env df_form df_tab w
        = (Ok x, {| trace := trace w ++ tr
                               ++ [StartHumanLoop (loop_uuid env) hdrs items];
                    store := store w |}).
Proof.
  destruct (flow_loop_spec env (range 60) 0 None w) as [x [tr [Hrun Htr]]].
  exists x, tr. split; [done|]. split.
  { intros e He. rewrite Htr in He.
    destruct (first_active (flow_status env) 0 _) as [j|].
    - apply elem_of_app in He as [He|He]; [by eapply polls_events|].
      apply list_elem_of_singleton in He. by left.
    - by eapply polls_events. }
  intros df_form df_tab hdrs items Hh Hi.
  destruct (dispatch_spec env df_form df_tab w hdrs items Hh Hi)
    as [x' [tr' [Hrun' [_ Hd]]]].
  unfold flow_wait in Hrun'. rewrite Hrun in Hrun'.
  injection Hrun' as <- Heq. apply app_inv_head in Heq as <-. done.
Qed.

(** The two status cells and the output cell when the second status
    is not Completed: two calls, nothing fetched, [json_output] unbound. *)
Lemma review_not_completed env w :
  loop_status env 1 ≠ "Completed" →
  review env w
  = (Ok None,
     {| trace := trace w ++ [DescribeHumanLoop (loop_uuid env);
                             DescribeWorkteam;
                             DescribeHumanLoop (loop_uuid env)];
        store := store w |}).
Proof.
  intros H. apply String.eqb_neq in H.
  unfold review, status_cell, fetch_cell, mbind, M_bind, emit, mret, M_ret.
  simpl. rewrite H. simpl. unfold mret, M_ret. by rewrite <- !app_assoc.
Qed.

Lemma review_completed env w :
  loop_status env 1 = "Completed" →
  review env w
  = (Ok (Some (loop_output env)),
     {| trace := trace w ++ [DescribeHumanLoop (loop_uuid env);
                             DescribeWorkteam;
                             DescribeHumanLoop (loop_uuid env); GetObject];
        store := store w |}).
Proof.
  intros H. apply String.eqb_eq in H.
  unfold review, status_cell, fetch_cell, mbind, M_bind, emit, mret, M_ret.
  simpl. rewrite H. simpl. unfold mbind, M_bind, emit, mret, M_ret. simpl.
  by rewrite <- !app_assoc.
Qed.

Lemma bind_answer_last (x : option xval) (out : JsonOutput) (a : HumanAnswer) :
  last (humanAnswers out) = Some a →
  bind_answer x out = Some (XDict (answerContent a)).
Proof.
  unfold bind_answer. intros [l ->]%last_Some.
  by rewrite fold_left_app.
Qed.

(** The run up to the join cell when the second status is Completed and
    the answer document holds an answer. *)
Lemma run_after_review env df_form df_tab w hdrs items a f' t' :
  hdr_list df_form = Ok hdrs → item_list df_tab = Ok items →
  loop_status env 1 = "Completed" →
  last (humanAnswers (loop_output env)) = Some a →
  merge_form (Some (XDict (answerContent a))) df_form = Ok f' →
  merge_tab (Some (XDict (answerContent a))) df_tab = Ok t' →
  ∃ tr,
    (∀ e, e ∈ tr → e = DescribeFlowDefinition ∨ e = Sleep 2)
    ∧ run env df_form df_tab w
      = (lift (join_cell f' t') ≫= persist (table_uuid env))
          {| trace := trace w ++ tr
                        ++ [StartHumanLoop (loop_uuid env) hdrs items;
                            DescribeHumanLoop (loop_uuid env);
                            DescribeWorkteam;
                            DescribeHumanLoop (loop_uuid env);
                            GetObject];
             store := store w |}.
Proof.
  intros Hh Hi Hst Ha Hf Ht.
  destruct (activation_wait_calls env w) as [x [tr [Hrun [Hev Hd]]]].
  exists tr. split; [done|].
  unfold run. rewrite (bind_ok _ _ _ _ _ (Hd _ _ _ _ Hh Hi)).
  rewrite (bind_ok _ _ _ _ _ (review_completed _ _ Hst)).
  unfold merge_cell. rewrite !(bind_answer_last _ _ _ Ha).
  unfold merge_form in Hf. unfold merge_tab in Ht. rewrite Hf. cbn [bind].
  rewrite (bind_ok _ _ _ _ _ (eq_refl : lift (Ok _) _ = (Ok _, _))).
  cbn [fst snd]. rewrite (bind_answer_last _ _ _ Ha), Ht. cbn [bind].
  rewrite (bind_ok _ _ _ _ _ (eq_refl : lift (Ok _) _ = (Ok _, _))).
  cbn [fst snd]. simpl. by rewrite <- !app_assoc.
Qed.

End RunFacts.

(** ** Writing and tokenizing *)

Section CsvFacts.

Variable he : Z.

Implicit Types (s f w : string) (fs row : list string)
  (ls rows : list (list string)) (p : parser).

Lemma sapp_cons c s t : String c s +:+ t = String c (s +:+ t).
Proof. done. Qed.

Lemma sapp_nil_l s : EmptyString +:+ s = s.
Proof. done. Qed.

Lemma sapp_nil_r s : s +:+ EmptyString = s.
Proof. induction s as [|c s IH]; [done|]. by rewrite sapp_cons, IH. Qed.

Lemma sapp_assoc s t u : (s +:+ t) +:+ u = s +:+ (t +:+ u).
Proof. induction s as [|c s IH]; [done|]. by rewrite !sapp_cons, IH. Qed.

Lemma sapp_snoc w c s : (w +:+ String c EmptyString) +:+ s = w +:+ String c s.
Proof. by rewrite sapp_assoc. Qed.

Lemma feed_cons p c s :
  feed he p (String c s) = bind (step he p c) (λ p', feed he p' s).
Proof. done. Qed.

Lemma feed_app p s t :
  feed he p (s +:+ t) = bind (feed he p s) (λ p', feed he p' t).
Proof.
  revert p. induction s as [|c s IH]; intros p; [done|].
  rewrite sapp_cons, !feed_cons. destruct (step he p c) as [p'|e]; [|done].
  simpl. apply IH.
Qed.

Lemma classify_COMMA : classify COMMA = CComma. Proof. done. Qed.
Lemma classify_DQUOTE : classify DQUOTE = CQuote. Proof. done. Qed.
Lemma classify_CR : classify CR = CCr. Proof. done. Qed.
Lemma classify_LF : classify LF = CLf. Proof. done. Qed.

Lemma classify_CQuote c : classify c = CQuote → c = DQUOTE.
Proof.
  unfold classify. destruct (Ascii.eqb c COMMA); [done|].
  destruct (Ascii.eqb c DQUOTE) eqn:E; [by apply Ascii.eqb_eq in E|].
  destruct (Ascii.eqb c CR); [done|]. destruct (Ascii.eqb c LF); [done|].
  by destruct (Ascii.eqb c SPACE || Ascii.eqb c TAB).
Qed.

Lemma step_in_quoted fs w ls c :
  classify c ≠ CQuote →
  step he (mid IN_QUOTED_FIELD fs w ls) c
  = Ok (mid IN_QUOTED_FIELD fs (w +:+ String c EmptyString) ls).
Proof. intros H. unfold step. simpl. by destruct (classify c). Qed.

Lemma step_in_quoted_quote fs w ls :
  step he (mid IN_QUOTED_FIELD fs w ls) DQUOTE
  = Ok (mid QUOTE_IN_QUOTED_FIELD fs w ls).
Proof. done. Qed.

Lemma step_quote_quote fs w ls :
  step he (mid QUOTE_IN_QUOTED_FIELD fs w ls) DQUOTE
  = Ok (mid IN_QUOTED_FIELD fs (w +:+ String DQUOTE EmptyString) ls).
Proof. done. Qed.

Lemma step_in_field_plain fs w ls c :
  classify c = CBlank ∨ classify c = COther →
  step he (mid IN_FIELD fs w ls) c = Ok (mid IN_FIELD fs (w +:+ String c EmptyString) ls).
Proof. intros H. unfold step, in_field_step. simpl. by destruct H as [-> | ->]. Qed.

Lemma step_start_field_plain fs ls c :
  classify c = CBlank ∨ classify c = COther →
  step he (mid START_FIELD fs EmptyString ls) c = Ok (mid IN_FIELD fs (String c EmptyString) ls).
Proof. intros H. unfold step, start_field_step. simpl. by destruct H as [-> | ->]. Qed.

Lemma step_start_field_quote fs ls :
  step he (mid START_FIELD fs EmptyString ls) DQUOTE = Ok (mid IN_QUOTED_FIELD fs EmptyString ls).
Proof. done. Qed.

(** Inside quotes: the doubled text gives back the text. *)
Lemma feed_quoted_body fs w ls f rest :
  feed he (mid IN_QUOTED_FIELD fs w ls) (double_quotes f +:+ rest)
  = feed he (mid IN_QUOTED_FIELD fs (w +:+ f) ls) rest.
Proof.
  revert w. induction f as [|c f IH]; intros w.
  { by rewrite sapp_nil_r. }
  cbn [double_quotes]. destruct (classify c) eqn:E.
  all: try (rewrite sapp_cons, feed_cons, step_in_quoted by (by rewrite E);
            cbn [bind]; by rewrite IH, sapp_snoc).
  apply classify_CQuote in E as ->.
  rewrite !sapp_cons, feed_cons, step_in_quoted_quote. cbn [bind].
  rewrite feed_cons, step_quote_quote. cbn [bind].
  by rewrite IH, sapp_snoc.
Qed.

Lemma needs_quote_cons c f :
  needs_quote (String c f) = false →
  (classify c = CBlank ∨ classify c = COther) ∧ needs_quote f = false.
Proof.
  simpl. intros [H1 H2]%orb_false_elim. split; [|done].
  unfold special in H1. destruct (classify c); auto; discriminate.
Qed.

(** Outside quotes: text that needs no quoting is read as it stands. *)
Lemma feed_plain fs w ls f rest :
  needs_quote f = false →
  feed he (mid IN_FIELD fs w ls) (f +:+ rest)
  = feed he (mid IN_FIELD fs (w +:+ f) ls) rest.
Proof.
  revert w. induction f as [|c f IH]; intros w Hq.
  { by rewrite sapp_nil_r. }
  apply needs_quote_cons in Hq as [Hc Hq].
  rewrite sapp_cons, feed_cons, step_in_field_plain by done. cbn [bind].
  by rewrite IH, sapp_snoc.
Qed.

(** A written field, read from the start of a field. *)
Lemma feed_field fs ls f rest :
  ∃ st, field_read st f
    ∧ feed he (mid START_FIELD fs EmptyString ls) (write_field f +:+ rest)
      = feed he (mid st fs f ls) rest.
Proof.
  unfold write_field. destruct (needs_quote f) eqn:Hq.
  - exists QUOTE_IN_QUOTED_FIELD. split; [right; by left|].
    rewrite sapp_cons, feed_cons, step_start_field_quote. cbn [bind].
    rewrite sapp_assoc, feed_quoted_body, sapp_nil_l, sapp_cons, feed_cons.
    by rewrite step_in_quoted_quote.
  - destruct f as [|c f].
    + exists START_FIELD. split; [right; by right|done].
    + exists IN_FIELD. split; [by left|].
      apply needs_quote_cons in Hq as [Hc Hq].
      rewrite sapp_cons, feed_cons, step_start_field_plain by done. cbn [bind].
      by rewrite feed_plain.
Qed.

(** After a field: a comma starts the next field, CR LF ends the line. *)
Lemma step_comma st fs f ls :
  field_read st f →
  step he (mid st fs f ls) COMMA = Ok (mid START_FIELD (fs ++ [f]) EmptyString ls).
Proof. intros [->|[->|[-> ->]]]; done. Qed.

Lemma feed_crlf st fs f ls rest :
  field_read st f →
  feed he (mid st fs f ls) (String CR (String LF rest))
  = bind (end_line_fields he ls (fs ++ [f])) (λ ls', feed he (at_line ls') rest).
Proof.
  intros Hst. rewrite !feed_cons.
  assert (H1 : step he (mid st fs f ls) CR = Ok (mid EAT_CRNL (fs ++ [f]) EmptyString ls))
    by (by destruct Hst as [->|[->|[-> ->]]]).
  rewrite H1. cbn [bind]. rewrite feed_cons.
  change (step he (mid EAT_CRNL (fs ++ [f]) EmptyString ls) LF)
    with (end_line he (mid EAT_CRNL (fs ++ [f]) EmptyString ls)).
  unfold end_line. cbn [lines row_fields mid].
  by destruct (end_line_fields he ls (fs ++ [f])).
Qed.

(** The rest of a line after its first field was read. *)
Lemma feed_after_field st fs f ls more rest :
  field_read st f →
  feed he (mid st fs f ls) (tail_text more rest)
  = bind (end_line_fields he ls (fs ++ f :: more))
         (λ ls', feed he (at_line ls') rest).
Proof.
  revert st fs f. induction more as [|g more IH]; intros st fs f Hst.
  - by apply feed_crlf.
  - cbn [tail_text]. rewrite feed_cons, (step_comma _ _ _ _ Hst). cbn [bind].
    change (join_fields (g :: more) +:+ CRLF rest)
      with (match more with
            | [] => write_field g
            | _ :: _ => write_field g +:+ String COMMA (join_fields more)
            end +:+ CRLF rest).
    assert (Heq : match more with
                  | [] => write_field g
                  | _ :: _ => write_field g +:+ String COMMA (join_fields more)
                  end +:+ CRLF rest
                  = write_field g +:+ tail_text more rest).
    { destruct more; [done|]. by rewrite sapp_assoc. }
    rewrite Heq.
    destruct (feed_field (fs ++ [f]) ls g (tail_text more rest))
      as [st' [Hst' ->]].
    rewrite (IH _ _ _ Hst'). by rewrite <- app_assoc.
Qed.

Lemma join_fields_cons f more rest :
  join_fields (f :: more) +:+ CRLF rest = write_field f +:+ tail_text more rest.
Proof. destruct more; [done|]. cbn [join_fields tail_text]. by rewrite sapp_assoc. Qed.

(** The fields of a line, read from the start of a field. *)
Lemma feed_fields fs ls f more rest :
  feed he (mid START_FIELD fs EmptyString ls) (join_fields (f :: more) +:+ CRLF rest)
  = bind (end_line_fields he ls (fs ++ f :: more))
         (λ ls', feed he (at_line ls') rest).
Proof.
  rewrite join_fields_cons.
  destruct (feed_field fs ls f (tail_text more rest)) as [st [Hst ->]].
  by apply feed_after_field.
Qed.

(** At the start of a line, a character that is neither blank nor a line
    end is taken as the start of a field. *)
Lemma step_start_record ls c :
  match classify c with CBlank | CCr | CLf => False | _ => True end →
  step he (at_line ls) c = step he (mid START_FIELD [] EmptyString ls) c.
Proof.
  unfold step, start_field_step. simpl. by destruct (classify c).
Qed.

Lemma all_blank_needs_quote f : all_blank f = true → needs_quote f = false.
Proof.
  induction f as [|c f IH]; [done|]. simpl. unfold special.
  destruct (classify c); by auto.
Qed.

(** A line that starts with blanks: the blanks are kept aside until
    another character shows that the line is not blank. *)
Lemma feed_blank pend ls f rest :
  needs_quote f = false →
  feed he (blank_so_far pend ls) (f +:+ rest)
  = if all_blank f
    then feed he (blank_so_far (pend +:+ f) ls) rest
    else feed he (mid IN_FIELD [] (pend +:+ f) ls) rest.
Proof.
  revert pend. induction f as [|c f IH]; intros pend Hq.
  { simpl. by rewrite sapp_nil_r. }
  apply needs_quote_cons in Hq as [Hc Hq].
  rewrite sapp_cons, feed_cons. cbn [all_blank].
  destruct Hc as [Hc|Hc]; rewrite Hc.
  - assert (Hs : step he (blank_so_far pend ls) c
                 = Ok (blank_so_far (pend +:+ String c EmptyString) ls)).
    { unfold step. simpl. by rewrite Hc. }
    rewrite Hs. cbn [bind]. rewrite IH by done. by rewrite sapp_snoc.
  - assert (Hs : step he (blank_so_far pend ls) c
                 = Ok (mid IN_FIELD [] (pend +:+ String c EmptyString) ls)).
    { unfold step, in_field_step. simpl. by rewrite Hc. }
    rewrite Hs. cbn [bind]. rewrite feed_plain by done. by rewrite sapp_snoc.
Qed.

(** One written row, read from the start of a line. *)
Lemma feed_row ls row rest :
  feed he (at_line ls) (writerow row +:+ rest)
  = if blank_row row then feed he (at_line ls) rest
    else bind (end_line_fields he ls row) (λ ls', feed he (at_line ls') rest).
Proof.
  destruct row as [|f more].
  { done. }
  destruct (decide (f = EmptyString ∧ more = [])) as [[-> ->]|Hne].
  { change (writerow [EmptyString] +:+ rest)
      with (String DQUOTE (String DQUOTE (CRLF rest))).
    change (blank_row [EmptyString]) with false. cbv iota.
    rewrite feed_cons, step_start_record by done.
    rewrite step_start_field_quote. cbn [bind].
    rewrite feed_cons, step_in_quoted_quote. cbn [bind].
    apply (feed_crlf QUOTE_IN_QUOTED_FIELD [] EmptyString ls rest). right. by left. }
  assert (Hw : writerow (f :: more) +:+ rest
               = write_field f +:+ tail_text more rest).
  { assert (H' : writerow (f :: more) = join_fields (f :: more) +:+ CRLF EmptyString).
    { unfold writerow. destruct f; [|done]. destruct more; [|done].
      exfalso. by apply Hne. }
    rewrite H', sapp_assoc. change (CRLF EmptyString +:+ rest) with (CRLF rest).
    apply join_fields_cons. }
  rewrite Hw.
  assert (Hgo : feed he (mid START_FIELD [] EmptyString ls)
                  (write_field f +:+ tail_text more rest)
                = bind (end_line_fields he ls (f :: more))
                    (λ ls', feed he (at_line ls') rest)).
  { destruct (feed_field [] ls f (tail_text more rest)) as [st [Hst ->]].
    by rewrite (feed_after_field _ _ _ _ _ _ Hst). }
  assert (Hnb : ∀ c s, write_field f +:+ tail_text more rest = String c s →
      match classify c with CBlank | CCr | CLf => False | _ => True end →
      feed he (at_line ls) (write_field f +:+ tail_text more rest)
      = bind (end_line_fields he ls (f :: more))
          (λ ls', feed he (at_line ls') rest)).
  { intros c s Hcs Hc. rewrite <- Hgo, Hcs, !feed_cons.
    by rewrite step_start_record. }
  unfold write_field in *. destruct (needs_quote f) eqn:Hq.
  - (* quoted first field *)
    assert (Hb : blank_row (f :: more) = false).
    { destruct more; [|done]. simpl.
      destruct (all_blank f) eqn:Hab; [|by rewrite andb_false_r].
      apply all_blank_needs_quote in Hab. congruence. }
    rewrite Hb. eapply Hnb; [by rewrite sapp_cons|done].
  - destruct f as [|c f].
    + (* empty first field, more fields follow *)
      destruct more as [|g more]; [exfalso; by apply Hne|].
      change (blank_row (EmptyString :: g :: more)) with false. cbv iota.
      eapply Hnb; [done|done].
    + apply needs_quote_cons in Hq as [Hc Hq'].
      destruct Hc as [Hc|Hc].
      * (* the line starts with a blank *)
        rewrite sapp_cons, feed_cons.
        assert (Hs : step he (at_line ls) c = Ok (blank_so_far (String c EmptyString) ls)).
        { unfold step. simpl. by rewrite Hc. }
        rewrite Hs. cbn [bind]. rewrite feed_blank by done.
        rewrite sapp_cons, sapp_nil_l.
        destruct more as [|g more].
        -- cbn [blank_row truthy all_blank andb]. rewrite Hc.
           destruct (all_blank f) eqn:Hab.
           ++ done.
           ++ by apply feed_crlf; left.
        -- change (blank_row (String c f :: g :: more)) with false. cbv iota.
           destruct (all_blank f) eqn:Hab.
           ++ cbn [tail_text]. rewrite feed_cons.
              assert (Hs' : step he (blank_so_far (String c f) ls) COMMA
                            = Ok (mid START_FIELD [String c f] EmptyString ls)) by done.
              rewrite Hs'. cbn [bind]. by rewrite feed_fields.
           ++ by apply feed_after_field; left.
      * (* the line starts with another character *)
        assert (Hb : blank_row (String c f :: more) = false).
        { destruct more; [|done]. simpl. by rewrite Hc. }
        rewrite Hb. eapply Hnb; [by rewrite sapp_cons|by rewrite Hc].
Qed.

Lemma write_csv_cat rows : write_csv rows = cat_rows rows.
Proof.
  unfold write_csv. rewrite <- (sapp_nil_l (cat_rows rows)).
  generalize EmptyString as acc. induction rows as [|r rows IH]; intros acc.
  - by rewrite sapp_nil_r.
  - simpl. rewrite IH. by rewrite sapp_assoc.
Qed.

Lemma check_lines_cons ls r rows :
  check_lines he ls (r :: rows)
  = bind (end_line_fields he ls r) (λ ls', check_lines he ls' rows).
Proof.
  unfold check_lines. simpl. destruct (end_line_fields he ls r) as [ls'|e]; [done|].
  simpl. induction rows as [|r' rows IH]; [done|]. simpl. apply IH.
Qed.

Lemma feed_rows ls rows :
  feed he (at_line ls) (cat_rows rows)
  = bind (check_lines he ls (nonblank rows)) (λ ls', Ok (at_line ls')).
Proof.
  revert ls. induction rows as [|r rows IH]; intros ls; [done|].
  cbn [cat_rows]. rewrite feed_row. unfold nonblank in *. rewrite filter_cons.
  destruct (blank_row r) eqn:Hb.
  - rewrite decide_False by done. apply IH.
  - rewrite decide_True by done. rewrite check_lines_cons.
    destruct (end_line_fields he ls r) as [ls'|e]; [|done]. simpl. apply IH.
Qed.

(** Tokenizing what the writer wrote: the rows that are not blank, in
    order, through the field-count check of the tokenizer. *)
Lemma tokenize_write_csv rows :
  tokenize he (write_csv rows) = check_lines he [] (nonblank rows).
Proof.
  unfold tokenize. rewrite write_csv_cat.
  change init with (at_line []). rewrite feed_rows.
  by destruct (check_lines he [] (nonblank rows)).
Qed.

End CsvFacts.

(** ** Loading *)

Section LoadFacts.

Implicit Types (L : Loader) (names : list string) (data : list (list string)).

Lemma check_lines_rectangular he k ls rows :
  rectangular k ls → rectangular k rows →
  check_lines he ls rows = Ok (ls ++ rows).
Proof.
  unfold rectangular. revert ls.
  induction rows as [|r rows IH]; intros ls Hls Hrows.
  { unfold check_lines. simpl. by rewrite app_nil_r. }
  apply Forall_cons in Hrows as [Hr Hrows].
  rewrite check_lines_cons.
  assert (He : end_line_fields he ls r = Ok (ls ++ [r])).
  { unfold end_line_fields. destruct (last ls) as [prev|] eqn:Hlast; [|done].
    assert (Hp : length prev = k).
    { apply last_Some in Hlast as [l' ->].
      apply Forall_app in Hls as [_ Hl]. by inversion Hl. }
    rewrite !decide_False by lia. done. }
  rewrite He. simpl. rewrite IH.
  - by rewrite <- app_assoc.
  - apply Forall_app. split; [done|]. by apply Forall_singleton.
  - done.
Qed.


Lemma frame_of_len L names data : len (frame_of L names data) = length data.
Proof. unfold len, frame_of. simpl. by rewrite length_imap. Qed.





End LoadFacts.

Section RoundTrip.

Lemma all_blank_last_char f c :
  all_blank f = true → last_char f = Some c → isspace c = true.
Proof.
  induction f as [|a f IH]; [done|]. simpl.
  destruct (classify a) eqn:Ha; try done. intros Hb.
  destruct f as [|b f].
  - intros [= <-]. unfold classify in Ha.
    destruct (Ascii.eqb a COMMA); [done|]. destruct (Ascii.eqb a DQUOTE); [done|].
    destruct (Ascii.eqb a CR); [done|]. destruct (Ascii.eqb a LF); [done|].
    destruct (Ascii.eqb a SPACE) eqn:E1.
    { by apply Ascii.eqb_eq in E1 as ->. }
    destruct (Ascii.eqb a TAB) eqn:E2; [|done].
    by apply Ascii.eqb_eq in E2 as ->.
  - intros H. by apply IH.
Qed.

Lemma last_char_nonempty f : f ≠ EmptyString → ∃ c, last_char f = Some c.
Proof.
  induction f as [|a f IH]; [done|]. intros _. destruct f as [|b f].
  - by exists a.
  - destruct IH as [c Hc]; [done|]. by exists c.
Qed.

(** A projected table row makes a line the loader skips exactly when
    the row has no non-empty cell. *)
Lemma csvrow_blank (row : Row) :
  blank_row (csvrow row) = true ↔ Forall (λ cell, text cell = EmptyString) (cells row).
Proof.
  rewrite csvrow_filter_map. split.
  - intros Hb. apply Forall_forall. intros cell Hc.
    destruct (text cell) as [|a s] eqn:Ht; [done|]. exfalso.
    assert (Hin : rstrip (text cell)
                  ∈ map rstrip (filter (λ s, truthy s = true) (map text (cells row)))).
    { apply list_elem_of_fmap. exists (text cell). split; [done|].
      apply list_elem_of_filter. split; [by rewrite Ht|].
      apply list_elem_of_fmap. by exists cell. }
    destruct (map rstrip _) as [|f [|g more]]; [by apply elem_of_nil in Hin| |done].
    apply list_elem_of_singleton in Hin as <-.
    simpl in Hb. apply andb_prop in Hb as [Hne Hab].
    destruct (last_char_nonempty (rstrip (text cell))) as [c Hc'].
    { intros H. by rewrite H in Hne. }
    pose proof (all_blank_last_char _ _ Hab Hc') as Hsp.
    by rewrite (rstrip_no_trailing_space _ _ Hc') in Hsp.
  - intros Hall. replace (filter _ _) with (@nil string); [done|].
    induction Hall as [|cell cs Hc _ IH]; [done|].
    simpl. rewrite filter_cons, Hc. by rewrite decide_False.
Qed.

Lemma nonblank_all rows :
  Forall (λ r, blank_row r = false) rows → nonblank rows = rows.
Proof.
  intros H. unfold nonblank. induction H as [|r rows Hr _ IH]; [done|].
  rewrite filter_cons, decide_True by done. by rewrite IH.
Qed.

End RoundTrip.

(** * The claims *)

(** C1. When the response holds at least one table, the table cell works
    on one table, the last one the traversal met, and writes one row per
    row of it; a row keeps, in order, the right-stripped text of its
    non-empty cells, so an empty cell yields no field, every field comes
    from a non-empty cell, and what was cut off is whitespace only. *)
Theorem line_item_projection_last_table (doc : Document) :
  all_tables doc ≠ [] →
  ∃ t, last (all_tables doc) = Some t
    ∧ table (iterate_document doc) = Some t
    ∧ tab_rows (iterate_document doc) = Ok (map csvrow (rows t))
    ∧ length (map csvrow (rows t)) = length (rows t)
    ∧ (∀ row, csvrow row
              = map rstrip (filter (λ s, s ≠ EmptyString) (map text (cells row))))
    ∧ (∀ row f, f ∈ csvrow row →
         ∃ cell, cell ∈ cells row ∧ text cell ≠ EmptyString ∧ f = rstrip (text cell))
    ∧ (∀ s, ∃ ws, s = rstrip s +:+ ws ∧ all_space ws = true
                 ∧ ∀ c, last_char (rstrip s) = Some c → isspace c = false).
Proof.
  intros Hne.
  destruct (last (all_tables doc)) as [t|] eqn:Hlast.
  2:{ apply last_None in Hlast. done. }
  exists t. split; [done|].
  assert (Ht : table (iterate_document doc) = Some t)
    by (by rewrite iterate_document_table).
  split; [done|]. split.
  { unfold tab_rows. rewrite Ht. by rewrite fold_left_snoc. }
  split; [by rewrite length_map|].
  assert (Hrow : ∀ row, csvrow row
              = map rstrip (filter (λ s, s ≠ EmptyString) (map text (cells row)))).
  { intros row. rewrite csvrow_filter_map. f_equal.
    apply list_filter_iff. intros s. apply truthy_nonempty. }
  split; [done|]. split.
  - intros row f Hf. rewrite Hrow in Hf.
    apply list_elem_of_fmap in Hf as [s [-> Hs]].
    apply list_elem_of_filter in Hs as [Hs1 Hs2].
    apply list_elem_of_fmap in Hs2 as [cell [-> Hc]].
    by exists cell.
  - intros s. destruct (rstrip_split s) as [ws [H1 H2]].
    exists ws. split; [done|]. split; [done|].
    intros c. apply rstrip_no_trailing_space.
Qed.

Lemma line_item_projection_last_table_witness :
  all_tables two_tables_doc ≠ []
  ∧ tab_rows (iterate_document two_tables_doc) = Ok [["Start Date"; "Role"]; []].
Proof.
  assert (H : all_tables two_tables_doc ≠ []) by (vm_compute; discriminate).
  split; [exact H|].
  destruct (line_item_projection_last_table two_tables_doc H)
    as [t [Hl [_ [Hr _]]]].
  vm_compute in Hl. injection Hl as <-. exact Hr.
Defined.






(** C4. For every answer dictionary, whatever keys it lacks, both merge
    cells return: no row and no field makes them raise.  Afterwards
    every row of both frames holds, under every corrected column, a
    string: [str] of the answer's entry when the key is there, and the
    marker "None" when it is not. *)
Theorem merge_total (d : gmap string pyobj) (df_form df_tab : DataFrame) :
  range_indexed df_form → range_indexed df_tab →
  ∃ f' t',
    merge_form (Some (XDict d)) df_form = Ok f'
    ∧ merge_tab (Some (XDict d)) df_tab = Ok t'
    ∧ len f' = len df_form ∧ len t' = len df_tab
    ∧ (∀ i col name, i < len df_form → (col, name) ∈ form_fields →
         cell f' i col
         = Some (VStr match d !! synth name (Z.of_nat i) with
                      | Some v => str v
                      | None => "None"
                      end))
    ∧ (∀ i col name, i < len df_tab → (col, name) ∈ tab_fields →
         cell t' i col
         = Some (VStr match d !! synth name (Z.of_nat i) with
                      | Some v => str v
                      | None => "None"
                      end))
    ∧ (∀ x out a, last (humanAnswers out) = Some a → answerContent a = d →
         merge_cell form_fields x (Some out) df_form = Ok (Some (XDict d), f')
         ∧ merge_cell tab_fields x (Some out) df_tab = Ok (Some (XDict d), t')).
Proof.
  intros Hf Ht.
  destruct (merge_cells d form_fields df_form Hf form_fields_NoDup)
    as [f' [Hmf [Hlf [_ Hcf]]]].
  destruct (merge_cells d tab_fields df_tab Ht tab_fields_NoDup)
    as [t' [Hmt [Hlt [_ Hct]]]].
  assert (Hst : ∀ name j, stored d name j
                 = VStr match d !! synth name j with
                        | Some v => str v
                        | None => "None"
                        end).
  { intros name j. unfold stored, get. by destruct (d !! synth name j). }
  exists f', t'. split; [done|]. split; [done|]. split; [done|].
  split; [done|]. split; [|split].
  - intros i col name Hi Hin. rewrite <- Hst. by apply Hcf.
  - intros i col name Hi Hin. rewrite <- Hst. by apply Hct.
  - intros x out a Hlast Ha. unfold merge_cell.
    rewrite (bind_answer_last _ _ _ Hlast), Ha, Hmf, Hmt. done.
Qed.

Lemma merge_total_witness :
  ∃ f' t',
    merge_form (Some (XDict ∅)) review_form = Ok f'
    ∧ merge_tab (Some (XDict ∅)) review_tab = Ok t'
    ∧ cell f' 0 "TrueHeader" = Some (VStr "None")
    ∧ cell t' 0 "ChangeComments" = Some (VStr "None").
Proof.
  assert (Hf : range_indexed review_form) by reflexivity.
  assert (Ht : range_indexed review_tab) by reflexivity.
  destruct (merge_total ∅ review_form review_tab Hf Ht)
    as [f' [t' [Hmf [Hmt [_ [_ [Hcf [Hct _]]]]]]]].
  exists f', t'. split; [exact Hmf|]. split; [exact Hmt|]. split.
  - refine (Hcf 0 "TrueHeader" "TrueHdr" _ _); [vm_compute; lia|by_decision].
  - refine (Hct 0 "ChangeComments" "Change Reason" _ _);
      [vm_compute; lia|by_decision].
Defined.

(** C5, as the notebook behaves.  There is no completion poller: the
    status of the human loop is asked for exactly twice, by the two
    status cells, with no sleep and no retry.  When the second answer
    is not Completed, no output is fetched, the first merge cell stops
    the run with a [NameError] for [json_output] (not a [TimeoutError]),
    and no table is created and no item written. *)
Theorem review_pending_stops_run (env : Env) (df_form df_tab : DataFrame)
    (w : World) (hdrs items : list (gmap string pyobj)) :
  hdr_list df_form = Ok hdrs → item_list df_tab = Ok items →
  loop_status env 1 ≠ "Completed" →
  ∃ tr,
    run env df_form df_tab w
    = (Raise (NameError "json_output"),
       {| trace := trace w ++ tr
                     ++ [StartHumanLoop (loop_uuid env) hdrs items;
                         DescribeHumanLoop (loop_uuid env);
                         DescribeWorkteam;
                         DescribeHumanLoop (loop_uuid env)];
          store := store w |})
    ∧ (∀ e, e ∈ tr → e = DescribeFlowDefinition ∨ e = Sleep 2)
    ∧ NameError "json_output" ≠ TimeoutError.
Proof.
  intros Hh Hi Hst.
  destruct (activation_wait_calls env w) as [x [tr [Hrun [Hev Hd]]]].
  exists tr. split; [|split; [done|discriminate]].
  unfold run. rewrite (bind_ok _ _ _ _ _ (Hd _ _ _ _ Hh Hi)).
  rewrite (bind_ok _ _ _ _ _ (review_not_completed _ _ Hst)).
  simpl. by rewrite <- !app_assoc.
Qed.

Lemma review_pending_stops_run_witness :
  ∃ w', run env_in_progress review_form review_tab fresh
        = (Raise (NameError "json_output"), w').
Proof.
  assert (Hh : ∃ hdrs, hdr_list review_form = Ok hdrs)
    by (eexists; vm_compute; reflexivity).
  assert (Hi : ∃ items, item_list review_tab = Ok items)
    by (eexists; vm_compute; reflexivity).
  destruct Hh as [hdrs Hh]. destruct Hi as [items Hi].
  assert (Hst : loop_status env_in_progress 1 ≠ "Completed") by discriminate.
  destruct (review_pending_stops_run env_in_progress review_form review_tab
              fresh hdrs items Hh Hi Hst) as [tr [Hrun _]].
  eexists. exact Hrun.
Defined.

(** C5, as stated, fails: with a review that never reports Completed,
    the run makes two status calls (whatever budget one has in mind),
    never sleeps, and ends in a [NameError], not a [TimeoutError]; it is
    true that nothing is written. *)
Lemma no_completion_poller :
  ∃ w', run env_in_progress review_form review_tab fresh
        = (Raise (NameError "json_output"), w')
    ∧ (Raise (NameError "json_output") : result unit) ≠ Raise TimeoutError
    ∧ count is_describe_loop (trace w') = 2
    ∧ count is_sleep (trace w') = 0
    ∧ count is_write (trace w') = 0.
Proof.
  eexists. split; [vm_compute; reflexivity|].
  split; [discriminate|]. repeat split; vm_compute; reflexivity.
Qed.






(** C8. Two runs of the persistence cells over the same frame, with the
    two identifiers drawn by [uuid4] distinct, create two tables under
    two distinct names, each holding the items of the frame; the second
    run leaves the table of the first as it is.  A run whose table name
    is taken stops at table creation and changes no table: there is no
    path that writes into an existing table.  The name embeds the
    identifier: names are equal only for equal identifiers. *)
Theorem persist_not_idempotent (u1 u2 : string) (df_doc : DataFrame)
    (w : World) :
  has_item_columns df_doc →
  store w !! tablename u1 = None → store w !! tablename u2 = None →
  u1 ≠ u2 →
  ∃ w1 w2,
    persist u1 df_doc w = (Ok (), w1)
    ∧ persist u2 df_doc w1 = (Ok (), w2)
    ∧ tablename u1 ≠ tablename u2
    ∧ store w1 !! tablename u1 = Some (table_of df_doc)
    ∧ store w1 !! tablename u2 = None
    ∧ store w2 !! tablename u1 = Some (table_of df_doc)
    ∧ store w2 !! tablename u2 = Some (table_of df_doc)
    ∧ (∀ u u', tablename u = tablename u' → u = u')
    ∧ (∀ w0 T, store w0 !! tablename u1 = Some T →
         ∃ w0', persist u1 df_doc w0
                = (Raise (ResourceInUseException (tablename u1)), w0')
              ∧ store w0' = store w0).
Proof.
  intros Hcols H1 H2 Hne.
  assert (Hn : tablename u1 ≠ tablename u2).
  { intros H. by apply Hne, tablename_inj. }
  eexists _, _. split; [by apply persist_fresh|].
  split.
  { apply persist_fresh; [done|]. simpl. by rewrite lookup_insert_ne. }
  split; [done|]. simpl.
  split; [apply lookup_insert_eq|].
  split; [by rewrite lookup_insert_ne|].
  split; [by rewrite lookup_insert_ne, lookup_insert_eq by done|].
  split; [apply lookup_insert_eq|].
  split; [apply tablename_inj|].
  intros w0 T HT. eexists. split; [by eapply persist_taken|done].
Qed.

Lemma persist_not_idempotent_witness :
  ∃ w1 w2,
    persist "9a2e" joined_doc fresh = (Ok (), w1)
    ∧ persist "77b0" joined_doc w1 = (Ok (), w2)
    ∧ tablename "9a2e" ≠ tablename "77b0"
    ∧ store w2 !! "emp_hist-9a2e" = Some (table_of joined_doc)
    ∧ store w2 !! "emp_hist-77b0" = Some (table_of joined_doc).
Proof.
  assert (Hcols : has_item_columns joined_doc).
  { unfold has_item_columns. apply Forall_forall. by_decision. }
  assert (Hne : "9a2e" ≠ "77b0") by discriminate.
  destruct (persist_not_idempotent "9a2e" "77b0" joined_doc fresh
              Hcols eq_refl eq_refl Hne)
    as [w1 [w2 [Hp1 [Hp2 [Hn [_ [_ [H1 [H2 _]]]]]]]]].
  exists w1, w2. split; [exact Hp1|]. split; [exact Hp2|].
  split; [exact Hn|]. split; [exact H1|exact H2].
Defined.

(** C9. The activation wait always returns, without raising: it asks
    for the flow status at most 60 times, sleeps 2 seconds after each
    answer other than Active, and stops at the first Active answer.
    When none of the 60 answers is Active it has made 60 calls, and the
    run goes on all the same: given the payload columns, the next call
    is the submission of the task. *)
Theorem flow_activation_wait (env : Env) (w : World) :
  ∃ x tr,
    flow_wait env w = (Ok x, {| trace := trace w ++ tr; store := store w |})
    ∧ count is_describe_flow tr ≤ 60
    ∧ (∀ e, e ∈ tr → e = DescribeFlowDefinition ∨ e = Sleep 2)
    ∧ (∀ j, first_active (flow_status env) 0 60 = Some j →
         j < 60 ∧ flow_status env j = "Active"
         ∧ (∀ i, i < j → flow_status env i ≠ "Active")
         ∧ tr = polls j ++ [DescribeFlowDefinition]
         ∧ count is_describe_flow tr = j + 1)
    ∧ (first_active (flow_status env) 0 60 = None →
         (∀ i, i < 60 → flow_status env i ≠ "Active")
         ∧ tr = polls 60 ∧ count is_describe_flow tr = 60)
    ∧ (∀ df_form df_tab hdrs items,
         hdr_list df_form = Ok hdrs → item_list df_tab = Ok items →
         dispatch env df_form df_tab w
         = (Ok x, {| trace := trace w ++ tr
                                ++ [StartHumanLoop (loop_uuid env) hdrs items];
                     store := store w |})).
Proof.
  destruct (flow_loop_spec env (range 60) 0 None w) as [x [tr [Hrun Htr]]].
  change (length (range 60)) with 60 in Htr.
  exists x, tr. split; [done|].
  assert (Hsome : ∀ j, first_active (flow_status env) 0 60 = Some j →
            j < 60 ∧ flow_status env j = "Active"
            ∧ (∀ i, i < j → flow_status env i ≠ "Active")
            ∧ tr = polls j ++ [DescribeFlowDefinition]
            ∧ count is_describe_flow tr = j + 1).
  { intros j Hj. rewrite Hj, Nat.sub_0_r in Htr.
    apply first_active_Some in Hj as [Hlt [Hact Hbefore]].
    split; [lia|]. split; [done|]. split; [intros i Hi; apply Hbefore; lia|].
    split; [done|]. rewrite Htr, count_app, polls_count. done. }
  assert (Hnone : first_active (flow_status env) 0 60 = None →
            (∀ i, i < 60 → flow_status env i ≠ "Active")
            ∧ tr = polls 60 ∧ count is_describe_flow tr = 60).
  { intros Hn. rewrite Hn in Htr. split.
    - intros i Hi. eapply first_active_None; [exact Hn|lia].
    - split; [done|]. by rewrite Htr, polls_count. }
  split.
  { destruct (first_active (flow_status env) 0 60) as [j|] eqn:Hj.
    - destruct (Hsome j eq_refl) as [Hlt [_ [_ [_ ->]]]]. lia.
    - destruct (Hnone eq_refl) as [_ [_ ->]]. done. }
  split.
  { intros e He. rewrite Htr in He.
    destruct (first_active (flow_status env) 0 60) as [j|].
    - apply elem_of_app in He as [He|He]; [by eapply polls_events|].
      apply list_elem_of_singleton in He. by left.
    - by eapply polls_events. }
  split; [done|]. split; [done|].
  intros df_form df_tab hdrs items Hh Hi.
  unfold dispatch. fold (flow_wait env) in Hrun.
  rewrite (bind_ok _ _ _ _ _ Hrun).
  rewrite Hi, Hh. unfold mbind, M_bind, lift, emit, mret, M_ret. simpl.
  by rewrite <- app_assoc.
Qed.

Lemma flow_activation_wait_witness :
  ∃ x, flow_wait env_in_progress fresh
       = (Ok x, {| trace := [DescribeFlowDefinition]; store := ∅ |}).
Proof.
  destruct (flow_activation_wait env_in_progress fresh)
    as [x [tr [Hrun [_ [_ [Hsome _]]]]]].
  destruct (Hsome 0 eq_refl) as [_ [_ [_ [-> _]]]].
  exists x. exact Hrun.
Defined.

(** C10. After a merge cell ran on an answer dictionary, the cell under a
    corrected column of the row at position [i] is the string [str] gives
    for the result of looking the key up; when the key is absent this
    is the text "None", a string and not the null object.  Every item
    the upload cell leaves in the new table has a string under every
    attribute other than the key. *)
Theorem stored_values_are_strings (d : gmap string pyobj)
    (fs : list (string * string)) (df : DataFrame) :
  range_indexed df → fs = form_fields ∨ fs = tab_fields →
  ∃ df', merge fs (Some (XDict d)) df = Ok df'
    ∧ (∀ i col name, i < len df → (col, name) ∈ fs →
         cell df' i col
         = Some (VStr (str (get d (name +:+ pretty (Z.of_nat i + 1)%Z))))
         ∧ (d !! (name +:+ pretty (Z.of_nat i + 1)%Z) = None →
              cell df' i col = Some (VStr "None")
              ∧ cell df' i col ≠ Some VNone))
    ∧ (∀ uuid df_doc w w',
         persist uuid df_doc w = (Ok (), w') →
         ∃ T, store w' !! tablename uuid = Some T
           ∧ ∀ k item a v, T !! k = Some item → a ≠ "line_nr" →
               item !! a = Some v → ∃ s, v = AttrS s).
Proof.
  intros Hr Hfs.
  assert (Hnd : NoDup fs.*1).
  { destruct Hfs as [-> | ->]; [apply form_fields_NoDup|apply tab_fields_NoDup]. }
  destruct (merge_cells d fs df Hr Hnd) as [df' [Hm [_ [_ Hc]]]].
  exists df'. split; [done|]. split.
  - intros i col name Hi Hin. rewrite (Hc i col name Hi Hin).
    split; [done|]. intros Hnone. unfold stored, get, synth.
    rewrite Hnone. by split.
  - intros uuid df_doc w w' Hrun.
    destruct (store w !! tablename uuid) as [T0|] eqn:Hfresh.
    { by rewrite (persist_taken _ _ _ _ Hfresh) in Hrun. }
    unfold persist, create_cell in Hrun.
    unfold mbind at 1, M_bind at 1 in Hrun.
    unfold mbind at 1, M_bind at 1 in Hrun.
    unfold emit at 1, on_store at 1 in Hrun. simpl in Hrun.
    unfold create_table in Hrun. rewrite Hfresh in Hrun. simpl in Hrun.
    unfold upload_cell in Hrun.
    destruct (upload_rows_inv _ _ _ _ _ _ ∅ Hrun) as [T [HT Hitems]].
    { simpl. apply lookup_insert_eq. }
    exists T. split; [done|]. intros k item a v Hk Ha Hv.
    destruct (Hitems k item Hk) as [Hold|[idx [row ->]]]; [done|].
    destruct (item_spec_strings idx row a v Hv) as [[-> _]|Hs]; done.
Qed.

Lemma stored_values_are_strings_witness :
  ∃ df', merge tab_fields (Some (XDict scenario_answer)) scenario_tab = Ok df'
    ∧ cell df' 0 "TruePosHeld" = Some (VStr "None").
Proof.
  assert (Hr : range_indexed scenario_tab) by reflexivity.
  destruct (stored_values_are_strings scenario_answer tab_fields scenario_tab
              Hr (or_intror eq_refl)) as [df' [Hm [Hc _]]].
  exists df'. split; [exact Hm|].
  refine (proj1 (proj2 (Hc 0 "TruePosHeld" "TruePosHeld" _ _) _)).
  - vm_compute; lia.
  - by_decision.
  - reflexivity.
Defined.

(** * Further properties *)

(** ** Projection and loading at the edges *)

Section ProjectionEdges.

Lemma rstrip_empty_iff (s : string) :
  rstrip s = EmptyString ↔ all_space s = true.
Proof.
  induction s as [|c r IH]; simpl; [done|].
  destruct (rstrip r) eqn:E.
  - destruct (isspace c); simpl; [|done].
    split; [intros _; by apply IH | done].
  - split; [done|]. intros [_ H]%andb_true_iff. by apply IH in H.
Qed.

Lemma rstrip_idempotent (s : string) : rstrip (rstrip s) = rstrip s.
Proof.
  induction s as [|c r IH]; simpl; [done|].
  destruct (rstrip r) eqn:E.
  - destruct (isspace c) eqn:Ec; simpl; [done|]. by rewrite Ec.
  - simpl in IH. simpl. by rewrite IH.
Qed.

Lemma form_rows_last (doc : Document) (p : Page) :
  last (pages doc) = Some p →
  form_rows (iterate_document doc)
  = Ok (map (λ f, [originalText f]) (fields (form p))).
Proof.
  intros Hl. unfold form_rows. rewrite iterate_document_page, Hl.
  by rewrite (fold_left_snoc (λ f, [originalText f])).
Qed.

Lemma tab_rows_last (doc : Document) (t : Table) :
  last (all_tables doc) = Some t →
  tab_rows (iterate_document doc) = Ok (map csvrow (rows t)).
Proof.
  intros Hl. unfold tab_rows. rewrite iterate_document_table, Hl.
  by rewrite (fold_left_snoc csvrow).
Qed.

Lemma all_blank_app (s t : string) :
  all_blank (s +:+ t) = all_blank s && all_blank t.
Proof.
  induction s as [|c r IH]; [done|].
  rewrite sapp_cons. simpl. destruct (classify c); done.
Qed.

Lemma originalText_truthy (f : Field) : truthy (originalText f) = true.
Proof.
  unfold originalText. destruct (str_opt (key f)) as [|c r]; [done|].
  by rewrite sapp_cons.
Qed.

Lemma originalText_blank (f : Field) :
  all_blank (originalText f) = true
  ↔ ∃ k v, key f = Some k ∧ value f = Some v
      ∧ all_blank k = true ∧ all_blank v = true.
Proof.
  unfold originalText. rewrite !all_blank_app.
  change (all_blank " ") with true. rewrite andb_true_l.
  destruct f as [[k|] [v|]]; cbn [key value str_opt].
  - rewrite andb_true_iff. split.
    + intros [? ?]. by exists k, v.
    + by intros (k' & v' & [= <-] & [= <-] & ? & ?).
  - change (all_blank "None") with false.
    rewrite andb_false_r. split; [done|]. by intros (? & ? & _ & ? & _).
  - change (all_blank "None") with false. split; [done|].
    by intros (? & ? & ? & _).
  - change (all_blank "None") with false. split; [done|].
    by intros (? & ? & ? & _).
Qed.

Lemma nonblank_form_rows (fs : list Field) :
  nonblank (map (λ f, [originalText f]) fs)
  = map (λ t, [t]) (visible (map originalText fs)).
Proof.
  unfold nonblank, visible. induction fs as [|f fs IH]; [done|].
  cbn [map]. rewrite !filter_cons.
  change (blank_row [originalText f])
    with (truthy (originalText f) && all_blank (originalText f)).
  rewrite originalText_truthy, andb_true_l.
  destruct (all_blank (originalText f)) eqn:E.
  - rewrite !decide_False by done. exact IH.
  - rewrite !decide_True by done. cbn [map]. by rewrite IH.
Qed.

Lemma rectangular_singletons (texts : list string) :
  rectangular 1 (map (λ t, [t]) texts).
Proof. unfold rectangular. by apply Forall_map, Forall_true. Qed.

Lemma read_csv_form_rows (L : Loader) (fs : list Field) :
  read_csv_form L (write_csv (map (λ f, [originalText f]) fs))
  = match visible (map originalText fs) with
    | [] => Raise (EmptyDataError "No columns to parse from file")
    | _ :: _ =>
        Ok (frame_of L ["FormHeader"]
              (map (λ t, [t]) (visible (map originalText fs))))
    end.
Proof.
  unfold read_csv_form. rewrite tokenize_write_csv, nonblank_form_rows.
  rewrite (check_lines_rectangular _ 1); [|by constructor|apply rectangular_singletons].
  cbn [app bind]. by destruct (visible (map originalText fs)).
Qed.

End ProjectionEdges.

(** X1. The form cell raises a [NameError] for [page] exactly when the
    response has no page, and the table cell raises a [NameError] for
    [table] exactly when no page of the response has a table: the loop
    variables they read were never bound.  In every other case the cells
    write their rows.  The loading of the frames fails with the same
    error. *)
Theorem projection_needs_page_and_table (doc : Document) :
  (form_rows (iterate_document doc) = Raise (NameError "page")
   ↔ pages doc = [])
  ∧ (tab_rows (iterate_document doc) = Raise (NameError "table")
     ↔ all_tables doc = [])
  ∧ (pages doc ≠ [] → ∃ rows, form_rows (iterate_document doc) = Ok rows)
  ∧ (all_tables doc ≠ [] → ∃ rows, tab_rows (iterate_document doc) = Ok rows)
  ∧ (pages doc = [] → ∀ L, load_form L doc = Raise (NameError "page"))
  ∧ (all_tables doc = [] → ∀ L, load_tab L doc = Raise (NameError "table")).
Proof.
  assert (Hf : form_rows (iterate_document doc) = Raise (NameError "page")
               ↔ pages doc = []).
  { unfold form_rows. rewrite iterate_document_page.
    destruct (last (pages doc)) eqn:E.
    - split; [done|]. intros H. by rewrite H in E.
    - split; [|done]. intros _. by apply last_None. }
  assert (Ht : tab_rows (iterate_document doc) = Raise (NameError "table")
               ↔ all_tables doc = []).
  { unfold tab_rows. rewrite iterate_document_table.
    destruct (last (all_tables doc)) eqn:E.
    - split; [done|]. intros H. by rewrite H in E.
    - split; [|done]. intros _. by apply last_None. }
  split_and!; try done.
  - intros Hne. destruct (last (pages doc)) as [p|] eqn:E.
    + eexists. by apply form_rows_last.
    + by apply last_None in E.
  - intros Hne. destruct (last (all_tables doc)) as [t|] eqn:E.
    + eexists. by apply tab_rows_last.
    + by apply last_None in E.
  - intros H L. unfold load_form. apply Hf in H. by rewrite H.
  - intros H L. unfold load_tab. apply Ht in H. by rewrite H.
Qed.

Lemma projection_needs_page_and_table_witness :
  form_rows (iterate_document no_page_doc) = Raise (NameError "page")
  ∧ load_tab text_loader one_page_doc = Raise (NameError "table").
Proof.
  split.
  - by apply (proj1 (projection_needs_page_and_table no_page_doc)).
  - apply (proj2 (proj2 (proj2 (proj2 (proj2
             (projection_needs_page_and_table one_page_doc)))))).
    reflexivity.
Defined.

(** X2. A cell whose text is whitespace only is not dropped by the table
    cell, as an empty cell is: the test is made on the text before it is
    stripped, so the row gets an empty field for it.  A written row has
    an empty field exactly when a cell of the row has non-empty text of
    whitespace only; it has one field per cell with non-empty text; and
    stripping a written field again changes nothing. *)
Theorem whitespace_cell_becomes_empty_field (row : Row) :
  (EmptyString ∈ csvrow row
   ↔ ∃ cell, cell ∈ cells row ∧ text cell ≠ EmptyString
       ∧ all_space (text cell) = true)
  ∧ length (csvrow row)
    = length (filter (λ cell, text cell ≠ EmptyString) (cells row))
  ∧ (∀ f, f ∈ csvrow row → rstrip f = f).
Proof.
  rewrite csvrow_filter_map. split_and!.
  - rewrite list_elem_of_fmap. split.
    + intros (s & Hs & Hin). apply list_elem_of_filter in Hin as [Ht Hin].
      apply list_elem_of_fmap in Hin as (cell & -> & Hc).
      exists cell. split_and!; [done| |].
      * by apply truthy_nonempty.
      * by apply rstrip_empty_iff.
    + intros (cell & Hc & Hne & Hsp). exists (text cell). split.
      * symmetry. by apply rstrip_empty_iff.
      * apply list_elem_of_filter. split; [by apply truthy_nonempty|].
        apply list_elem_of_fmap. by exists cell.
  - rewrite length_map. induction (cells row) as [|c cs IH]; [done|].
    cbn [map]. rewrite !filter_cons.
    destruct (decide (truthy (text c) = true)) as [E|E].
    + rewrite decide_True by (by apply truthy_nonempty). simpl. by rewrite IH.
    + rewrite decide_False; [exact IH|].
      intros Hne. by apply truthy_nonempty in Hne.
  - intros f (s & -> & _)%list_elem_of_fmap. apply rstrip_idempotent.
Qed.

Lemma whitespace_cell_becomes_empty_field_witness :
  EmptyString ∈ csvrow spaced_row ∧ csvrow spaced_row = ["2019"; EmptyString; "Clerk"].
Proof.
  split; [|reflexivity].
  apply (proj2 (proj1 (whitespace_cell_becomes_empty_field spaced_row))).
  exists {| text := "  " |}. split_and!; [|done|reflexivity].
  right. left.
Defined.

(** X3. The header frame always has the one column FormHeader.  With the
    response's last page [p], loading gives one row per field pair of
    [p] whose written text is not spaces and tabs only, in order; such a
    text arises only from a pair whose key text and value text are both
    there and both blank (an absent key or value is written as the text
    None).  When no row is left, because the page has no field pair or
    blank ones only, the loader raises [EmptyDataError]. *)
Theorem load_form_single_column (L : Loader) (doc : Document) (p : Page) :
  last (pages doc) = Some p →
  load_form L doc
  = match visible (map originalText (fields (form p))) with
    | [] => Raise (EmptyDataError "No columns to parse from file")
    | _ :: _ =>
        Ok (frame_of L ["FormHeader"]
              (map (λ t, [t]) (visible (map originalText (fields (form p))))))
    end
  ∧ (∀ f, all_blank (originalText f) = true
          ↔ ∃ k v, key f = Some k ∧ value f = Some v
              ∧ all_blank k = true ∧ all_blank v = true)
  ∧ (∀ df, load_form L doc = Ok df →
       columns df = ["FormHeader"]
       ∧ len df = length (visible (map originalText (fields (form p))))
       ∧ 0 < len df)
  ∧ (fields (form p) = [] →
       load_form L doc = Raise (EmptyDataError "No columns to parse from file")).
Proof.
  intros Hl.
  assert (Heq : load_form L doc
    = match visible (map originalText (fields (form p))) with
      | [] => Raise (EmptyDataError "No columns to parse from file")
      | _ :: _ =>
          Ok (frame_of L ["FormHeader"]
                (map (λ t, [t]) (visible (map originalText (fields (form p))))))
      end).
  { unfold load_form. rewrite (form_rows_last doc p Hl). cbn [bind].
    apply read_csv_form_rows. }
  split_and!.
  - exact Heq.
  - apply originalText_blank.
  - intros df. rewrite Heq.
    destruct (visible (map originalText (fields (form p)))) as [|t ts] eqn:E;
      [done|].
    intros [= <-]. split_and!; [done| |].
    + rewrite frame_of_len. simpl. by rewrite length_map.
    + rewrite frame_of_len. simpl. lia.
  - intros Hnil. rewrite Heq, Hnil. done.
Qed.

Lemma load_form_single_column_witness :
  last (pages blank_field_doc)
    = Some {| tables := [];
              form := {| fields := [ name_john;
                                     {| key := Some EmptyString;
                                        value := Some EmptyString |} ] |} |}
  ∧ ∃ df, load_form text_loader blank_field_doc = Ok df ∧ len df = 1.
Proof.
  split; [reflexivity|].
  eexists. split.
  - apply (proj1 (load_form_single_column text_loader blank_field_doc _ eq_refl)).
  - reflexivity.
Defined.

(** ** Ragged and empty tables *)

Section RaggedTables.

Implicit Types (L : Loader) (header row : list string)
  (data ls rows : list (list string)).

Lemma length_pad k row : length row ≤ k → length (pad k row) = k.
Proof. intros H. unfold pad. rewrite length_app, length_replicate. lia. Qed.

Lemma pad_full k row : k ≤ length row → pad k row = row.
Proof.
  intros H. unfold pad. replace (k - length row) with 0 by lia.
  apply app_nil_r.
Qed.

Lemma check_lines_app he ls rows1 rows2 :
  check_lines he ls (rows1 ++ rows2)
  = bind (check_lines he ls rows1) (λ ls', check_lines he ls' rows2).
Proof.
  revert ls. induction rows1 as [|r rows1 IH]; intros ls; [done|].
  cbn [app]. rewrite !check_lines_cons.
  destruct (end_line_fields he ls r) as [ls'|e]; cbn [bind]; [apply IH|done].
Qed.

(** After the header line, a line with at most as many fields as the
    line before joins the lines, filled up. *)
Lemma end_line_fields_short he ls prev row :
  (he + 1 ≤ 1)%Z → last ls = Some prev → length row ≤ length prev →
  end_line_fields he ls row = Ok (ls ++ [pad (length prev) row]).
Proof.
  intros Hhe Hl Hle. unfold end_line_fields. rewrite Hl.
  assert (1 ≤ length ls).
  { destruct ls; [done|]. simpl. lia. }
  rewrite decide_False by lia.
  destruct (decide (length row < length prev)).
  - rewrite decide_True by (split; lia). done.
  - rewrite decide_False by lia. rewrite pad_full by lia. done.
Qed.

Lemma check_lines_short he ls prev rows :
  (he + 1 ≤ 1)%Z → last ls = Some prev →
  Forall (λ r, length r ≤ length prev) rows →
  check_lines he ls rows = Ok (ls ++ map (pad (length prev)) rows).
Proof.
  intros Hhe. revert ls prev. induction rows as [|r rows IH];
    intros ls prev Hl Hall.
  - cbn [map]. by rewrite app_nil_r.
  - apply Forall_cons in Hall as [Hr Hall]. rewrite check_lines_cons.
    rewrite (end_line_fields_short he ls prev r) by done. cbn [bind].
    rewrite (IH _ (pad (length prev) r)).
    + rewrite length_pad by done. cbn [map]. by rewrite <- app_assoc.
    + by rewrite last_snoc.
    + by rewrite length_pad.
Qed.

Lemma last_padded k ls rows :
  rows ≠ [] → Forall (λ r, length r ≤ k) rows →
  ∃ prev, last (ls ++ map (pad k) rows) = Some prev ∧ length prev = k.
Proof.
  intros Hne Hall. destruct (last rows) as [x|] eqn:Hl.
  - exists (pad k x). rewrite last_app, fmap_last, Hl. split; [done|].
    apply length_pad. apply last_Some_elem_of in Hl.
    by apply (proj1 (Forall_forall _ _) Hall).
  - by apply last_None in Hl.
Qed.

Lemma end_line_fields_long ls prev row :
  2 ≤ length ls → last ls = Some prev → length prev < length row →
  end_line_fields 0 ls row
  = Raise (ParserError "Error tokenizing data. C error: too many fields").
Proof.
  intros Hn Hl Hlt. unfold end_line_fields. rewrite Hl.
  rewrite decide_True by (split; lia). done.
Qed.

Lemma check_lines_raise he e rows :
  fold_left (λ acc fs, bind acc (λ ls, end_line_fields he ls fs)) rows (Raise e)
  = Raise e.
Proof. by induction rows. Qed.

Lemma nonblank_cons_keep row rows :
  blank_row row = false → nonblank (row :: rows) = row :: nonblank rows.
Proof. intros H. unfold nonblank. by rewrite filter_cons, decide_True. Qed.

Lemma padded_tokens header data :
  Forall (λ r, blank_row r = false) (header :: data) →
  Forall (λ r, length r ≤ length header) data →
  tokenize 0 (write_csv (header :: data))
  = Ok (header :: map (pad (length header)) data).
Proof.
  intros Hnb Hshort. rewrite tokenize_write_csv, nonblank_all by done.
  rewrite check_lines_cons. cbn [end_line_fields last app bind].
  by rewrite (check_lines_short 0 [header] header).
Qed.

End RaggedTables.

(** X4. A table row with fewer fields than the header row is not refused:
    the loader keeps its fields in order from the first column on and
    fills the columns at the right with empty tokens.  So when every row
    under the header row has at most as many fields as the header row
    and no row is blank, the line-item frame has one row per such row,
    the field at position [j] of a row stands under the column at
    position [j], and the columns after the last field hold the empty
    token: a row that lost an empty cell has its later cells one column
    to the left. *)
Theorem short_rows_are_padded (L : Loader) (header : list string)
    (data : list (list string)) :
  Forall (λ r, blank_row r = false) (header :: data) →
  Forall (λ r, length r ≤ length header) data →
  tokenize 0 (write_csv (header :: data))
    = Ok (header :: map (pad (length header)) data)
  ∧ read_csv_tab L (write_csv (header :: data))
    = Ok (frame_of L (col_names L header) (map (pad (length header)) data))
  ∧ (∀ i row, data !! i = Some row →
       ∃ line, map (pad (length header)) data !! i = Some line
         ∧ length line = length header
         ∧ (∀ j s, row !! j = Some s → line !! j = Some s)
         ∧ (∀ j, length row ≤ j < length header →
              line !! j = Some EmptyString))
  ∧ (∀ doc t hrow drows,
       last (all_tables doc) = Some t → rows t = hrow :: drows →
       header = csvrow hrow → data = map csvrow drows →
       load_tab L doc
       = Ok (frame_of L (col_names L header)
               (map (pad (length header)) data))).
Proof.
  intros Hnb Hshort.
  pose proof (padded_tokens header data Hnb Hshort) as Htok.
  assert (Hread : read_csv_tab L (write_csv (header :: data))
    = Ok (frame_of L (col_names L header) (map (pad (length header)) data))).
  { unfold read_csv_tab. rewrite Htok. cbn [bind].
    destruct data as [|first data']; [done|]. cbn [map].
    apply Forall_cons in Hshort as [Hf _].
    rewrite decide_False; [done|]. rewrite length_pad by done. lia. }
  split_and!; [done|done| |].
  - intros i row Hi. exists (pad (length header) row).
    pose proof (proj1 (Forall_lookup _ _) Hshort i row Hi) as Hle.
    simpl in Hle. split_and!.
    + by rewrite list_lookup_fmap, Hi.
    + by apply length_pad.
    + intros j s Hj. unfold pad. by apply lookup_app_l_Some.
    + intros j Hj. unfold pad. rewrite lookup_app_r by lia.
      apply lookup_replicate. split; [done|lia].
  - intros doc t hrow drows Hl Hrows -> ->. unfold load_tab.
    rewrite (tab_rows_last doc t Hl), Hrows. cbn [bind map]. exact Hread.
Qed.

Lemma short_rows_are_padded_witness :
  read_csv_tab text_loader
    (write_csv [["Employer Name"; "Position Held"]; ["Acme"; "Clerk"]; ["Manager"]])
  = Ok (frame_of text_loader ["Employer Name"; "Position Held"]
          [["Acme"; "Clerk"]; ["Manager"; EmptyString]]).
Proof.
  apply (proj1 (proj2 (short_rows_are_padded text_loader
                         ["Employer Name"; "Position Held"]
                         [["Acme"; "Clerk"]; ["Manager"]]
                         ltac:(by repeat constructor)
                         ltac:(repeat constructor; simpl; lia)))).
Defined.

(** X5. From the second row under the header row on, a row with more
    fields than the header row is refused: when the rows before it have
    at most as many fields as the header row, tokenizing stops with a
    [ParserError] at that row, whatever follows, and the line-item frame
    is not loaded. *)
Theorem long_row_is_refused (L : Loader) (header first long : list string)
    (before after : list (list string)) :
  Forall (λ r, blank_row r = false)
         (header :: first :: before ++ long :: after) →
  Forall (λ r, length r ≤ length header) (first :: before) →
  length header < length long →
  tokenize 0 (write_csv (header :: first :: before ++ long :: after))
    = Raise (ParserError "Error tokenizing data. C error: too many fields")
  ∧ read_csv_tab L (write_csv (header :: first :: before ++ long :: after))
    = Raise (ParserError "Error tokenizing data. C error: too many fields").
Proof.
  intros Hnb Hshort Hlong.
  assert (Htok :
    tokenize 0 (write_csv (header :: first :: before ++ long :: after))
    = Raise (ParserError "Error tokenizing data. C error: too many fields")).
  { rewrite tokenize_write_csv, nonblank_all by done.
    rewrite check_lines_cons. cbn [end_line_fields last app bind].
    change (first :: before ++ long :: after)
      with ((first :: before) ++ long :: after).
    rewrite check_lines_app.
    rewrite (check_lines_short 0 [header] header) by done. cbn [bind].
    destruct (last_padded (length header) [header] (first :: before))
      as (prev & Hprev & Hk); [done|done|].
    rewrite check_lines_cons.
    rewrite (end_line_fields_long _ prev); [done| |done|lia].
    rewrite length_app. cbn [length map]. lia. }
  split; [done|]. unfold read_csv_tab. by rewrite Htok.
Qed.

Lemma long_row_is_refused_witness :
  read_csv_tab text_loader
    (write_csv ([["Start Date"]; ["2019"]] ++ ["2020"; "Clerk"] :: []))
  = Raise (ParserError "Error tokenizing data. C error: too many fields").
Proof.
  apply (proj2 (long_row_is_refused text_loader ["Start Date"] ["2019"]
                  ["2020"; "Clerk"] [] []
                  ltac:(by repeat constructor)
                  ltac:(repeat constructor; simpl; lia)
                  ltac:(simpl; lia))).
Defined.

(** X6. A table without a row that holds text gives no frame: when the
    table the table cell reads has no row, or only rows whose cells are
    all empty, the file has no line to read and the loader raises
    [EmptyDataError].  When exactly the first row holds text, the frame
    is loaded with the names made from that row and no row at all. *)
Theorem table_without_data_rows (L : Loader) (doc : Document) (t : Table) :
  last (all_tables doc) = Some t →
  (Forall (λ row, Forall (λ cell, text cell = EmptyString) (cells row)) (rows t) →
     load_tab L doc = Raise (EmptyDataError "No columns to parse from file"))
  ∧ (∀ hrow drows,
       rows t = hrow :: drows →
       ¬ Forall (λ cell, text cell = EmptyString) (cells hrow) →
       Forall (λ row, Forall (λ cell, text cell = EmptyString) (cells row)) drows →
       load_tab L doc = Ok (frame_of L (col_names L (csvrow hrow)) [])
       ∧ len (frame_of L (col_names L (csvrow hrow)) []) = 0).
Proof.
  intros Hl.
  assert (Hblank : ∀ rs,
    Forall (λ row, Forall (λ cell, text cell = EmptyString) (cells row)) rs →
    nonblank (map csvrow rs) = []).
  { intros rs Hall. induction Hall as [|row rs Hrow _ IH]; [done|].
    cbn [map]. unfold nonblank in *. rewrite filter_cons, decide_False; [done|].
    apply csvrow_blank in Hrow. by rewrite Hrow. }
  split.
  - intros Hall. unfold load_tab. rewrite (tab_rows_last doc t Hl).
    cbn [bind]. unfold read_csv_tab.
    rewrite tokenize_write_csv, (Hblank _ Hall). done.
  - intros hrow drows Hrows Hh Hall. split; [|done].
    unfold load_tab. rewrite (tab_rows_last doc t Hl), Hrows.
    cbn [bind map]. unfold read_csv_tab. rewrite tokenize_write_csv.
    rewrite nonblank_cons_keep, (Hblank _ Hall).
    + done.
    + destruct (blank_row (csvrow hrow)) eqn:E; [|done].
      by apply csvrow_blank in E.
Qed.

Lemma table_without_data_rows_witness :
  load_tab text_loader blank_table_doc
  = Raise (EmptyDataError "No columns to parse from file").
Proof.
  apply (proj1 (table_without_data_rows text_loader blank_table_doc
                  {| rows := [cells_of [EmptyString]] |} eq_refl)).
  by repeat constructor.
Defined.

(** ** The payload and the cells after it *)

Section PayloadFacts.

Implicit Types (df : DataFrame) (fs : list (string * string)) (env : Env)
  (w : World).

Lemma missing_column_cons cols (ac : string * string) fs :
  missing_column cols (ac :: fs)
  = if decide (ac.2 ∈ cols) then missing_column cols fs else Some ac.2.
Proof.
  unfold missing_column. cbn [list_find].
  destruct (decide (ac.2 ∈ cols)) as [Hin|Hout].
  - rewrite decide_False by (by intros H; apply H).
    rewrite <- option_fmap_compose. done.
  - by rewrite decide_True.
Qed.

Lemma missing_column_None cols fs :
  missing_column cols fs = None ↔ ∀ ac, ac ∈ fs → ac.2 ∈ cols.
Proof.
  induction fs as [|ac fs IH].
  - split; [|done]. intros _ ac Hin. by apply elem_of_nil in Hin.
  - rewrite missing_column_cons. destruct (decide (ac.2 ∈ cols)) as [Hin|Hout].
    + rewrite IH. split.
      * intros H ac' [->|Hin']%elem_of_cons; [done|by apply H].
      * intros H ac' Hin'. apply H. by right.
    + split; [done|]. intros H. exfalso. apply Hout, H. by left.
Qed.


Lemma column_to_list_in df c :
  c ∈ columns df →
  column_to_list df c
  = Ok (map (λ lr : Z * gmap string pyobj, default VNaN (lr.2 !! c)) (body df)).
Proof. intros H. unfold column_to_list. by rewrite decide_True. Qed.

Lemma column_to_list_out df c :
  c ∉ columns df → column_to_list df c = Raise (KeyError c).
Proof. intros H. unfold column_to_list. by rewrite decide_False. Qed.

(** The columns read for the payload. *)
Lemma payload_columns df fs (acc : list (string * list pyobj)) :
  fold_left
    (λ acc kc, bind acc (λ cols,
       bind (column_to_list df kc.2) (λ vs, Ok (cols ++ [(kc.1, vs)]))))
    fs (Ok acc)
  = match missing_column (columns df) fs with
    | Some c => Raise (KeyError c)
    | None =>
        Ok (acc ++ map (λ kc : string * string,
                          (kc.1, map (λ lr : Z * gmap string pyobj,
                                        default VNaN (lr.2 !! kc.2)) (body df)))
                       fs)
    end.
Proof.
  revert acc. induction fs as [|kc fs IH]; intros acc.
  - cbn. by rewrite app_nil_r.
  - rewrite missing_column_cons. cbn [fold_left bind].
    destruct (decide (kc.2 ∈ columns df)) as [Hin|Hout].
    + rewrite (column_to_list_in df kc.2 Hin). cbn [bind].
      rewrite IH. destruct (missing_column (columns df) fs); [done|].
      cbn [map]. by rewrite <- app_assoc.
    + rewrite (column_to_list_out df kc.2 Hout). cbn [bind].
      apply (fold_bind_raise
               (λ cols (kc : string * string),
                  bind (column_to_list df kc.2)
                       (λ vs, Ok (cols ++ [(kc.1, vs)])))).
Qed.

Lemma payload_entry_fold df (n : nat) fs (d : gmap string pyobj) :
  fold_left (λ d (kv : string * list pyobj),
               <[kv.1 := default VNaN (kv.2 !! n)]> d)
    (map (λ kc : string * string,
            (kc.1, map (λ lr : Z * gmap string pyobj,
                          default VNaN (lr.2 !! kc.2)) (body df))) fs) d
  = fold_left (λ d (kc : string * string),
                 <[kc.1 := default VNaN (cell df n kc.2)]> d) fs d.
Proof.
  revert d. induction fs as [|kc fs IH]; intros d; [done|].
  cbn [map fold_left fst snd]. rewrite IH. do 2 f_equal.
  unfold cell. rewrite list_lookup_fmap.
  by destruct (body df !! n).
Qed.

Lemma payload_spec rowkey df fs :
  payload rowkey fs df
  = match missing_column (columns df) fs with
    | Some c => Raise (KeyError c)
    | None => Ok (map (payload_entry rowkey fs df) (seq 0 (len df)))
    end.
Proof.
  unfold payload. rewrite payload_columns.
  destruct (missing_column (columns df) fs); [done|].
  cbn [bind app]. f_equal. apply map_ext. intros n.
  apply payload_entry_fold.
Qed.

Lemma payload_entry_lookup rowkey df fs n k c :
  NoDup fs.*1 → (k, c) ∈ fs →
  payload_entry rowkey fs df n !! k = Some (default VNaN (cell df n c)).
Proof.
  unfold payload_entry. generalize ({[rowkey := VStr (pretty n)]} : gmap string pyobj).
  induction fs as [|kc fs IH]; intros d Hnd Hin.
  - by apply elem_of_nil in Hin.
  - cbn [fmap list_fmap] in Hnd. apply NoDup_cons in Hnd as [Hk Hnd].
    cbn [fold_left]. apply elem_of_cons in Hin as [<-|Hin].
    + cbn [fst snd]. clear IH Hnd. revert d.
      assert (Hgen : ∀ d : gmap string pyobj,
        d !! k = Some (default VNaN (cell df n c)) →
        fold_left (λ d (kc : string * string),
                     <[kc.1 := default VNaN (cell df n kc.2)]> d) fs d !! k
        = Some (default VNaN (cell df n c))).
      { induction fs as [|kc' fs IH']; intros d Hd; [done|].
        cbn [fold_left]. apply IH'.
        - intros Hin. apply Hk. cbn [fmap list_fmap]. by right.
        - rewrite lookup_insert_ne; [done|]. intros Heq. apply Hk.
          cbn [fmap list_fmap]. rewrite <- Heq. by left. }
      intros d. apply Hgen. by rewrite lookup_insert_eq.
    + by apply IH.
Qed.

Lemma payload_entry_rowkey rowkey df fs n :
  rowkey ∉ fs.*1 →
  payload_entry rowkey fs df n !! rowkey = Some (VStr (pretty n)).
Proof.
  unfold payload_entry.
  assert (Hgen : ∀ d : gmap string pyobj,
    rowkey ∉ fs.*1 → d !! rowkey = Some (VStr (pretty n)) →
    fold_left (λ d (kc : string * string),
                 <[kc.1 := default VNaN (cell df n kc.2)]> d) fs d !! rowkey
    = Some (VStr (pretty n))).
  { induction fs as [|kc fs IH]; intros d Hk Hd; [done|].
    cbn [fold_left]. apply IH.
    - intros Hin. apply Hk. cbn [fmap list_fmap]. by right.
    - rewrite lookup_insert_ne; [done|]. intros Heq. apply Hk.
      cbn [fmap list_fmap]. rewrite <- Heq. by left. }
  intros Hk. apply Hgen; [done|]. by rewrite lookup_singleton_eq.
Qed.

Lemma payload_entry_dom rowkey df fs n :
  dom (payload_entry rowkey fs df n)
  = ({[rowkey]} ∪ list_to_set fs.*1 : gset string).
Proof.
  unfold payload_entry.
  assert (Hgen : ∀ d : gmap string pyobj,
    dom (fold_left (λ d (kc : string * string),
                      <[kc.1 := default VNaN (cell df n kc.2)]> d) fs d)
    = (dom d ∪ list_to_set fs.*1 : gset string)).
  { induction fs as [|kc fs IH]; intros d.
    - cbn [fold_left fmap list_fmap list_to_set]. by rewrite union_empty_r_L.
    - cbn [fold_left fmap list_fmap list_to_set]. rewrite IH, dom_insert_L.
      rewrite (union_comm_L {[kc.1]} (dom d)), <- union_assoc_L. done. }
  by rewrite Hgen, dom_singleton_L.
Qed.

(** The activation loop leaves [x] bound to a number of [range(60)]. *)
Lemma flow_loop_counter env (xs : list Z) k x w :
  xs ≠ [] →
  ∃ n, n ∈ xs ∧ (flow_loop env xs k x w).1 = Ok (Some (XInt n)).
Proof.
  revert k x w. induction xs as [|n xs IH]; intros k x w Hne; [done|].
  cbn [flow_loop]. unfold mbind, M_bind. rewrite emit_eq.
  destruct (String.eqb (flow_status env k) "Active").
  - exists n. split; [by left|done].
  - rewrite emit_eq. destruct xs as [|n' xs'].
    + exists n. split; [by left|done].
    + destruct (IH (S k) (Some (XInt n))
                  {| trace := (trace w ++ [DescribeFlowDefinition]) ++ [Sleep 2];
                     store := store w |}) as [m [Hm Heq]]; [done|].
      exists m. split; [by right|]. exact Heq.
Qed.

Lemma flow_wait_counter env w :
  ∃ n tr,
    flow_wait env w
    = (Ok (Some (XInt n)), {| trace := trace w ++ tr; store := store w |})
    ∧ (0 ≤ n < 60)%Z
    ∧ Forall (λ e, is_flow_event e = true) tr
    ∧ 1 ≤ count is_describe_flow tr.
Proof.
  destruct (flow_loop_spec env (range 60) 0 None w) as [x [tr [Hrun Htr]]].
  destruct (flow_loop_counter env (range 60) 0 None w) as [n [Hn Hx]]; [done|].
  rewrite Hrun in Hx. cbn [fst] in Hx. injection Hx as ->.
  exists n, tr. split_and!; [done| | | |].
  - unfold range in Hn. apply elem_of_seqZ in Hn. lia.
  - unfold range in Hn. apply elem_of_seqZ in Hn. lia.
  - rewrite Htr. destruct (first_active _ _ _).
    + apply Forall_app. split; [|by repeat constructor].
      apply Forall_forall. intros e [->| ->]%polls_events; done.
    + apply Forall_forall. intros e [->| ->]%polls_events; done.
  - rewrite Htr. destruct (first_active _ _ _).
    + rewrite count_app. change (count is_describe_flow [DescribeFlowDefinition]) with 1. lia.
    + rewrite polls_count. change (length (range 60)) with 60. lia.
Qed.

Lemma merge_counter fs (n : Z) df :
  fs ≠ [] → 0 < len df →
  merge fs (Some (XInt n)) df = Raise (AttributeError "get").
Proof.
  intros Hfs Hlen. unfold merge.
  assert (Hraise : ∀ js e,
    fold_left (loop_body fs (Some (XInt n))) js (Raise e) = Raise e).
  { intros js e. induction js as [|j js IH]; [done|].
    cbn [fold_left]. unfold loop_body at 2.
    rewrite (fold_bind_raise (λ a (cf : string * string),
                                assign (Some (XInt n)) j cf.1 cf.2 a)).
    apply IH. }
  destruct (range (len df)) as [|j js] eqn:E.
  - unfold range in E. destruct (len df); [lia|].
    rewrite Nat2Z.inj_succ, seqZ_cons in E by lia. done.
  - cbn [fold_left]. destruct fs as [|cf fs']; [done|].
    unfold loop_body at 2. cbn [fold_left bind]. unfold assign at 2.
    cbn [x_get bind].
    rewrite (fold_bind_raise (λ a (cf : string * string),
                                assign (Some (XInt n)) j cf.1 cf.2 a)).
    by rewrite Hraise.
Qed.

Lemma merge_no_rows fs x df :
  len df = 0 → merge fs x df = Ok (where_notnull_None df).
Proof. intros H. unfold merge. by rewrite H. Qed.

End PayloadFacts.

(** X7. The payload cells read their columns first, in the order of the
    cell, and raise a [KeyError] for the first column the frame does not
    have (for the line items: Start Date, End Date, Employer Name,
    Position Held, Reason for leaving; for the header: FormHeader).
    Otherwise they return one dictionary per row of the frame, in order:
    the dictionary at position [n] has the text of [n] under the row key
    and the cell of the row at position [n] under each payload key, and
    no other key.  The row key is the position, whatever the label. *)
Theorem payload_one_entry_per_row (df_form df_tab : DataFrame) :
  item_list df_tab
    = match missing_column (columns df_tab) pair_fields with
      | Some c => Raise (KeyError c)
      | None => Ok (map (payload_entry "row" pair_fields df_tab)
                        (seq 0 (len df_tab)))
      end
  ∧ hdr_list df_form
    = (if decide ("FormHeader" ∈ columns df_form)
       then Ok (map (payload_entry "hdrrow" [("orighdr", "FormHeader")] df_form)
                    (seq 0 (len df_form)))
       else Raise (KeyError "FormHeader"))
  ∧ (∀ items, item_list df_tab = Ok items → length items = len df_tab)
  ∧ (∀ hdrs, hdr_list df_form = Ok hdrs → length hdrs = len df_form)
  ∧ (∀ n, payload_entry "row" pair_fields df_tab n !! "row"
          = Some (VStr (pretty n))
        ∧ (∀ k c, (k, c) ∈ pair_fields →
             payload_entry "row" pair_fields df_tab n !! k
             = Some (default VNaN (cell df_tab n c)))
        ∧ dom (payload_entry "row" pair_fields df_tab n)
          = ({["row"; "startdate"; "enddate"; "empname"; "posheld"; "resleave"]}
             : gset string))
  ∧ (∀ n, payload_entry "hdrrow" [("orighdr", "FormHeader")] df_form n
          = {["orighdr" := default VNaN (cell df_form n "FormHeader");
              "hdrrow" := VStr (pretty n)]}).
Proof.
  assert (Hi := payload_spec "row" df_tab pair_fields).
  assert (Hh := payload_spec "hdrrow" df_form [("orighdr", "FormHeader")]).
  fold (item_list df_tab) in Hi. fold (hdr_list df_form) in Hh.
  rewrite missing_column_cons in Hh. cbn [snd] in Hh.
  split_and!.
  - exact Hi.
  - rewrite Hh. by destruct (decide ("FormHeader" ∈ columns df_form)).
  - intros items. rewrite Hi. destruct (missing_column _ _); [done|].
    intros [= <-]. by rewrite length_map, length_seq.
  - intros hdrs. rewrite Hh. destruct (decide _); [|done].
    intros [= <-]. by rewrite length_map, length_seq.
  - intros n. split_and!.
    + apply payload_entry_rowkey. by_decision.
    + intros k c Hin. apply payload_entry_lookup; [by_decision|done].
    + rewrite payload_entry_dom. by_decision.
  - intros n. reflexivity.
Qed.

Lemma payload_one_entry_per_row_witness :
  item_list review_form = Raise (KeyError "Start Date")
  ∧ ∃ items, item_list review_tab = Ok items ∧ length items = 1.
Proof.
  split.
  - apply (proj1 (payload_one_entry_per_row review_form review_form)).
  - eexists. split; [reflexivity|].
    apply (proj1 (proj2 (proj2 (payload_one_entry_per_row review_form review_tab)))).
    reflexivity.
Defined.

(** ** The run, stage by stage *)

Section RunOutcomes.

Implicit Types (env : Env) (w : World) (df : DataFrame).

Lemma bind_inv {A B} (m : M A) (k : A → M B) w r w' :
  (m ≫= k) w = (r, w') →
  (∃ e, m w = (Raise e, w') ∧ r = Raise e)
  ∨ (∃ a w1, m w = (Ok a, w1) ∧ k a w1 = (r, w')).
Proof.
  unfold mbind, M_bind. destruct (m w) as [[a|e] w1]; intros H.
  - right. by exists a, w1.
  - left. injection H as <- <-. by exists e.
Qed.

Lemma lift_bind_ok {A B} (a : A) (k : A → M B) w :
  (lift (Ok a) ≫= k) w = k a w.
Proof. reflexivity. Qed.

Lemma lift_bind_raise {A B} e (k : A → M B) w :
  (lift (Raise e) ≫= k) w = (Raise e, w).
Proof. reflexivity. Qed.

(** The activation wait, the payload cells and the submission. *)
Lemma dispatch_outcome env (f t : DataFrame) w :
  ∃ n tr,
    Forall (λ e, is_flow_event e = true) tr
    ∧ 1 ≤ count is_describe_flow tr
    ∧ (0 ≤ n < 60)%Z
    ∧ dispatch env f t w
      = match item_list t, hdr_list f with
        | Raise e, _ =>
            (Raise e, {| trace := trace w ++ tr; store := store w |})
        | Ok _, Raise e =>
            (Raise e, {| trace := trace w ++ tr; store := store w |})
        | Ok items, Ok hdrs =>
            (Ok (Some (XInt n)),
             {| trace := trace w ++ tr
                           ++ [StartHumanLoop (loop_uuid env) hdrs items];
                store := store w |})
        end.
Proof.
  destruct (flow_wait_counter env w) as (n & tr & Hrun & Hn & Hfl & Hc).
  exists n, tr. split_and!; [done|done|lia|lia|].
  unfold dispatch. rewrite (bind_ok _ _ _ _ _ Hrun).
  destruct (item_list t) as [items|e]; [|done].
  rewrite lift_bind_ok. destruct (hdr_list f) as [hdrs|e]; [|done].
  rewrite lift_bind_ok. unfold mbind, M_bind. rewrite emit_eq.
  unfold mret, M_ret. cbn [trace store]. by rewrite <- app_assoc.
Qed.

Lemma item_of_spec cols idx (row : gmap string pyobj) :
  item_of cols idx row
  = match missing_column cols item_fields with
    | Some c => Raise (KeyError c)
    | None => Ok (item_spec idx row)
    end.
Proof.
  unfold item_of, item_spec.
  generalize ({["line_nr" := AttrN idx]} : gmap string attr) as item0.
  generalize item_fields as fs.
  induction fs as [|ac fs IH]; intros item0; [done|].
  rewrite missing_column_cons. cbn [fold_left bind].
  destruct (decide (ac.2 ∈ cols)) as [Hin|Hout].
  - rewrite row_getitem_in by done. cbn [bind]. apply IH.
  - assert (Hk : row_getitem cols row ac.2 = Raise (KeyError ac.2)).
    { unfold row_getitem. by rewrite decide_False. }
    rewrite Hk. cbn [bind].
    apply (fold_bind_raise
             (λ item (ac : string * string),
                bind (row_getitem cols row ac.2)
                     (λ v, Ok (<[ac.1 := AttrS (str v)]> item)))).
Qed.

(** The persistence cells on a store without a table of the new name. *)
Lemma persist_fresh_outcome uuid df w :
  store w !! tablename uuid = None →
  persist uuid df w
  = match body df, missing_column (columns df) item_fields with
    | _ :: _, Some c =>
        (Raise (KeyError c),
         {| trace := trace w ++ [CreateTable (tablename uuid)];
            store := <[tablename uuid := ∅]> (store w) |})
    | _, _ =>
        (Ok (),
         {| trace := trace w ++ CreateTable (tablename uuid)
                       :: map (λ lr, PutItem (tablename uuid) lr.1) (body df);
            store := <[tablename uuid := table_of df]> (store w) |})
    end.
Proof.
  intros Hf.
  destruct (missing_column (columns df) item_fields) as [c|] eqn:Hmiss.
  - unfold persist, create_cell, upload_cell.
    unfold mbind at 1, M_bind at 1. unfold mbind at 1, M_bind at 1.
    unfold emit at 1, on_store at 1. simpl. unfold create_table.
    rewrite Hf. simpl. unfold table_of.
    destruct (body df) as [|lr rest]; [done|].
    rewrite for_each_cons.
    unfold upload_row, mbind, M_bind, lift.
    by rewrite item_of_spec, Hmiss.
  - assert (Hcols : has_item_columns df).
    { unfold has_item_columns. by apply missing_column_None. }
    rewrite (persist_fresh uuid df w Hcols Hf). by destruct (body df).
Qed.

Lemma fold_insert_lookup_inv {V} (f : Z * gmap string pyobj → V)
    (rows : list (Z * gmap string pyobj)) (T : gmap Z V) k v :
  fold_left (λ T lr, <[lr.1 := f lr]> T) rows T !! k = Some v →
  T !! k = Some v ∨ (∃ lr, lr ∈ rows ∧ lr.1 = k ∧ v = f lr).
Proof.
  revert T. induction rows as [|lr rows IH]; intros T H; [by left|].
  cbn [fold_left] in H. destruct (IH _ H) as [Hold|(lr' & Hin & Hk & Hv)].
  - destruct (decide (lr.1 = k)) as [Heq|Hne].
    + rewrite <- Heq, lookup_insert_eq in Hold. injection Hold as <-.
      right. exists lr. split; [by left|done].
    + rewrite lookup_insert_ne in Hold by done. by left.
  - right. exists lr'. split; [by right|done].
Qed.

Lemma item_spec_dom idx (row : gmap string pyobj) :
  dom (item_spec idx row) = item_attributes.
Proof.
  unfold item_spec, item_attributes.
  assert (Hgen : ∀ (fs : list (string * string)) (item : gmap string attr),
    dom (fold_left
           (λ item (ac : string * string),
              <[ac.1 := AttrS (str (default VNaN (row !! ac.2)))]> item) fs item)
    = (dom item ∪ list_to_set fs.*1 : gset string)).
  { induction fs as [|ac fs IH]; intros item.
    - cbn [fold_left fmap list_fmap list_to_set]. by rewrite union_empty_r_L.
    - cbn [fold_left fmap list_fmap list_to_set]. rewrite IH, dom_insert_L.
      rewrite (union_comm_L {[ac.1]} (dom item)), <- union_assoc_L. done. }
  rewrite Hgen, dom_singleton_L. done.
Qed.

(** A successful upload found no table of the new name and left the
    table of the frame. *)
Lemma persist_ok_inv uuid df w w' :
  persist uuid df w = (Ok (), w') →
  store w !! tablename uuid = None
  ∧ w' = {| trace := trace w ++ CreateTable (tablename uuid)
                       :: map (λ lr, PutItem (tablename uuid) lr.1) (body df);
            store := <[tablename uuid := table_of df]> (store w) |}.
Proof.
  intros H. destruct (store w !! tablename uuid) as [T|] eqn:Hf.
  - by rewrite (persist_taken uuid df w T Hf) in H.
  - split; [done|]. rewrite (persist_fresh_outcome uuid df w Hf) in H.
    destruct (body df), (missing_column (columns df) item_fields);
      try done; by injection H as <-.
Qed.



End RunOutcomes.

(** X8. A frame without one of the columns the payload cells read stops
    the run with a [KeyError] for that column, the line-item columns
    being read before FormHeader.  The error comes after the activation
    wait: by then the flow status was asked for at least once, and no
    task was submitted, no status of a review asked for, nothing
    fetched and nothing written. *)
Theorem missing_payload_column_stops_before_submission (env : Env)
    (df_form df_tab : DataFrame) (w : World) (c : string) :
  missing_column (columns df_tab) pair_fields = Some c
  ∨ (missing_column (columns df_tab) pair_fields = None
     ∧ ("FormHeader" ∉ columns df_form) ∧ c = "FormHeader") →
  ∃ tr,
    run env df_form df_tab w
    = (Raise (KeyError c), {| trace := trace w ++ tr; store := store w |})
    ∧ Forall (λ e, is_flow_event e = true) tr
    ∧ 1 ≤ count is_describe_flow tr.
Proof.
  intros Hmiss.
  destruct (dispatch_outcome env df_form df_tab w)
    as (n & tr & Hfl & Hc & _ & Hd).
  exists tr. split_and!; [|done|done].
  unfold run. apply bind_raise. rewrite Hd.
  unfold item_list, hdr_list. rewrite !payload_spec.
  destruct Hmiss as [->|(-> & Hout & ->)]; [done|].
  rewrite missing_column_cons. cbn [snd]. by rewrite decide_False.
Qed.

Lemma missing_payload_column_stops_before_submission_witness :
  ∃ tr, run env_in_progress review_form review_form fresh
        = (Raise (KeyError "Start Date"),
           {| trace := trace fresh ++ tr; store := store fresh |}).
Proof.
  destruct (missing_payload_column_stops_before_submission
              env_in_progress review_form review_form fresh "Start Date")
    as [tr [H _]].
  - left. reflexivity.
  - by exists tr.
Defined.

(** X9. The activation loop leaves [x] bound to its counter, a number of
    [range(60)].  When the review is completed and the answer document
    lists no answer, [x] is not rebound, and the first merge cell stops
    the run at its first assignment with an [AttributeError] for [get],
    for every header frame with a row: the task was submitted and the
    output fetched, and nothing is written. *)
Theorem empty_answer_list_stops_merge (env : Env)
    (df_form df_tab : DataFrame) (w : World)
    (hdrs items : list (gmap string pyobj)) :
  hdr_list df_form = Ok hdrs → item_list df_tab = Ok items →
  loop_status env 1 = "Completed" →
  humanAnswers (loop_output env) = [] →
  0 < len df_form →
  (∃ n tr0, flow_wait env w
            = (Ok (Some (XInt n)),
               {| trace := trace w ++ tr0; store := store w |})
          ∧ (0 ≤ n < 60)%Z)
  ∧ ∃ tr,
      run env df_form df_tab w
      = (Raise (AttributeError "get"),
         {| trace := trace w ++ tr
                       ++ [StartHumanLoop (loop_uuid env) hdrs items;
                           DescribeHumanLoop (loop_uuid env);
                           DescribeWorkteam;
                           DescribeHumanLoop (loop_uuid env);
                           GetObject];
            store := store w |})
      ∧ Forall (λ e, is_flow_event e = true) tr.
Proof.
  intros Hh Hi Hst Hans Hlen. split.
  { destruct (flow_wait_counter env w) as (n & tr & Hrun & Hn & _).
    by exists n, tr. }
  destruct (dispatch_outcome env df_form df_tab w)
    as (n & tr & Hfl & _ & _ & Hd).
  rewrite Hi, Hh in Hd. exists tr. split; [|done].
  unfold run. rewrite (bind_ok _ _ _ _ _ Hd).
  rewrite (bind_ok _ _ _ _ _ (review_completed _ _ Hst)).
  assert (Hm : merge_cell form_fields (Some (XInt n))
                 (Some (loop_output env)) df_form
               = Raise (AttributeError "get")).
  { unfold merge_cell, bind_answer. rewrite Hans. cbn [fold_left].
    by rewrite merge_counter. }
  rewrite Hm, lift_bind_raise. cbn [trace store]. by rewrite <- !app_assoc.
Qed.

Lemma empty_answer_list_stops_merge_witness :
  ∃ w', run env_no_answer review_form review_tab fresh
        = (Raise (AttributeError "get"), w').
Proof.
  destruct (empty_answer_list_stops_merge env_no_answer review_form review_tab
              fresh _ _ eq_refl eq_refl eq_refl eq_refl ltac:(vm_compute; lia))
    as [_ [tr [H _]]].
  eexists. exact H.
Defined.



(** ** Columns, and what the datastore holds afterwards *)

Section ColumnFacts.

Implicit Types (df : DataFrame) (d : gmap string pyobj)
  (fs : list (string * string)) (cols cs : list string).

Lemma add_columns_cons cols c cs :
  add_columns cols (c :: cs)
  = add_columns (if decide (c ∈ cols) then cols else cols ++ [c]) cs.
Proof. reflexivity. Qed.

Lemma add_columns_elem cols cs c :
  c ∈ add_columns cols cs ↔ c ∈ cols ∨ c ∈ cs.
Proof.
  revert cols. induction cs as [|c' cs IH]; intros cols.
  - cbn. split; [by left|]. intros [H|H]; [done|by apply elem_of_nil in H].
  - rewrite add_columns_cons, IH, elem_of_cons.
    destruct (decide (c' ∈ cols)) as [Hin|Hout].
    + split; [intros [H|H]; auto|].
      intros [H|[->|H]]; auto.
    + rewrite elem_of_app, list_elem_of_singleton. tauto.
Qed.

Lemma add_columns_id cols cs :
  (∀ c, c ∈ cs → c ∈ cols) → add_columns cols cs = cols.
Proof.
  induction cs as [|c cs IH]; intros H; [done|].
  rewrite add_columns_cons, decide_True by (apply H; by left).
  apply IH. intros c' Hc'. apply H. by right.
Qed.

Lemma add_columns_twice cols cs :
  add_columns (add_columns cols cs) cs = add_columns cols cs.
Proof.
  apply add_columns_id. intros c Hc. apply add_columns_elem. by right.
Qed.

Lemma at_set_columns df j c v :
  columns (at_set j c v df)
  = if decide (c ∈ columns df) then columns df else columns df ++ [c].
Proof. unfold at_set. by destruct (decide (j ∈ index df)). Qed.

Lemma assign_row_columns d fs j df :
  columns (assign_row d fs j df) = add_columns (columns df) fs.*1.
Proof.
  unfold assign_row. revert df. induction fs as [|cf fs IH]; intros df; [done|].
  cbn [fold_left fmap list_fmap]. rewrite IH, at_set_columns. done.
Qed.

Lemma assign_rows_columns d fs (js : list Z) df :
  columns (assign_rows d fs js df)
  = match js with
    | [] => columns df
    | _ :: _ => add_columns (columns df) fs.*1
    end.
Proof.
  unfold assign_rows. revert df. induction js as [|j js IH]; intros df; [done|].
  cbn [fold_left]. rewrite IH. fold (assign_row d fs j df).
  rewrite assign_row_columns. destruct js; [done|].
  apply add_columns_twice.
Qed.

Lemma range_nil (n : nat) : range n = [] ↔ n = 0.
Proof.
  unfold range. destruct n; [done|].
  rewrite Nat2Z.inj_succ, seqZ_cons by lia. done.
Qed.

Lemma merge_columns d fs df :
  ∃ df', merge fs (Some (XDict d)) df = Ok df'
    ∧ columns df'
      = if decide (len df = 0) then columns df
        else add_columns (columns df) fs.*1.
Proof.
  eexists. split; [apply merge_dict|].
  cbn [where_notnull_None columns]. rewrite assign_rows_columns.
  destruct (decide (len df = 0)) as [H|H].
  - apply range_nil in H. by rewrite H.
  - destruct (range (len df)) eqn:E; [|done]. by apply range_nil in E.
Qed.

Lemma missing_column_first cols (fs1 fs2 : list (string * string)) a c :
  (∀ ac, ac ∈ fs1 → ac.2 ∈ cols) → c ∉ cols →
  missing_column cols (fs1 ++ (a, c) :: fs2) = Some c.
Proof.
  intros Hin Hout. induction fs1 as [|ac fs1 IH].
  - cbn [app]. rewrite missing_column_cons. cbn [snd]. by rewrite decide_False.
  - cbn [app]. rewrite missing_column_cons.
    rewrite decide_True by (apply Hin; by left).
    apply IH. intros ac' H. apply Hin. by right.
Qed.


End ColumnFacts.

(** X11. A merge cell adds its corrected columns at the right of the
    frame, in the order of its assignments, each once; a frame without
    rows gets none, since the loop body never runs (and then [x] is not
    read: the cell returns whatever [x] is bound to).  Running the cell
    again adds no column.  A header frame with the one column FormHeader
    and a row has the columns FormHeader, TrueHeader, Comments
    afterwards. *)
Theorem merge_adds_columns_once (d : gmap string pyobj)
    (fs : list (string * string)) (df : DataFrame) :
  ∃ df', merge fs (Some (XDict d)) df = Ok df'
    ∧ columns df'
      = (if decide (len df = 0) then columns df
         else add_columns (columns df) fs.*1)
    ∧ (∀ c, c ∈ add_columns (columns df) fs.*1
            ↔ c ∈ columns df ∨ c ∈ fs.*1)
    ∧ (∀ d2 df'', merge fs (Some (XDict d2)) df' = Ok df'' →
         columns df'' = columns df')
    ∧ (len df = 0 → ∀ x, merge fs x df = Ok (where_notnull_None df))
    ∧ (columns df = ["FormHeader"] → 0 < len df → fs = form_fields →
         columns df' = ["FormHeader"; "TrueHeader"; "Comments"]).
Proof.
  destruct (merge_columns d fs df) as (df' & Hm & Hcols).
  exists df'. split_and!; [done|done| | | |].
  - intros c. apply add_columns_elem.
  - intros d2 df'' Hm2.
    destruct (merge_columns d2 fs df') as (df2 & Hm2' & Hcols2).
    rewrite Hm2 in Hm2'. injection Hm2' as <-. rewrite Hcols2.
    destruct (decide (len df' = 0)); [done|].
    rewrite Hcols. destruct (decide (len df = 0)) as [H0|H0].
    + exfalso. rewrite merge_no_rows in Hm by done. injection Hm as <-.
      unfold len, where_notnull_None in *. cbn [body] in *.
      by rewrite length_map in *.
    + apply add_columns_twice.
  - intros H0 x. by apply merge_no_rows.
  - intros Hc Hlen ->. rewrite Hcols, decide_False by lia. by rewrite Hc.
Qed.

Lemma merge_adds_columns_once_witness :
  ∃ df', merge form_fields (Some (XDict ∅)) review_form = Ok df'
    ∧ columns df' = ["FormHeader"; "TrueHeader"; "Comments"].
Proof.
  destruct (merge_adds_columns_once ∅ form_fields review_form)
    as (df' & Hm & _ & _ & _ & _ & Hc).
  exists df'. split; [exact Hm|].
  apply Hc; [reflexivity|vm_compute; lia|reflexivity].
Defined.

(** X12. A table that has its header row only gives a line-item frame
    without rows; the merge cell then adds no corrected column to it,
    and the upload cell, which reads TrueStartDate from every row of the
    joined frame, raises a [KeyError] at the first row.  By then the
    review was completed and fetched and the table was created: the run
    leaves an empty table behind. *)
Theorem header_only_table_leaves_empty_table (env : Env)
    (df_form df_tab : DataFrame) (w : World)
    (hdrs items : list (gmap string pyobj)) (a : HumanAnswer) :
  hdr_list df_form = Ok hdrs → item_list df_tab = Ok items →
  loop_status env 1 = "Completed" →
  last (humanAnswers (loop_output env)) = Some a →
  range_indexed df_form → 0 < len df_form → body df_tab = [] →
  columns df_form = ["FormHeader"] →
  (∀ c, c ∈ ["FormHeader"; "TrueHeader"; "Comments"; "TrueStartDate"] →
        c ∉ columns df_tab) →
  store w !! tablename (table_uuid env) = None →
  ∃ tr,
    run env df_form df_tab w
    = (Raise (KeyError "TrueStartDate"),
       {| trace := trace w ++ tr
                     ++ [StartHumanLoop (loop_uuid env) hdrs items;
                         DescribeHumanLoop (loop_uuid env);
                         DescribeWorkteam;
                         DescribeHumanLoop (loop_uuid env);
                         GetObject;
                         CreateTable (tablename (table_uuid env))];
          store := <[tablename (table_uuid env) := ∅]> (store w) |})
    ∧ Forall (λ e, is_flow_event e = true) tr.
Proof.
  intros Hh Hi Hst Ha Hri Hlen Hbody Hcols Hother Hfresh.
  set (d := answerContent a).
  destruct (merge_cells d form_fields df_form Hri form_fields_NoDup)
    as (f' & Hf' & Hlen' & Hri' & _).
  destruct (merge_columns d form_fields df_form) as (f2 & Hf2 & Hc').
  rewrite Hf' in Hf2. injection Hf2 as <-.
  rewrite decide_False, Hcols in Hc' by lia.
  change (add_columns ["FormHeader"] form_fields.*1)
    with ["FormHeader"; "TrueHeader"; "Comments"] in Hc'.
  assert (Ht' : merge_tab (Some (XDict d)) df_tab
                = Ok (where_notnull_None df_tab)).
  { apply merge_no_rows. unfold len. by rewrite Hbody. }
  destruct (run_after_review env df_form df_tab w hdrs items a f'
              (where_notnull_None df_tab) Hh Hi Hst Ha Hf' Ht')
    as (tr & Hev & Hrun).
  exists tr. split.
  2:{ apply Forall_forall. intros e He. by destruct (Hev e He) as [->| ->]. }
  rewrite Hrun.
  destruct (join_cell_range f' (where_notnull_None df_tab))
    as (doc & Hj & Hdc & _ & Hdl).
  { done. }
  { unfold range_indexed, index, len, where_notnull_None. cbn [body].
    by rewrite Hbody. }
  { rewrite Hc'. cbn [where_notnull_None columns].
    intros Hex. apply Exists_exists in Hex as (c & Hc & Hct).
    apply (Hother c); [|done].
    repeat (apply elem_of_cons in Hc as [->|Hc]); try by_decision.
    by apply elem_of_nil in Hc. }
  rewrite Hj, lift_bind_ok.
  rewrite persist_fresh_outcome by done.
  assert (Hne : body doc ≠ []).
  { intros Hnil. unfold len in Hdl, Hlen', Hlen. rewrite Hnil in Hdl.
    simpl in Hdl. lia. }
  assert (Hmiss : missing_column (columns doc) item_fields
                  = Some "TrueStartDate").
  { rewrite Hdc, Hc'. cbn [where_notnull_None columns].
    change item_fields
      with ([("orig_hdr", "FormHeader"); ("true_hdr", "TrueHeader");
             ("comments", "Comments"); ("start_date", "Start Date");
             ("end_date", "End Date"); ("emp_name", "Employer Name");
             ("position_held", "Position Held");
             ("reason_for_leaving", "Reason for leaving")]
            ++ ("true_start_date", "TrueStartDate")
               :: [("true_end_date", "TrueEndDate");
                   ("true_emp_name", "TrueEmpName");
                   ("true_position_held", "TruePosHeld");
                   ("true_reason_for_leaving", "TrueResLeave");
                   ("change_comments", "ChangeComments")]).
    apply missing_column_first.
    - assert (Hpay : ∀ kc, kc ∈ pair_fields → kc.2 ∈ columns df_tab).
      { apply missing_column_None. unfold item_list in Hi.
        rewrite payload_spec in Hi.
        by destruct (missing_column (columns df_tab) pair_fields). }
      intros ac Hac. rewrite elem_of_app.
      repeat (apply elem_of_cons in Hac as [->|Hac]);
        [left; by_decision|left; by_decision|left; by_decision
        |right; apply (Hpay ("startdate", "Start Date")); by_decision
        |right; apply (Hpay ("enddate", "End Date")); by_decision
        |right; apply (Hpay ("empname", "Employer Name")); by_decision
        |right; apply (Hpay ("posheld", "Position Held")); by_decision
        |right; apply (Hpay ("resleave", "Reason for leaving")); by_decision
        |by apply elem_of_nil in Hac].
    - rewrite elem_of_app. intros [Hin|Hin].
      + revert Hin. by_decision.
      + apply (Hother "TrueStartDate"); [by_decision|done]. }
  rewrite Hmiss. destruct (body doc) as [|lr rest]; [done|].
  cbn [trace store]. by rewrite <- !app_assoc.
Qed.

Lemma header_only_table_leaves_empty_table_witness :
  ∃ w', run env_one_answer review_form header_only_tab fresh
        = (Raise (KeyError "TrueStartDate"), w')
      ∧ store w' = {["emp_hist-9a2e" := ∅]}.
Proof.
  destruct (header_only_table_leaves_empty_table env_one_answer review_form
              header_only_tab fresh _ _ {| answerContent := ∅ |}
              eq_refl eq_refl eq_refl eq_refl eq_refl
              ltac:(vm_compute; lia) eq_refl eq_refl
              ltac:(intros c Hc;
                    repeat (apply elem_of_cons in Hc as [->|Hc]);
                    try by_decision; by apply elem_of_nil in Hc)
              eq_refl)
    as [tr [H _]].
  eexists. split; [exact H|reflexivity].
Defined.

(** ** What a run leaves in the datastore *)



(** X14. After the persistence cells ended well on a frame labelled by
    position, the read-back cell, which asks for the item of key 2,
    returns the item of the third row when the frame has three rows or
    more, and raises a [KeyError] for [Item] when it has fewer: the
    response of the datastore then carries no item.  Before the table
    was created, asking for the item raises
    [ResourceNotFoundException]. *)
Theorem readback_needs_three_rows (uuid : string) (df_doc : DataFrame)
    (w w' : World) :
  range_indexed df_doc → persist uuid df_doc w = (Ok (), w') →
  check_cell (tablename uuid) (store w')
    = match body df_doc !! 2 with
      | Some lr => Ok (item_spec 2 lr.2)
      | None => Raise (KeyError "Item")
      end
  ∧ (len df_doc < 3
     ↔ check_cell (tablename uuid) (store w') = Raise (KeyError "Item"))
  ∧ check_cell (tablename uuid) (store w)
    = Raise (ResourceNotFoundException (tablename uuid)).
Proof.
  intros Hri Hp. apply persist_ok_inv in Hp as [Hnone ->]. cbn [store].
  destruct (table_of_range df_doc Hri) as (_ & Hdom & Hrow).
  assert (Hcheck : check_cell (tablename uuid)
                     (<[tablename uuid := table_of df_doc]> (store w))
    = match body df_doc !! 2 with
      | Some lr => Ok (item_spec 2 lr.2)
      | None => Raise (KeyError "Item")
      end).
  { unfold check_cell, get_item. rewrite lookup_insert_eq. cbn [bind].
    destruct (body df_doc !! 2) as [[l r]|] eqn:E.
    - destruct (Hrow 2 l r E) as [-> Hitem].
      change (Z.of_nat 2) with 2%Z in Hitem. by rewrite Hitem.
    - destruct (table_of df_doc !! 2%Z) as [item|] eqn:Hi; [|done].
      assert (Hsome : is_Some (table_of df_doc !! 2%Z)) by by exists item.
      apply Hdom in Hsome. apply lookup_ge_None in E. unfold len in Hsome. lia. }
  split_and!.
  - exact Hcheck.
  - rewrite Hcheck. split.
    + intros Hlt. rewrite (proj2 (lookup_ge_None (body df_doc) 2)); [done|].
      unfold len in Hlt. lia.
    + destruct (body df_doc !! 2) eqn:E; [done|]. intros _.
      apply lookup_ge_None in E. unfold len. lia.
  - unfold check_cell, get_item. by rewrite Hnone.
Qed.

Lemma readback_needs_three_rows_witness :
  ∃ w', persist "9a2e" joined_doc fresh = (Ok (), w')
    ∧ check_cell "emp_hist-9a2e" (store w') = Raise (KeyError "Item").
Proof.
  assert (Hp : ∃ w', persist "9a2e" joined_doc fresh = (Ok (), w'))
    by (eexists; vm_compute; reflexivity).
  assert (Hri : range_indexed joined_doc) by (vm_compute; reflexivity).
  destruct Hp as [w' Hp]. exists w'. split; [exact Hp|].
  destruct (readback_needs_three_rows "9a2e" joined_doc fresh w' Hri Hp)
    as (_ & Hlt & _).
  apply Hlt. vm_compute. lia.
Defined.

(** X15. Every item a successful upload leaves in the new table has the
    same fifteen attributes, [line_nr] and the fourteen the upload cell
    names, whatever the row held; it lies under the key that its
    [line_nr] attribute holds, and this is the label of a row of the
    joined frame. *)
Theorem items_carry_fifteen_attributes (uuid : string) (df_doc : DataFrame)
    (w w' : World) :
  persist uuid df_doc w = (Ok (), w') →
  ∃ T, store w' !! tablename uuid = Some T
    ∧ ∀ k item, T !! k = Some item →
        dom item = item_attributes
        ∧ size (dom item) = 15
        ∧ item !! "line_nr" = Some (AttrN k)
        ∧ ∃ lr, lr ∈ body df_doc ∧ lr.1 = k.
Proof.
  intros Hp. apply persist_ok_inv in Hp as [_ ->]. cbn [store].
  exists (table_of df_doc). split; [apply lookup_insert_eq|].
  intros k item Hk. unfold table_of in Hk.
  apply (fold_insert_lookup_inv (λ lr, item_spec lr.1 lr.2)) in Hk
    as [Hk|(lr & Hin & <- & ->)]; [done|].
  split_and!.
  - apply item_spec_dom.
  - rewrite item_spec_dom. by_decision.
  - apply item_spec_key.
  - by exists lr.
Qed.

Lemma items_carry_fifteen_attributes_witness :
  ∃ w' T, persist "9a2e" joined_doc fresh = (Ok (), w')
    ∧ store w' !! "emp_hist-9a2e" = Some T
    ∧ ∀ k item, T !! k = Some item → size (dom item) = 15.
Proof.
  assert (Hp : ∃ w', persist "9a2e" joined_doc fresh = (Ok (), w'))
    by (eexists; vm_compute; reflexivity).
  destruct Hp as [w' Hp].
  destruct (items_carry_fifteen_attributes "9a2e" joined_doc fresh w' Hp)
    as (T & HT & Hall).
  exists w', T. split; [exact Hp|]. split; [exact HT|].
  intros k item Hk. exact (proj1 (proj2 (Hall k item Hk))).
Defined.

(** ** The shape of the frames *)

Section ShapeFacts.

Implicit Types (df : DataFrame) (r : gmap string pyobj)
  (cols : list string).
















End ShapeFacts.





(** ** Names cut out of texts *)

Section TextFacts.

Implicit Types (s t pat cur : string) (c : ascii).

Lemma has_char_app c s t :
  has_char c (s +:+ t) = has_char c s || has_char c t.
Proof.
  induction s as [|a r IH]; [done|].
  rewrite sapp_cons. cbn [has_char]. by rewrite IH, orb_assoc.
Qed.

Lemma rfind_from_absent c s (i found : Z) :
  has_char c s = false → rfind_from c s i found = found.
Proof.
  revert i found. induction s as [|a r IH]; intros i found H; [done|].
  cbn [has_char] in H. apply orb_false_iff in H as [Ha Hr].
  cbn [rfind_from]. rewrite Ha. by apply IH.
Qed.

Lemma rfind_from_last c s t (i found : Z) :
  has_char c t = false →
  rfind_from c (s +:+ String c t) i found = (i + Z.of_nat (String.length s))%Z.
Proof.
  intros Ht. revert i found. induction s as [|a r IH]; intros i found.
  - rewrite sapp_nil_l. cbn [rfind_from String.length].
    rewrite Ascii.eqb_refl, rfind_from_absent by done. lia.
  - rewrite sapp_cons. cbn [rfind_from String.length]. rewrite IH. lia.
Qed.

Lemma drop_chars_past c s t :
  drop_chars (S (String.length s)) (s +:+ String c t) = t.
Proof. induction s as [|a r IH]; [done|]. by rewrite sapp_cons. Qed.

(** A text with the character splits at its last occurrence. *)
Lemma has_char_split c s :
  has_char c s = true →
  ∃ s1 s2, s = s1 +:+ String c s2 ∧ has_char c s2 = false.
Proof.
  induction s as [|a r IH]; [done|]. cbn [has_char]. intros H.
  destruct (has_char c r) eqn:Hr.
  - destruct (IH eq_refl) as (s1 & s2 & -> & H2).
    exists (String a s1), s2. by rewrite sapp_cons.
  - rewrite orb_false_r in H. apply Ascii.eqb_eq in H as ->.
    exists EmptyString, r. by rewrite sapp_nil_l.
Qed.

Lemma workteamName_last s t :
  has_char SLASH t = false → workteamName (s +:+ String SLASH t) = t.
Proof.
  intros Ht. unfold workteamName, rfind, slice_from.
  rewrite rfind_from_last by done.
  replace (0 + Z.of_nat (String.length s) + 1 <? 0)%Z with false
    by (symmetry; apply Z.ltb_ge; lia).
  replace (Z.to_nat (0 + Z.of_nat (String.length s) + 1))
    with (S (String.length s)) by lia.
  apply drop_chars_past.
Qed.

Lemma workteamName_whole s : has_char SLASH s = false → workteamName s = s.
Proof.
  intros Hs. unfold workteamName, rfind, slice_from.
  by rewrite rfind_from_absent.
Qed.

Lemma literal_pattern_app s t :
  literal_pattern (s +:+ t) = literal_pattern s && literal_pattern t.
Proof.
  induction s as [|a r IH]; [done|].
  rewrite sapp_cons. cbn [literal_pattern]. by rewrite IH, andb_assoc.
Qed.

Lemma prefix_app s t : String.prefix s (s +:+ t) = true.
Proof.
  induction s as [|a r IH]; [by destruct t|].
  rewrite sapp_cons. cbn [String.prefix].
  by destruct (ascii_dec a a).
Qed.

Lemma split_lit_cons pat cur c s :
  split_lit pat 0 cur (String c s)
  = if String.prefix pat (String c s)
    then cur :: split_lit pat (String.length pat - 1) EmptyString s
    else split_lit pat 0 (cur +:+ String c EmptyString) s.
Proof. reflexivity. Qed.

(** The characters of an occurrence are passed over. *)
Lemma split_lit_skip pat (q : string) cur s :
  split_lit pat (String.length q) cur (q +:+ s) = split_lit pat 0 cur s.
Proof.
  induction q as [|a q IH]; [by rewrite sapp_nil_l|].
  rewrite sapp_cons. cbn [String.length split_lit]. exact IH.
Qed.

Lemma split_lit_prefix pat cur s :
  truthy pat = true →
  split_lit pat 0 cur (pat +:+ s) = cur :: split_lit pat 0 EmptyString s.
Proof.
  destruct pat as [|a p]; [done|]. intros _.
  rewrite sapp_cons, split_lit_cons.
  rewrite <- (sapp_cons a p s), prefix_app.
  replace (String.length (String a p) - 1) with (String.length p)
    by (cbn [String.length]; lia).
  by rewrite split_lit_skip.
Qed.

Lemma split_lit_absent pat cur s :
  occurs pat s = false → split_lit pat 0 cur s = [cur +:+ s].
Proof.
  revert cur. induction s as [|c r IH]; intros cur H.
  - by rewrite sapp_nil_r.
  - cbn [occurs] in H. apply orb_false_iff in H as [Hp Hr].
    rewrite split_lit_cons, Hp, IH by done. by rewrite sapp_snoc.
Qed.

Lemma bucket_pattern bucket :
  literal_pattern ("s3://" +:+ bucket +:+ "/")
  && truthy ("s3://" +:+ bucket +:+ "/")
  = literal_pattern bucket.
Proof.
  rewrite !literal_pattern_app.
  change (literal_pattern "s3://") with true.
  change (literal_pattern "/") with true.
  by rewrite andb_true_r, andb_true_r.
Qed.

End TextFacts.

(** X18. The name given to [describe_workteam] is the part of the
    workteam ARN after its last slash: it holds no slash, it is the text
    after a slash whenever that text holds no further slash, and an ARN
    without a slash (as the placeholder the notebook ships with) is
    passed whole.  An ARN that ends in a slash gives the empty name. *)
Theorem workteam_name_is_last_segment (arn : string) :
  has_char SLASH (workteamName arn) = false
  ∧ (∀ s t, arn = s +:+ String SLASH t → has_char SLASH t = false →
       workteamName arn = t)
  ∧ (has_char SLASH arn = false → workteamName arn = arn)
  ∧ (∀ s, arn = s +:+ String SLASH EmptyString →
       workteamName arn = EmptyString)
  ∧ ∃ s, arn = s +:+ workteamName arn.
Proof.
  split_and!.
  - destruct (has_char SLASH arn) eqn:H.
    + destruct (has_char_split SLASH arn H) as (s & t & -> & Ht).
      by rewrite workteamName_last.
    + by rewrite workteamName_whole.
  - intros s t -> Ht. by apply workteamName_last.
  - apply workteamName_whole.
  - intros s ->. by apply workteamName_last.
  - destruct (has_char SLASH arn) eqn:H.
    + destruct (has_char_split SLASH arn H) as (s & t & -> & Ht).
      exists (s +:+ String SLASH EmptyString).
      by rewrite workteamName_last, sapp_snoc.
    + exists EmptyString. by rewrite workteamName_whole, sapp_nil_l.
Qed.

Lemma workteam_name_is_last_segment_witness :
  workteamName team_arn = "reviewers"
  ∧ workteamName "<enter-workteam-arn-here>" = "<enter-workteam-arn-here>".
Proof.
  split.
  - apply (proj1 (proj2 (workteam_name_is_last_segment team_arn))
             "arn:aws:sagemaker:us-east-1:111122223333:workteam/private-crowd"
             "reviewers"); reflexivity.
  - apply (proj1 (proj2 (proj2
             (workteam_name_is_last_segment "<enter-workteam-arn-here>")))).
    reflexivity.
Defined.

(** X19. The key of the answer document is cut out of its address by
    splitting at the address of the session's bucket.  For a bucket
    name in which every character stands for itself, an address that
    starts with the bucket's address gives the rest of the address as
    key, provided the bucket's address does not occur in that rest
    again; an address in which the bucket's address does not occur at
    all, as that of a document in another bucket, makes the subscript
    fail with an [IndexError]. *)
Theorem output_key_follows_bucket_address (bucket : string) :
  literal_pattern bucket = true →
  (∀ key, occurs ("s3://" +:+ bucket +:+ "/") key = false →
     output_bucket_key bucket (("s3://" +:+ bucket +:+ "/") +:+ key) = Key key)
  ∧ (∀ uri, occurs ("s3://" +:+ bucket +:+ "/") uri = false →
       output_bucket_key bucket uri = IndexError).
Proof.
  intros Hlit.
  assert (Hpat : truthy ("s3://" +:+ bucket +:+ "/") = true) by done.
  split.
  - intros key Hkey. unfold output_bucket_key, re_split.
    rewrite bucket_pattern, Hlit.
    rewrite split_lit_prefix by done.
    rewrite split_lit_absent by done. by rewrite sapp_nil_l.
  - intros uri Huri. unfold output_bucket_key, re_split.
    rewrite bucket_pattern, Hlit.
    by rewrite split_lit_absent by done.
Qed.

Lemma output_key_follows_bucket_address_witness :
  output_bucket_key session_bucket
    ("s3://sagemaker-us-east-1-111122223333/" +:+ answer_key)
  = Key answer_key
  ∧ output_bucket_key session_bucket ("s3://another-bucket/" +:+ answer_key)
    = IndexError.
Proof.
  split.
  - apply (proj1 (output_key_follows_bucket_address session_bucket eq_refl)
             answer_key).
    vm_compute. reflexivity.
  - apply (proj2 (output_key_follows_bucket_address session_bucket eq_refl)).
    vm_compute. reflexivity.
Defined.

(** ** Column names shared by the two frames *)

(** X20. The join cell refuses two frames that share a column name: it
    raises a [ValueError] exactly when some column of the header frame
    is a column of the line-item frame, and joins them otherwise.  The
    merge cell has by then added TrueHeader and Comments to a header
    frame with a row: a table with a column of one of these names, or
    named as a column of the header frame, stops a completed review at
    the join cell, after the output was fetched, and nothing is
    written. *)
Theorem join_refuses_shared_column (df_form df_tab : DataFrame) :
  (join_cell df_form df_tab
   = Raise (ValueError "columns overlap but no suffix specified")
   ↔ ∃ c, c ∈ columns df_form ∧ c ∈ columns df_tab)
  ∧ ((¬ ∃ c, c ∈ columns df_form ∧ c ∈ columns df_tab) →
       ∃ df_doc, join_cell df_form df_tab = Ok df_doc
         ∧ columns df_doc = columns df_form ++ columns df_tab)
  ∧ (∀ env w hdrs items a c,
       hdr_list df_form = Ok hdrs → item_list df_tab = Ok items →
       loop_status env 1 = "Completed" →
       last (humanAnswers (loop_output env)) = Some a →
       0 < len df_form →
       c ∈ columns df_tab →
       c ∈ columns df_form ∨ c = "TrueHeader" ∨ c = "Comments" →
       ∃ tr,
         run env df_form df_tab w
         = (Raise (ValueError "columns overlap but no suffix specified"),
            {| trace := trace w ++ tr
                          ++ [StartHumanLoop (loop_uuid env) hdrs items;
                              DescribeHumanLoop (loop_uuid env);
                              DescribeWorkteam;
                              DescribeHumanLoop (loop_uuid env);
                              GetObject];
               store := store w |})).
Proof.
  assert (Hiff : ∀ f t : DataFrame,
    Exists (λ c, c ∈ columns t) (columns f)
    ↔ ∃ c, c ∈ columns f ∧ c ∈ columns t).
  { intros f t. apply Exists_exists. }
  assert (Hraise : ∀ f t : DataFrame,
    (∃ c, c ∈ columns f ∧ c ∈ columns t) →
    join_cell f t = Raise (ValueError "columns overlap but no suffix specified")).
  { intros f t Hex. apply Hiff in Hex. unfold join_cell, join_outer.
    by rewrite decide_True. }
  split_and!.
  - split; [|apply Hraise].
    intros Hj. apply Hiff. unfold join_cell, join_outer in Hj.
    destruct (decide (Exists (λ c, c ∈ columns df_tab) (columns df_form)));
      done.
  - intros Hno. unfold join_cell, join_outer.
    rewrite decide_False by (by rewrite Hiff). cbn [bind].
    eexists. split; reflexivity.
  - intros env w hdrs items a c Hh Hi Hst Ha Hlen Hct Hcf.
    destruct (merge_columns (answerContent a) form_fields df_form)
      as (f' & Hf' & Hcols).
    destruct (merge_columns (answerContent a) tab_fields df_tab)
      as (t' & Ht' & Hcolst).
    destruct (run_after_review env df_form df_tab w hdrs items a f' t'
                Hh Hi Hst Ha Hf' Ht') as (tr & _ & Hrun).
    exists tr. rewrite Hrun, (Hraise f' t'); [done|].
    exists c. split.
    + rewrite Hcols, decide_False by lia. apply add_columns_elem.
      destruct Hcf as [Hcf|[->| ->]]; [by left|right; by_decision..].
    + rewrite Hcolst. destruct (decide (len df_tab = 0)); [done|].
      apply add_columns_elem. by left.
Qed.

Lemma join_refuses_shared_column_witness :
  join_cell merged_form merged_form
  = Raise (ValueError "columns overlap but no suffix specified")
  ∧ ∃ df_doc, join_cell merged_form merged_tab = Ok df_doc.
Proof.
  split.
  - apply (proj1 (join_refuses_shared_column merged_form merged_form)).
    exists "Comments". split; by_decision.
  - destruct (proj1 (proj2 (join_refuses_shared_column merged_form merged_tab)))
      as (df_doc & H & _).
    + intros (c & Hf & Ht). revert Ht.
      repeat (apply elem_of_cons in Hf as [->|Hf]); try by_decision.
      by apply elem_of_nil in Hf.
    + by exists df_doc.
Defined.

(** ** The two projections side by side *)

(** X21. The two projection cells read two different leftovers of the
    traversal: the form cell the last page, the table cell the last
    table met on any page.  When the last page has no table, the rows of
    the line-item file therefore come from a table of an earlier page,
    while the rows of the header file come from the last page. *)
Theorem projections_may_read_different_pages (doc : Document) (p : Page)
    (t : Table) :
  last (pages doc) = Some p → tables p = [] →
  last (all_tables doc) = Some t →
  form_rows (iterate_document doc)
    = Ok (map (λ f, [originalText f]) (fields (form p)))
  ∧ tab_rows (iterate_document doc) = Ok (map csvrow (rows t))
  ∧ ∃ earlier q, pages doc = earlier ++ [p] ∧ q ∈ earlier ∧ t ∈ tables q.
Proof.
  intros Hp Hnone Ht. split_and!.
  - by apply form_rows_last.
  - by apply tab_rows_last.
  - apply last_Some in Hp as [earlier Hp]. exists earlier.
    unfold all_tables in Ht. rewrite Hp, map_app, concat_app in Ht.
    cbn [map concat] in Ht. rewrite Hnone, app_nil_r in Ht.
    apply last_Some_elem_of in Ht.
    apply list_elem_of_In, in_concat in Ht as (ts & Hts & Hin).
    apply in_map_iff in Hts as (q & <- & Hq).
    exists q. split_and!; [done| |]; by apply list_elem_of_In.
Qed.

Lemma projections_may_read_different_pages_witness :
  form_rows (iterate_document table_then_form_doc) = Ok [["Name John"]]
  ∧ tab_rows (iterate_document table_then_form_doc)
    = Ok [["Start Date"]; ["2019"]].
Proof.
  destruct (projections_may_read_different_pages table_then_form_doc one_page
              {| rows := [cells_of ["Start Date"]; cells_of ["2019"]] |}
              eq_refl eq_refl eq_refl) as (Hf & Ht & _).
  split; [exact Hf|exact Ht].
Defined.
